(** * Habit tracker: check-in store, streak and statistics engine

    Shallow embedding of [apps/habit-tracker/app.js].

    Conventions of the embedding.
    - A JavaScript [Date] is its time value: milliseconds since the epoch,
      a [Z].  The calendar arithmetic is the one of ECMA-262 (section
      "Date Objects": [Day], [DayFromYear], [YearFromTime], [MakeDay], ...).
    - The server's time zone is a fixed offset [tz] (milliseconds east of
      UTC, ECMA-262's LocalTZA); daylight-saving changes are not modelled.
    - A calendar date (an SQL [DATE], or the [YYYY-MM-DD] string produced
      by [getLocalDate]) is represented by its day number: days since
      1970-01-01 in the proleptic Gregorian calendar.
    - A JavaScript string is a [string] whose characters are its code
      units (restricted to code units below 256).
    - The PostgreSQL store is a record of tables (lists of rows) together
      with the sequences behind the [SERIAL] columns; a handler is a
      function from the store to a response and a new store.  The store
      fails on one kind of input only, a parameter it cannot read: a
      text with the code unit 0, a text that is no [TIME] or no [DATE],
      an integer outside int4.  Connection failures, the exhaustion
      of a sequence, and a clock so far from the present that the store
      cannot read the text of [getLocalDate] as a [DATE] are not
      modelled.  The order of the rows of a
      query without ORDER BY is not specified by the store; the model
      lists them in the order of its tables, and what is stated of such
      a query is stated up to permutation.  The table [users] is kept
      apart from the other two, which no login touches.
    - Request fields are absent or strings; route parameters [:id] and
      the session's user id are integers, the latter an id of [users].
    - [new Date(today)] on the text of [getLocalDate] is UTC midnight of
      that day when the local year has four digits (1000 to 9999), the
      form ECMA-262 specifies; what is stated of the stages that parse
      that text and depends on its value assumes such a year.

    The definitions come first; the properties follow, from
    "Properties: calendar arithmetic" on. *)

From Stdlib Require Import ZArith List Lia Bool String Ascii.
From Stdlib Require Import Permutation QArith Qround Lqa.
From Stdlib Require PrimFloat Uint63.
From Stdlib Require Import Sorted DecimalString.
Import ListNotations.
Open Scope string_scope.
Open Scope list_scope.
Open Scope Z_scope.

(* ================================================================== *)
(** * ECMAScript dates *)
(* ================================================================== *)

Module JsDate.

Definition msPerDay : Z := 86400000.

Definition Day (t : Z) : Z := t / msPerDay.
Definition TimeWithinDay (t : Z) : Z := t mod msPerDay.

Definition DaysInYear (y : Z) : Z :=
  if negb (y mod 4 =? 0) then 365
  else if negb (y mod 100 =? 0) then 366
  else if negb (y mod 400 =? 0) then 365
  else 366.

Definition DayFromYear (y : Z) : Z :=
  365 * (y - 1970) + (y - 1969) / 4 - (y - 1901) / 100 + (y - 1601) / 400.

Definition TimeFromYear (y : Z) : Z := msPerDay * DayFromYear y.

(** ECMA-262: "the largest integer y such that TimeFromYear(y) <= t".
    Computed from the mean year length (146097 days in 400 years); the
    estimate is off by at most one year, see [YearFromDay_spec]. *)
Definition YearFromDay (d : Z) : Z :=
  let y0 := 1970 + (d * 400) / 146097 in
  if DayFromYear (y0 + 1) <=? d then y0 + 1
  else if DayFromYear y0 <=? d then y0
  else y0 - 1.

Definition YearFromTime (t : Z) : Z := YearFromDay (Day t).

Definition InLeapYear (t : Z) : Z :=
  if DaysInYear (YearFromTime t) =? 365 then 0 else 1.

Definition DayWithinYear (t : Z) : Z := Day t - DayFromYear (YearFromTime t).

(** First day (within the year) of month [m] (0 = January). *)
Definition monthStart (leap m : Z) : Z :=
  match m with
  | 0 => 0
  | 1 => 31
  | 2 => 59 + leap
  | 3 => 90 + leap
  | 4 => 120 + leap
  | 5 => 151 + leap
  | 6 => 181 + leap
  | 7 => 212 + leap
  | 8 => 243 + leap
  | 9 => 273 + leap
  | 10 => 304 + leap
  | 11 => 334 + leap
  | _ => 365 + leap
  end.

Definition MonthFromTime (t : Z) : Z :=
  let d := DayWithinYear t in
  let leap := InLeapYear t in
  if d <? 31 then 0
  else if d <? 59 + leap then 1
  else if d <? 90 + leap then 2
  else if d <? 120 + leap then 3
  else if d <? 151 + leap then 4
  else if d <? 181 + leap then 5
  else if d <? 212 + leap then 6
  else if d <? 243 + leap then 7
  else if d <? 273 + leap then 8
  else if d <? 304 + leap then 9
  else if d <? 334 + leap then 10
  else 11.

Definition DateFromTime (t : Z) : Z :=
  DayWithinYear t - monthStart (InLeapYear t) (MonthFromTime t) + 1.

(** [MakeDay]: the day number of the first of month [month mod 12] of
    year [year + month / 12], plus [date - 1]. *)
Definition MakeDay (year month date : Z) : Z :=
  let ym := year + month / 12 in
  let mn := month mod 12 in
  let leap := if DaysInYear ym =? 365 then 0 else 1 in
  DayFromYear ym + monthStart leap mn + date - 1.

Definition MakeDate (day time : Z) : Z := day * msPerDay + time.

(** [TimeClip]: a time value beyond 8.64e15 ms is NaN ([None]). *)
Definition TimeClip (t : Z) : option Z :=
  if Z.abs t <=? 8640000000000000 then Some t else None.

Section Zone.
(** LocalTZA: local time = UTC + [tz]. *)
Variable tz : Z.

Definition LocalTime (t : Z) : Z := t + tz.
Definition UTC (t : Z) : Z := t - tz.

(** [date.getDate()] *)
Definition getDate (t : Z) : Z := DateFromTime (LocalTime t).

(** [date.setDate(dt)] *)
Definition setDate (t dt : Z) : Z :=
  let lt := LocalTime t in
  UTC (MakeDate (MakeDay (YearFromTime lt) (MonthFromTime lt) dt)
                (TimeWithinDay lt)).

(** [date.setHours(0, 0, 0, 0)] *)
Definition setHours0 (t : Z) : Z :=
  UTC (MakeDate (Day (LocalTime t)) 0).

(** [new Date(year, month, date)], local midnight; a year from 0 to
    99 means 1900 + year. *)
Definition Date_ymd (year month date : Z) : option Z :=
  let yr := if (0 <=? year) && (year <=? 99) then 1900 + year else year in
  TimeClip (UTC (MakeDate (MakeDay yr month date) 0)).

(** [new Date("YYYY-MM-DD")]: a date-only string with a four-digit
    year is read as UTC midnight of that day (ECMA-262, Date.parse).
    Only the days of the years 1000 to 9999 have such a text; what an
    implementation makes of the others is not modelled. *)
Definition Date_of_iso (d : Z) : Z := MakeDate d 0.

(** The [Date] node-postgres builds for a [DATE] column: local
    midnight of that day. *)
Definition Date_of_pg (d : Z) : Z := UTC (MakeDate d 0).

(** [getLocalDate(now)]: the local calendar date, as a day number. *)
Definition getLocalDate (now : Z) : Z := Day (LocalTime now).
End Zone.

End JsDate.

(* ================================================================== *)
(** * JavaScript strings: [trim], [length], [parseInt] *)
(* ================================================================== *)

Module JsString.

(** WhiteSpace and LineTerminator code units below 256: TAB, LF, VT,
    FF, CR, SP and NBSP. *)
Definition isWhiteSpace (c : ascii) : bool :=
  let n := nat_of_ascii c in
  ((9 <=? n) && (n <=? 13) || (n =? 32) || (n =? 160))%nat.

Fixpoint trimStart (s : string) : string :=
  match s with
  | String c s' => if isWhiteSpace c then trimStart s' else s
  | EmptyString => EmptyString
  end.

Fixpoint trimEnd (s : string) : string :=
  match s with
  | String c s' =>
      match trimEnd s' with
      | EmptyString => if isWhiteSpace c then EmptyString else String c EmptyString
      | t => String c t
      end
  | EmptyString => EmptyString
  end.

Definition trim (s : string) : string := trimEnd (trimStart s).

Definition length (s : string) : Z := Z.of_nat (String.length s).

(** Value of a digit in radixes up to 36. *)
Definition digitValue (c : ascii) : option Z :=
  let n := Z.of_nat (nat_of_ascii c) in
  if (48 <=? n) && (n <=? 57) then Some (n - 48)
  else if (97 <=? n) && (n <=? 122) then Some (n - 87)
  else if (65 <=? n) && (n <=? 90) then Some (n - 55)
  else None.

(** The longest prefix of radix-[R] digits, as a number; [acc] is
    [None] while no digit has been read. *)
Fixpoint digits (R : Z) (s : string) (acc : option Z) : option Z :=
  match s with
  | String c s' =>
      match digitValue c with
      | Some v =>
          if v <? R
          then digits R s' (Some (match acc with Some a => a * R + v | None => v end))
          else acc
      | None => acc
      end
  | EmptyString => acc
  end.

(** [parseInt(s)] without a radix; [None] is NaN.  The result is the
    exact integer (the loss of precision of a Number above 2^53 is not
    modelled). *)
Definition parseInt (s : string) : option Z :=
  let S := trimStart s in
  let '(sign, S1) :=
    match S with
    | String "-" r => (-1, r)
    | String "+" r => (1, r)
    | _ => (1, S)
    end in
  let '(R, S2) :=
    match S1 with
    | String "0" (String "x" r) => (16, r)
    | String "0" (String "X" r) => (16, r)
    | _ => (10, S1)
    end in
  option_map (Z.mul sign) (digits R S2 None).

(** Truthiness of an optional string: [undefined] and the empty
    string are falsy. *)
Definition truthy (s : option string) : bool :=
  match s with
  | Some (String _ _) => true
  | _ => false
  end.
End JsString.

(* ================================================================== *)
(** * GET /api/calendar: validation and month window *)
(* ================================================================== *)

(** A [YYYY-MM-DD] query parameter; the day is [None] when the template
    printed NaN. *)
Record ymd := { ymd_year : Z; ymd_month : Z; ymd_day : option Z }.

Inductive calendar_outcome :=
| Calendar_400 (error : string)
| Calendar_query (startDate endDate : ymd).

Definition get_api_calendar (tz : Z) (year month : option string)
  : calendar_outcome :=
  if negb (JsString.truthy year) || negb (JsString.truthy month)
  then Calendar_400 "Year and month are required"
  else
    match year, month with
    | Some year, Some month =>
        match JsString.parseInt year, JsString.parseInt month with
        | Some yearNum, Some monthNum =>
            if (monthNum <? 1) || (monthNum >? 12)
            then Calendar_400 "Invalid year or month"
            else
              Calendar_query
                {| ymd_year := yearNum; ymd_month := monthNum; ymd_day := Some 1 |}
                {| ymd_year := yearNum; ymd_month := monthNum;
                   ymd_day := option_map (JsDate.getDate tz)
                                (JsDate.Date_ymd tz yearNum monthNum 0) |}
        | _, _ => Calendar_400 "Invalid year or month"
        end
    | _, _ => Calendar_400 "Year and month are required"
    end.

(* ================================================================== *)
(** * The store: tables [habits] and [completions] *)
(* ================================================================== *)

(** A row of [habits].  [user_id] is nullable (rows that predate the
    [user_id] migration); [reminder_time] is a nullable [TIME]. *)
Record habit_row := {
  h_id : Z;
  h_user_id : option Z;
  h_name : string;
  h_created_at : Z;
  h_reminder_time : option Z
}.

(** A row of [completions]; UNIQUE(habit_id, completed_date). *)
Record completion_row := {
  c_id : Z;
  c_habit_id : Z;
  c_completed_date : Z
}.

(** The tables and the next value of each [SERIAL] sequence. *)
Record db := {
  habits : list habit_row;
  completions : list completion_row;
  habits_id_seq : Z;
  completions_id_seq : Z
}.

(** What a handler answers. [SendError] is the 500 of a [catch] block:
    the prefix followed by the driver's message. *)
Inductive response :=
| Redirect (location : string)
| Send (status : Z) (body : string)
| SendError (status : Z) (prefix : string).

(** PostgreSQL's input of an [INTEGER] parameter: the integers of
    int4 are read, the others rejected. *)
Definition int4 (n : Z) : bool :=
  (-2147483648 <=? n) && (n <=? 2147483647).

(** PostgreSQL's input of a [TEXT] parameter: a text that contains the
    code unit 0 is rejected. *)
Definition text_ok (s : string) : bool :=
  negb (existsb (fun c => (nat_of_ascii c =? 0)%nat) (list_ascii_of_string s)).

(** [WHERE id = $1 AND user_id = $2] *)
Definition owned_by (id userId : Z) (h : habit_row) : bool :=
  (h_id h =? id) &&
  match h_user_id h with Some u => u =? userId | None => false end.

(** [FROM habits h ... WHERE h.user_id = $2] *)
Definition habits_of (userId : Z) (d : db) : list habit_row :=
  filter (fun h => match h_user_id h with
                   | Some u => u =? userId
                   | None => false
                   end)
         (habits d).

(** [WHERE habit_id = $1 AND completed_date = $2] *)
Definition completion_on (id date : Z) (c : completion_row) : bool :=
  (c_habit_id c =? id) && (c_completed_date c =? date).

(** The constraints of the schema: [id] is the primary key of [habits],
    and (habit_id, completed_date) is unique in [completions]. *)
Definition habits_pk (d : db) : Prop := NoDup (map h_id (habits d)).

Definition completions_unique (d : db) : Prop :=
  NoDup (map (fun c => (c_habit_id c, c_completed_date c)) (completions d)).

Section Handlers.
(** LocalTZA of the server. *)
Variable tz : Z.
(** PostgreSQL's input function of the [TIME] type: the time of day a
    text denotes, or [None] when the text is rejected. *)
Variable time_in : string -> option Z.

(** [ensureAuthenticated]: [user] is [req.user]. *)
Definition ensureAuthenticated (user : option Z)
    (next : Z -> db -> response * db) (d : db) : response * db :=
  match user with
  | Some userId => next userId d
  | None => (Redirect "/login", d)
  end.

(** [reminderTime || null], then converted to [TIME] by the store:
    [inl] is the value stored, [inr] a rejected text. *)
Definition reminder_param (reminderTime : option string)
  : option Z + unit :=
  if JsString.truthy reminderTime
  then match reminderTime with
       | Some txt =>
           match time_in txt with
           | Some t => inl (Some t)
           | None => inr tt
           end
       | None => inl None
       end
  else inl None.

(** A handler whose first query binds [:id]: when the store cannot
    read it the query fails and the [catch] block answers 500 with its
    prefix; otherwise the handler goes on with the integer read. *)
Definition with_id (prefix : string) (id : Z)
    (next : Z -> db -> response * db) (d : db) : response * db :=
  if int4 id then next id d else (SendError 500 prefix, d).

(** POST /add; [now] is CURRENT_TIMESTAMP.  The insert fails, and the
    [catch] block answers, when the store rejects the name or the
    reminder time. *)
Definition post_add (now : Z) (habitName reminderTime : option string)
    (userId : Z) (d : db) : response * db :=
  match habitName with
  | None => (Send 400 "Habit name is required", d)
  | Some name =>
      if negb (JsString.truthy habitName)
         || (JsString.length (JsString.trim name) =? 0)
      then (Send 400 "Habit name is required", d)
      else if JsString.length name >? 100
      then (Send 400 "Habit name too long (max 100 characters)", d)
      else if negb (text_ok (JsString.trim name))
      then (SendError 500 "Insert Error: ", d)
      else
        match reminder_param reminderTime with
        | inr _ => (SendError 500 "Insert Error: ", d)
        | inl rt =>
            let row := {| h_id := habits_id_seq d;
                          h_user_id := Some userId;
                          h_name := JsString.trim name;
                          h_created_at := now;
                          h_reminder_time := rt |} in
            (Redirect "/",
             {| habits := habits d ++ [row];
                completions := completions d;
                habits_id_seq := habits_id_seq d + 1;
                completions_id_seq := completions_id_seq d |})
        end
  end.

(** [INSERT INTO completions (habit_id, completed_date) VALUES ($1, $2)
    ON CONFLICT DO NOTHING]: the sequence advances in both cases. *)
Definition insert_completion (id date : Z) (d : db) : db :=
  {| habits := habits d;
     completions :=
       if existsb (completion_on id date) (completions d)
       then completions d
       else completions d ++
              [{| c_id := completions_id_seq d;
                  c_habit_id := id;
                  c_completed_date := date |}];
     habits_id_seq := habits_id_seq d;
     completions_id_seq := completions_id_seq d + 1 |}.

(** POST /checkin/:id, once the store has read [:id]: [id] is that
    int4 (the router binds it with [with_id]). *)
Definition post_checkin (now : Z) (id : Z) (userId : Z) (d : db)
  : response * db :=
  let today := JsDate.getLocalDate tz now in
  let habitCheck := filter (owned_by id userId) (habits d) in
  if Z.of_nat (List.length habitCheck) =? 0 then (Send 403 "Unauthorized", d)
  else (Redirect "/", insert_completion id today d).

(** [DELETE FROM habits WHERE id = $1 AND user_id = $2], with the
    ON DELETE CASCADE of [completions.habit_id]; returns rowCount. *)
Definition delete_habit (id userId : Z) (d : db) : Z * db :=
  let gone := filter (owned_by id userId) (habits d) in
  (Z.of_nat (List.length gone),
   {| habits := filter (fun h => negb (owned_by id userId h)) (habits d);
      completions :=
        filter (fun c => negb (existsb (fun h => h_id h =? c_habit_id c) gone))
               (completions d);
      habits_id_seq := habits_id_seq d;
      completions_id_seq := completions_id_seq d |}).

(** POST /delete/:id, once the store has read [:id]. *)
Definition post_delete (id : Z) (userId : Z) (d : db) : response * db :=
  let '(rowCount, d') := delete_habit id userId d in
  if rowCount =? 0 then (Send 403 "Unauthorized", d')
  else (Redirect "/", d').

(** [DELETE FROM completions WHERE habit_id = $1 AND completed_date = $2] *)
Definition delete_completion (id date : Z) (d : db) : db :=
  {| habits := habits d;
     completions :=
       filter (fun c => negb (completion_on id date c)) (completions d);
     habits_id_seq := habits_id_seq d;
     completions_id_seq := completions_id_seq d |}.

(** POST /undo/:id, once the store has read [:id]. *)
Definition post_undo (now : Z) (id : Z) (userId : Z) (d : db)
  : response * db :=
  let today := JsDate.getLocalDate tz now in
  let habitCheck := filter (owned_by id userId) (habits d) in
  if Z.of_nat (List.length habitCheck) =? 0 then (Send 403 "Unauthorized", d)
  else (Redirect "/", delete_completion id today d).

(** [UPDATE habits SET name = $1, reminder_time = $2
     WHERE id = $3 AND user_id = $4]; returns rowCount. *)
Definition update_habit (name : string) (rt : option Z) (id userId : Z)
    (d : db) : Z * db :=
  (Z.of_nat (List.length (filter (owned_by id userId) (habits d))),
   {| habits :=
        map (fun h =>
               if owned_by id userId h
               then {| h_id := h_id h;
                       h_user_id := h_user_id h;
                       h_name := name;
                       h_created_at := h_created_at h;
                       h_reminder_time := rt |}
               else h)
            (habits d);
      completions := completions d;
      habits_id_seq := habits_id_seq d;
      completions_id_seq := completions_id_seq d |}).

(** POST /edit/:id.  The checks on the body come first; the update
    then binds the name, the reminder time and [:id], and fails, the
    [catch] block answering, when the store rejects one of them. *)
Definition post_edit (id : Z) (habitName reminderTime : option string)
    (userId : Z) (d : db) : response * db :=
  match habitName with
  | None => (Send 400 "Habit name is required", d)
  | Some name =>
      if negb (JsString.truthy habitName)
         || (JsString.length (JsString.trim name) =? 0)
      then (Send 400 "Habit name is required", d)
      else if JsString.length name >? 100
      then (Send 400 "Habit name too long (max 100 characters)", d)
      else if negb (text_ok (JsString.trim name)) || negb (int4 id)
      then (SendError 500 "Edit Error: ", d)
      else
        match reminder_param reminderTime with
        | inr _ => (SendError 500 "Edit Error: ", d)
        | inl rt =>
            let '(rowCount, d') :=
              update_habit (JsString.trim name) rt id userId d in
            if rowCount =? 0 then (Send 403 "Unauthorized", d')
            else (Redirect "/", d')
        end
  end.
End Handlers.

(** The four routes that change a habit or its completions, with what
    each reads from the request besides [:id] and the session. *)
Inductive mutation :=
| Checkin (now : Z)
| Undo (now : Z)
| Delete
| Edit (habitName reminderTime : option string).

(** The router: [app.post('/checkin/:id')], [app.post('/undo/:id')],
    [app.post('/delete/:id')] and [app.post('/edit/:id')], each behind
    [ensureAuthenticated].  The first three start with a query that
    binds [:id]; /edit checks the body first and binds [:id] itself. *)
Definition route (tz : Z) (time_in : string -> option Z) (m : mutation)
    (id : Z) (user : option Z) (d : db) : response * db :=
  ensureAuthenticated user
    (fun userId =>
       match m with
       | Checkin now =>
           with_id "Check-in Error: " id
             (fun id => post_checkin tz now id userId)
       | Undo now =>
           with_id "Undo Error: " id (fun id => post_undo tz now id userId)
       | Delete =>
           with_id "Delete Error: " id (fun id => post_delete id userId)
       | Edit habitName reminderTime =>
           post_edit time_in id habitName reminderTime userId
       end) d.

(** The requests that write to the store: POST /add and the four
    routes on a habit. *)
Inductive request :=
| Add (now : Z) (habitName reminderTime : option string)
| Mutate (m : mutation) (id : Z).

Definition handle (tz : Z) (time_in : string -> option Z) (req : request)
    (user : option Z) (d : db) : response * db :=
  match req with
  | Add now habitName reminderTime =>
      ensureAuthenticated user (post_add time_in now habitName reminderTime) d
  | Mutate m id => route tz time_in m id user d
  end.

(** The tables [initDb] creates, empty. *)
Definition empty_store : db :=
  {| habits := []; completions := [];
     habits_id_seq := 1; completions_id_seq := 1 |}.

(** The stores the application can be in. *)
Inductive reachable (tz : Z) (time_in : string -> option Z) : db -> Prop :=
| reachable_init : reachable tz time_in empty_store
| reachable_step d req user :
    reachable tz time_in d ->
    reachable tz time_in (snd (handle tz time_in req user d)).

(** Both constraints, and ids below the sequence that hands them out. *)
Definition store_ok (d : db) : Prop :=
  habits_pk d /\ completions_unique d
  /\ Forall (fun h => h_id h < habits_id_seq d) (habits d).

(* ================================================================== *)
(** * JavaScript Numbers: binary64 division, product and [Math.round] *)
(* ================================================================== *)

(** A finite Number is the rational it denotes; an arithmetic operation
    is the exact operation followed by rounding to the nearest binary64
    value, ties to even (IEEE 754).  The exponent range is not modelled
    (no overflow to Infinity, no subnormals): the values that occur
    below lie between 2^-53 and 100. *)
Module JsNumber.

(** The integer nearest to [a / b], ties to even ([0 <= a], [0 < b]). *)
Definition rne_div (a b : Z) : Z :=
  let q := a / b in
  let r := a mod b in
  if 2 * r <? b then q
  else if b <? 2 * r then q + 1
  else if Z.even q then q else q + 1.

(** The binary exponent of [a / b]: the [e] with
    [2^e <= a / b < 2^(e+1)] ([0 < a], [0 < b]). *)
Definition ilog2 (a b : Z) : Z :=
  let e0 := Z.log2 a - Z.log2 b in
  if (if 0 <=? e0 then b * 2 ^ e0 <=? a else b <=? a * 2 ^ (- e0))
  then e0 else e0 - 1.

(** Rounding to 53 significant bits. *)
Definition round64 (x : Q) : Q :=
  let s := Z.sgn (Qnum x) in
  let a := Z.abs (Qnum x) in
  let b := Zpos (Qden x) in
  if a =? 0 then 0%Q
  else
    let sh := 52 - ilog2 a b in
    if 0 <=? sh
    then Qmake (s * rne_div (a * 2 ^ sh) b) (Z.to_pos (2 ^ sh))
    else inject_Z (s * rne_div a (b * 2 ^ (- sh)) * 2 ^ (- sh)).

(** [x / y] and [x * y] on Numbers ([y] is not zero). *)
Definition div (x y : Q) : Q := round64 (x / y)%Q.
Definition mul (x y : Q) : Q := round64 (x * y)%Q.

(** [Math.round]: the nearest integer, a tie going up. *)
Definition Math_round (x : Q) : Z := Qfloor (x + (1 # 2))%Q.

(** An array length as a Number. *)
Definition of_length {A} (l : list A) : Q := inject_Z (Z.of_nat (List.length l)).
End JsNumber.

(** The same computation on the primitive binary64 floats of the
    kernel, to compare [JsNumber] with: [k / n * 100]. *)
Module Binary64.
Definition of_Z (z : Z) : PrimFloat.float :=
  PrimFloat.of_uint63 (Uint63.of_Z z).

(** A dyadic rational whose numerator and denominator are below 2^63. *)
Definition of_Q (x : Q) : PrimFloat.float :=
  PrimFloat.div (of_Z (Qnum x)) (of_Z (Zpos (Qden x))).

Definition percent (k n : Z) : PrimFloat.float :=
  PrimFloat.mul (PrimFloat.div (of_Z k) (of_Z n)) (of_Z 100).

(** All [(k, n)] with [0 <= k <= n] and [1 <= n <= N]. *)
Definition grid (N : nat) : list (Z * Z) :=
  flat_map (fun n => map (fun k => (Z.of_nat k, Z.of_nat n)) (seq 0 (S n)))
           (seq 1 N).

Definition agrees (kn : Z * Z) : bool :=
  let (k, n) := kn in
  PrimFloat.eqb
    (of_Q (JsNumber.mul (JsNumber.div (inject_Z k) (inject_Z n)) (inject_Z 100)))
    (percent k n).
End Binary64.

(* ================================================================== *)
(** * Streaks *)
(* ================================================================== *)

(** Insertion sort by a "comes no later than" test; it is stable, as
    are [ORDER BY] here and [Array.prototype.sort]. *)
Fixpoint insert_sorted {A} (le : A -> A -> bool) (x : A) (l : list A) : list A :=
  match l with
  | [] => [x]
  | y :: l' => if le x y then x :: l else y :: insert_sorted le x l'
  end.

Definition sort_by {A} (le : A -> A -> bool) (l : list A) : list A :=
  fold_right (insert_sorted le) [] l.

(** "Comes no later than" for [ORDER BY completed_date DESC]. *)
Definition desc (x y : Z) : bool := y <=? x.

Section Streak.
Variable tz : Z.

(** The body of both streak loops: [completions] is what is left of
    the array from index [i] on. *)
Fixpoint streak_loop (today : Z) (completions : list Z) (i streak : Z) : Z :=
  match completions with
  | [] => streak
  | c :: rest =>
      let completedDate := JsDate.setHours0 tz c in
      let expectedDate :=
        JsDate.setDate tz today (JsDate.getDate tz today - i) in
      if completedDate =? expectedDate
      then streak_loop today rest (i + 1) (streak + 1)
      else streak
  end.

(** [SELECT completed_date FROM completions WHERE habit_id = $1
     ORDER BY completed_date DESC], each row read into a [Date]. *)
Definition select_completed_dates (habitId : Z) (d : db) : list Z :=
  map (JsDate.Date_of_pg tz)
    (sort_by desc
       (map c_completed_date
          (filter (fun c => c_habit_id c =? habitId) (completions d)))).

(** [calculateStreak(habitId)], at the instant [now]. *)
Definition calculateStreak (now : Z) (habitId : Z) (d : db) : Z :=
  let rows := select_completed_dates habitId d in
  if Z.of_nat (List.length rows) =? 0 then 0
  else
    let today := JsDate.setHours0 tz now in
    streak_loop today rows 0 0.
End Streak.

(* ================================================================== *)
(** * GET /: habits, streaks and statistics *)
(* ================================================================== *)

(** A row of the home-page query, as the driver hands it over:
    [completed_date] is a [Date] or null. *)
Record home_row := {
  r_id : Z;
  r_name : string;
  r_created_at : Z;
  r_reminder_time : option Z;
  r_completed_date : option Z;
  r_checked_today : bool
}.

(** A value of [habitsMap], then an element of [enrichedHabits]. *)
Record habit_view := {
  v_id : Z;
  v_name : string;
  v_created_at : Z;
  v_reminderTime : option Z;
  v_checkedInToday : bool;
  v_streak : Z;
  v_completions : list Z;
  v_totalCompletions : Z
}.

Record stats := {
  totalHabits : Z;
  completedToday : Z;
  totalCompletionsThisWeek : Z;
  totalAllTime : Z;
  completionRate : Z
}.

Record home_view := {
  view_habits : list habit_view;
  view_stats : stats;
  view_sortBy : string
}.

(** A JavaScript [Map] with integer keys: the entries in insertion
    order. *)
Fixpoint Map_has {V} (k : Z) (m : list (Z * V)) : bool :=
  match m with
  | [] => false
  | (k', _) :: m' => (k' =? k) || Map_has k m'
  end.

(** [f(m.get(k))] where [f] mutates the value in place. *)
Fixpoint Map_update {V} (k : Z) (f : V -> V) (m : list (Z * V)) : list (Z * V) :=
  match m with
  | [] => []
  | (k', v) :: m' =>
      if k' =? k then (k', f v) :: m' else (k', v) :: Map_update k f m'
  end.

Definition Map_values {V} (m : list (Z * V)) : list V := map snd m.

Section Home.
Variable tz : Z.
(** [String.prototype.localeCompare] of the runtime's locale. *)
Variable localeCompare : string -> string -> Z.

(** [FROM habits h LEFT JOIN completions c ON h.id = c.habit_id]
    for one habit: the completed dates, or one null. *)
Definition left_join (d : db) (h : habit_row) : list (habit_row * option Z) :=
  match filter (fun c => c_habit_id c =? h_id h) (completions d) with
  | [] => [(h, None)]
  | cs => map (fun c => (h, Some (c_completed_date c))) cs
  end.

(** [ORDER BY h.created_at DESC, c.completed_date DESC]; in
    descending order a null comes first. *)
Definition home_order (a b : habit_row * option Z) : bool :=
  (h_created_at (fst b) <? h_created_at (fst a)) ||
  ((h_created_at (fst a) =? h_created_at (fst b)) &&
   match snd a, snd b with
   | None, _ => true
   | Some _, None => false
   | Some x, Some y => y <=? x
   end).

(** The home-page query with [$1 = today], [$2 = userId]. *)
Definition home_query (today userId : Z) (d : db) : list home_row :=
  map (fun hc : habit_row * option Z =>
         let (h, c) := hc in
         {| r_id := h_id h;
            r_name := h_name h;
            r_created_at := h_created_at h;
            r_reminder_time := h_reminder_time h;
            r_completed_date := option_map (JsDate.Date_of_pg tz) c;
            r_checked_today :=
              match c with Some x => x =? today | None => false end |})
    (sort_by home_order
       (flat_map (left_join d) (habits_of userId d))).

(** One turn of the loop that fills [habitsMap]. *)
Definition group_row (habitsMap : list (Z * habit_view)) (row : home_row)
  : list (Z * habit_view) :=
  let habitsMap :=
    if negb (Map_has (r_id row) habitsMap)
    then habitsMap ++
           [(r_id row,
             {| v_id := r_id row;
                v_name := r_name row;
                v_created_at := r_created_at row;
                v_reminderTime := r_reminder_time row;
                v_checkedInToday := false;
                v_streak := 0;
                v_completions := [];
                v_totalCompletions := 0 |})]
    else habitsMap in
  Map_update (r_id row)
    (fun habit =>
       {| v_id := v_id habit;
          v_name := v_name habit;
          v_created_at := v_created_at habit;
          v_reminderTime := v_reminderTime habit;
          v_checkedInToday :=
            if r_checked_today row then true else v_checkedInToday habit;
          v_streak := v_streak habit;
          v_completions :=
            match r_completed_date row with
            | Some c => v_completions habit ++ [c]
            | None => v_completions habit
            end;
          v_totalCompletions :=
            match r_completed_date row with
            | Some _ => v_totalCompletions habit + 1
            | None => v_totalCompletions habit
            end |})
    habitsMap.

Definition group_rows (rows : list home_row) : list (Z * habit_view) :=
  fold_left group_row rows [].

(** The [map] callback that computes a habit's streak; [today] is
    the [YYYY-MM-DD] string. *)
Definition enrich (today : Z) (habit : habit_view) : habit_view :=
  let todayDate := JsDate.setHours0 tz (JsDate.Date_of_iso today) in
  {| v_id := v_id habit;
     v_name := v_name habit;
     v_created_at := v_created_at habit;
     v_reminderTime := v_reminderTime habit;
     v_checkedInToday := v_checkedInToday habit;
     v_streak := streak_loop tz todayDate (v_completions habit) 0 0;
     v_completions := v_completions habit;
     v_totalCompletions := v_totalCompletions habit |}.

(** [enrichedHabits.sort(...)] for each value of [sortBy]. *)
Definition sort_habits (sortBy : string) (hs : list habit_view)
  : list habit_view :=
  if String.eqb sortBy "oldest" then
    sort_by (fun a b => v_created_at a - v_created_at b <=? 0) hs
  else if String.eqb sortBy "streak" then
    sort_by (fun a b => v_streak b - v_streak a <=? 0) hs
  else if String.eqb sortBy "alphabetical" then
    sort_by (fun a b => localeCompare (v_name a) (v_name b) <=? 0) hs
  else
    sort_by (fun a b => v_created_at b - v_created_at a <=? 0) hs.

(** The [stats] object. *)
Definition compute_stats (today : Z) (enrichedHabits : list habit_view)
  : stats :=
  let totalAllTimeCompletions :=
    fold_left (fun sum h => sum + v_totalCompletions h) enrichedHabits 0 in
  let completionRate :=
    if Z.of_nat (List.length enrichedHabits) >? 0
    then JsNumber.Math_round
           (JsNumber.mul
              (JsNumber.div
                 (JsNumber.of_length (filter v_checkedInToday enrichedHabits))
                 (JsNumber.of_length enrichedHabits))
              (inject_Z 100))
    else 0 in
  {| totalHabits := Z.of_nat (List.length enrichedHabits);
     completedToday :=
       Z.of_nat (List.length (filter v_checkedInToday enrichedHabits));
     totalCompletionsThisWeek :=
       fold_left
         (fun sum h =>
            let weekAgo := JsDate.Date_of_iso today in
            let weekAgo :=
              JsDate.setDate tz weekAgo (JsDate.getDate tz weekAgo - 7) in
            sum + Z.of_nat (List.length
                              (filter (fun d => weekAgo <=? d) (v_completions h))))
         enrichedHabits 0;
     totalAllTime := totalAllTimeCompletions;
     completionRate := completionRate |}.

(** GET /, at the instant [now], with [sort] the query parameter. *)
Definition get_home (now : Z) (sort : option string) (userId : Z) (d : db)
  : home_view :=
  let today := JsDate.getLocalDate tz now in
  let sortBy :=
    match sort with
    | Some s => if JsString.truthy sort then s else "newest"
    | None => "newest"
    end in
  let result_rows := home_query today userId d in
  let habitsMap := group_rows result_rows in
  let enrichedHabits := map (enrich today) (Map_values habitsMap) in
  let enrichedHabits := sort_habits sortBy enrichedHabits in
  {| view_habits := enrichedHabits;
     view_stats := compute_stats today enrichedHabits;
     view_sortBy := sortBy |}.
End Home.

(* ================================================================== *)
(** * Reference definitions the code is compared with *)
(* ================================================================== *)

(** Gregorian leap years. *)
Definition is_leap_year (y : Z) : bool :=
  ((y mod 4 =? 0) && negb (y mod 100 =? 0)) || (y mod 400 =? 0).

(** The number of days of month [m] (1 = January) of year [y]. *)
Definition days_in_month (y m : Z) : Z :=
  match m with
  | 2 => if is_leap_year y then 29 else 28
  | 4 | 6 | 9 | 11 => 30
  | _ => 31
  end.

(** [round(k / n × 100)] in exact arithmetic, a tie going up: the
    integer nearest to [100 k / n] ([0 < n]). *)
Definition round_percent (k n : Z) : Z := (200 * k + n) / (2 * n).

(** The sum of a list of integers. *)
Definition Zsum (l : list Z) : Z := fold_right Z.add 0 l.

(** The sum of a measure [g] over the values of a [Map]. *)
Definition Map_total {V} (g : V -> Z) (m : list (Z * V)) : Z :=
  Zsum (map (fun kv => g (snd kv)) m).

(** Every entry of [habitsMap] carries its key, and every date of its
    [completions] array was read from a row of that habit. *)
Definition grouped_from (rows : list home_row) (m : list (Z * habit_view))
  : Prop :=
  forall k v, In (k, v) m ->
    v_id v = k
    /\ forall t, In t (v_completions v) ->
         exists row, In row rows /\ r_id row = k /\ r_completed_date row = Some t.

(** The completions of habit [h] dated [lo] or later. *)
Definition completions_since (lo : Z) (d : db) (h : habit_row)
  : list completion_row :=
  filter (fun c => (c_habit_id c =? h_id h) && (lo <=? c_completed_date c))
         (completions d).

(** A numeric input in the plain sense: a non-empty string of decimal
    digits. *)
Fixpoint all_decimal_digits (s : string) : bool :=
  match s with
  | EmptyString => true
  | String c s' =>
      (48 <=? Z.of_nat (nat_of_ascii c)) && (Z.of_nat (nat_of_ascii c) <=? 57)
      && all_decimal_digits s'
  end.

Definition is_numeric (s : string) : bool :=
  match s with
  | EmptyString => false
  | _ => all_decimal_digits s
  end.

(* ================================================================== *)
(** * Predicates used to state what the handlers compute *)
(* ================================================================== *)

(** Habit [id] has a completion dated [day]. *)
Definition done_on (d : db) (id day : Z) : bool :=
  existsb (completion_on id day) (completions d).

(** The completion dates of habit [id], in table order. *)
Definition dates_of (d : db) (id : Z) : list Z :=
  map c_completed_date (filter (fun c => c_habit_id c =? id) (completions d)).

(** What the home page is expected to show for habit [h] of the store:
    its columns, whether it has a completion dated [today], its
    completion dates in descending order, their number, and the streak
    that the loop computes from them. *)
Definition expected_view (tz today : Z) (d : db) (h : habit_row) : habit_view :=
  {| v_id := h_id h;
     v_name := h_name h;
     v_created_at := h_created_at h;
     v_reminderTime := h_reminder_time h;
     v_checkedInToday := done_on d (h_id h) today;
     v_streak :=
       streak_loop tz (JsDate.setHours0 tz (JsDate.Date_of_iso today))
         (select_completed_dates tz (h_id h) d) 0 0;
     v_completions := select_completed_dates tz (h_id h) d;
     v_totalCompletions :=
       Z.of_nat (List.length (select_completed_dates tz (h_id h) d)) |}.

(** The dates of the rows of habit [k], in row order; and whether one of
    its rows is flagged [checked_today]. *)
Definition row_dates (k : Z) (rows : list home_row) : list Z :=
  flat_map (fun r => if r_id r =? k
                     then match r_completed_date r with
                          | Some c => [c]
                          | None => []
                          end
                     else [])
           rows.

Definition row_checked (k : Z) (rows : list home_row) : bool :=
  existsb (fun r => (r_id r =? k) && r_checked_today r) rows.

(** The same on the joined rows, before the driver reads them. *)
Definition joined_dates (k : Z) (l : list (habit_row * option Z)) : list Z :=
  flat_map (fun hc : habit_row * option Z =>
              if h_id (fst hc) =? k
              then match snd hc with Some x => [x] | None => [] end
              else [])
           l.

(** What [habitsMap] holds once the rows [seen] have been read. *)
Definition grouped_exactly (seen : list home_row) (m : list (Z * habit_view))
  : Prop :=
  NoDup (map fst m)
  /\ (forall k, In k (map fst m) <-> In k (map r_id seen))
  /\ forall k v, In (k, v) m ->
       v_id v = k
       /\ v_completions v = row_dates k seen
       /\ v_totalCompletions v = Z.of_nat (List.length (row_dates k seen))
       /\ v_checkedInToday v = row_checked k seen
       /\ v_streak v = 0
       /\ exists r, In r seen /\ r_id r = k /\ v_name v = r_name r
                    /\ v_created_at v = r_created_at r
                    /\ v_reminderTime v = r_reminder_time r.

(** How the driver reads one joined row of the home-page query. *)
Definition read_row (tz today : Z) (hc : habit_row * option Z) : home_row :=
  let (h, c) := hc in
  {| r_id := h_id h;
     r_name := h_name h;
     r_created_at := h_created_at h;
     r_reminder_time := h_reminder_time h;
     r_completed_date := option_map (JsDate.Date_of_pg tz) c;
     r_checked_today := match c with Some x => x =? today | None => false end |}.

(** The habit rows carry an owner and a valid name: between 1 and 100
    characters, with no white space at either end. *)
Definition habits_valid (d : db) : Prop :=
  Forall (fun h => h_user_id h <> None
                   /\ 1 <= JsString.length (h_name h) <= 100
                   /\ JsString.trim (h_name h) = h_name h)
         (habits d).

(** Every completion belongs to a habit of the store. *)
Definition no_orphans (d : db) : Prop :=
  Forall (fun c => exists h, In h (habits d) /\ h_id h = c_habit_id c)
         (completions d).

(** A session: the requests served one after the other, each with the
    user the session cookie names ([None] when nobody is logged in). *)
Definition run (tz : Z) (time_in : string -> option Z)
    (reqs : list (request * option Z)) (d : db) : db :=
  fold_left (fun d r => snd (handle tz time_in (fst r) (snd r) d)) reqs d.

(* ================================================================== *)
(** * The read routes that answer JSON *)
(* ================================================================== *)

(** What a read route answers: the redirect of [ensureAuthenticated],
    [res.status(status).json({ error })] with a fixed text,
    [res.status(status).json({ error: err.message })] with the
    driver's, or [res.json(body)]. *)
Inductive answer (A : Type) :=
| To_login
| Status (status : Z) (error : string)
| Failed (status : Z)
| Json (body : A).
Arguments To_login {A}.
Arguments Status {A} status error.
Arguments Failed {A} status.
Arguments Json {A} body.

(** [ensureAuthenticated] in front of a read route. *)
Definition ensureAuthenticated_read {A} (user : option Z)
    (next : Z -> answer A) : answer A :=
  match user with
  | Some userId => next userId
  | None => To_login
  end.

(** [rows.filter(r => r.f).map(r => r.f)] on a nullable column whose
    values, when present, are objects (always truthy). *)
Definition filter_present {A B} (f : A -> option B) (rows : list A) : list B :=
  flat_map (fun r => match f r with Some x => [x] | None => [] end) rows.

(** ** GET /api/history/:id *)

Record history := {
  history_name : string;
  history_completions : list Z
}.

(** [ORDER BY c.completed_date DESC]; in descending order a null
    comes first. *)
Definition history_order (a b : habit_row * option Z) : bool :=
  match snd a, snd b with
  | None, _ => true
  | Some _, None => false
  | Some x, Some y => y <=? x
  end.

(** The query of the route: the name and one completed date, read into
    a [Date], per row. *)
Definition history_query (tz id userId : Z) (d : db)
  : list (string * option Z) :=
  map (fun hc : habit_row * option Z =>
         (h_name (fst hc), option_map (JsDate.Date_of_pg tz) (snd hc)))
    (sort_by history_order
       (flat_map (left_join d) (filter (owned_by id userId) (habits d)))).

(** The handler once the store has read [:id]: [id] is that int4. *)
Definition get_api_history (tz id : Z) (user : option Z) (d : db)
  : answer history :=
  ensureAuthenticated_read user
    (fun userId =>
       let rows := history_query tz id userId d in
       match rows with
       | [] => Status 404 "Habit not found"
       | row0 :: _ =>
           Json {| history_name := fst row0;
                   history_completions := filter_present snd rows |}
       end).

(** The route: the query binds [:id], and fails when the store cannot
    read it; the [catch] block then answers 500 with the driver's
    message. *)
Definition history_route (tz id : Z) (user : option Z) (d : db)
  : answer history :=
  ensureAuthenticated_read user
    (fun userId =>
       if int4 id then get_api_history tz id (Some userId) d
       else Failed 500).

(** ** GET /api/reminders *)

(** [date.getHours()] and [date.getMinutes()] (ECMA-262, HourFromTime
    and MinFromTime of the local time). *)
Definition getHours (tz t : Z) : Z :=
  (JsDate.LocalTime tz t / 3600000) mod 24.

Definition getMinutes (tz t : Z) : Z :=
  (JsDate.LocalTime tz t / 60000) mod 60.

(** [String(n)] for an integer. *)
Definition Number_toString (n : Z) : string :=
  NilZero.string_of_int (Z.to_int n).

(** [s.padStart(targetLength, fill)] for a one-character [fill]. *)
Definition padStart (targetLength : Z) (fill : ascii) (s : string) : string :=
  string_of_list_ascii
    (repeat fill (Z.to_nat (targetLength - JsString.length s))) ++ s.

(** The template that prints the current time as [HH:MM]. *)
Definition currentTime (tz now : Z) : string :=
  padStart 2 "0" (Number_toString (getHours tz now)) ++ ":" ++
  padStart 2 "0" (Number_toString (getMinutes tz now)).

(** A row of the answer; [reminder_time] in seconds since midnight. *)
Record reminder_row := {
  rem_id : Z;
  rem_name : string;
  rem_reminder_time : option Z
}.

(** [FROM habits h LEFT JOIN completions c
     ON h.id = c.habit_id AND c.completed_date = $1] for one habit. *)
Definition left_join_on (today : Z) (d : db) (h : habit_row)
  : list (habit_row * option completion_row) :=
  match filter (fun c => (h_id h =? c_habit_id c)
                         && (c_completed_date c =? today))
               (completions d) with
  | [] => [(h, None)]
  | cs => map (fun c => (h, Some c)) cs
  end.

(** The [WHERE] clause; a comparison with a null is not true. *)
Definition reminder_due (userId currentTime : Z)
    (hc : habit_row * option completion_row) : bool :=
  match h_user_id (fst hc) with Some u => u =? userId | None => false end
  && match h_reminder_time (fst hc) with Some _ => true | None => false end
  && match h_reminder_time (fst hc) with
     | Some r => r <=? currentTime
     | None => false
     end
  && match snd hc with Some _ => false | None => true end.

(** The rows of the query, which has no ORDER BY: the store may
    return them in any order, the model lists them in the order of the
    table. *)
Definition reminders_query (today userId currentTime : Z) (d : db)
  : list reminder_row :=
  map (fun hc : habit_row * option completion_row =>
         {| rem_id := h_id (fst hc);
            rem_name := h_name (fst hc);
            rem_reminder_time := h_reminder_time (fst hc) |})
    (filter (reminder_due userId currentTime)
       (flat_map (left_join_on today d) (habits d))).

(** The route.  It reads the clock twice: [now] is [new Date()], and
    [later] the instant at which [getLocalDate()] builds its default
    argument.  [$3::time] is read by [time_in]. *)
Definition get_api_reminders (tz : Z) (time_in : string -> option Z)
    (now later : Z) (user : option Z) (d : db) : answer (list reminder_row) :=
  ensureAuthenticated_read user
    (fun userId =>
       let today := JsDate.getLocalDate tz later in
       match time_in (currentTime tz now) with
       | None => Status 500 "Database error"
       | Some t => Json (reminders_query today userId t d)
       end).

(** The habits the reminders are compared with: those of the user with
    a reminder time that has passed and no completion today. *)
Definition pending_reminder (today userId currentTime : Z) (d : db)
    (h : habit_row) : bool :=
  match h_user_id h with Some u => u =? userId | None => false end
  && match h_reminder_time h with
     | Some r => r <=? currentTime
     | None => false
     end
  && negb (done_on d (h_id h) today).

(** A number below 100 in two decimal digits: what [HH] and [MM]
    stand for. *)
Definition two_digits (n : Z) : string :=
  String (ascii_of_nat (48 + Z.to_nat (n / 10)))
    (String (ascii_of_nat (48 + Z.to_nat (n mod 10))) EmptyString).

(* ================================================================== *)
(** * Users: the Google login and the session *)
(* ================================================================== *)

(** A row of [users]; [google_id] is UNIQUE NOT NULL. *)
Record user_row := {
  u_id : Z;
  u_google_id : string;
  u_email : string;
  u_name : option string;
  u_picture : option string;
  u_created_at : Z
}.

Record users_table := {
  users : list user_row;
  users_id_seq : Z
}.

(** The profile handed to the verify callback.  [emails] and [photos]
    are absent or arrays of objects with a [value], given here by
    their values; [displayName] is absent or a string. *)
Record profile := {
  profile_id : string;
  profile_emails : option (list string);
  profile_displayName : option string;
  profile_photos : option (list string)
}.

(** [done(null, user)] or [done(err, null)]. *)
Inductive done :=
| Done_user (user : user_row)
| Done_error.

(** The verify callback of the Google strategy; [now] is
    CURRENT_TIMESTAMP.  Reading [emails[0].value] when there is no
    first email, or [photos[0]] when [photos] is absent, throws before
    the insert is sent; an empty [photos] gives a null picture. *)
Definition verify (now : Z) (p : profile) (t : users_table)
  : done * users_table :=
  match filter (fun u => String.eqb (u_google_id u) (profile_id p))
               (users t) with
  | user :: _ => (Done_user user, t)
  | [] =>
      match profile_emails p, profile_photos p with
      | Some (email :: _), Some photos =>
          let newUser := {| u_id := users_id_seq t;
                            u_google_id := profile_id p;
                            u_email := email;
                            u_name := profile_displayName p;
                            u_picture := hd_error photos;
                            u_created_at := now |} in
          (Done_user newUser,
           {| users := users t ++ [newUser];
              users_id_seq := users_id_seq t + 1 |})
      | _, _ => (Done_error, t)
      end
  end.

(** [passport.serializeUser]: the session keeps the user's id. *)
Definition serializeUser (user : user_row) : Z := u_id user.

(** [passport.deserializeUser]: [rows[0]] of the select by id,
    [None] when there is no such row. *)
Definition deserializeUser (id : Z) (t : users_table) : option user_row :=
  hd_error (filter (fun u => u_id u =? id) (users t)).

(** The table [initDb] creates, empty. *)
Definition no_users : users_table := {| users := []; users_id_seq := 1 |}.

(** Logins one after the other, each with its instant. *)
Definition logins (ps : list (Z * profile)) (t : users_table) : users_table :=
  fold_left (fun t np => snd (verify (fst np) (snd np) t)) ps t.

(** The tables the logins can lead to. *)
Inductive users_reachable : users_table -> Prop :=
| users_reachable_init : users_reachable no_users
| users_reachable_step now p t :
    users_reachable t -> users_reachable (snd (verify now p t)).

(** The constraints of [users], and ids below the sequence. *)
Definition users_ok (t : users_table) : Prop :=
  NoDup (map u_id (users t))
  /\ NoDup (map u_google_id (users t))
  /\ Forall (fun u => u_id u < users_id_seq t) (users t).

(* ================================================================== *)
(** * GET /api/calendar: the query and the grouping by date *)
(* ================================================================== *)

Section CalendarData.
Variable tz : Z.
(** PostgreSQL's input function of the [DATE] type on the text of a
    [ymd]: the day number, or [None] when the text is rejected. *)
Variable date_in : ymd -> option Z.
(** "Comes no later than" in the collation of [habits.name]. *)
Variable collate : string -> string -> bool.

(** [ORDER BY c.completed_date, h.name] *)
Definition calendar_order (a b : Z * string) : bool :=
  (fst a <? fst b) || ((fst a =? fst b) && collate (snd a) (snd b)).

(** The query with [$1 = startDate], [$2 = endDate], [$3 = userId]; a
    row is the date, whose text is the key of the answer, and the
    habit's name. *)
Definition calendar_query (startDate endDate userId : Z) (d : db)
  : list (Z * string) :=
  sort_by calendar_order
    (map (fun ch : completion_row * habit_row =>
            (c_completed_date (fst ch), h_name (snd ch)))
       (filter (fun ch : completion_row * habit_row =>
                  (startDate <=? c_completed_date (fst ch))
                  && (c_completed_date (fst ch) <=? endDate)
                  && match h_user_id (snd ch) with
                     | Some u => u =? userId
                     | None => false
                     end)
          (flat_map (fun c =>
                       map (fun h => (c, h))
                         (filter (fun h => c_habit_id c =? h_id h) (habits d)))
             (completions d)))).

(** One turn of the [forEach] that fills [calendarData]. *)
Definition calendar_add (calendarData : list (Z * list string))
    (row : Z * string) : list (Z * list string) :=
  let dateStr := fst row in
  let calendarData :=
    if negb (Map_has dateStr calendarData)
    then calendarData ++ [(dateStr, [])]
    else calendarData in
  Map_update dateStr (fun names => names ++ [snd row]) calendarData.

(** [calendarData]: the keys in insertion order, each with its names. *)
Definition calendar_group (rows : list (Z * string))
  : list (Z * list string) :=
  fold_left calendar_add rows [].

(** The route, after [get_api_calendar] has validated the parameters
    and built the two date texts. *)
Definition get_api_calendar_data (year month : option string)
    (user : option Z) (d : db) : answer (list (Z * list string)) :=
  ensureAuthenticated_read user
    (fun userId =>
       match get_api_calendar tz year month with
       | Calendar_400 error => Status 400 error
       | Calendar_query startDate endDate =>
           match date_in startDate, date_in endDate with
           | Some s, Some e =>
               Json (calendar_group (calendar_query s e userId d))
           | _, _ => Status 500 "Database error"
           end
       end).
End CalendarData.

(** The names of the rows dated [k], in the order of the rows. *)
Definition names_on (k : Z) (rows : list (Z * string)) : list string :=
  map snd (filter (fun r => fst r =? k) rows).

(* ================================================================== *)
(** * The text of [getLocalDate] *)
(* ================================================================== *)

(** [date.getFullYear()] and [date.getMonth()] (0 = January). *)
Definition getFullYear (tz t : Z) : Z :=
  JsDate.YearFromTime (JsDate.LocalTime tz t).

Definition getMonth (tz t : Z) : Z :=
  JsDate.MonthFromTime (JsDate.LocalTime tz t).

(** The fields [getLocalDate] prints as [YYYY-MM-DD]. *)
Definition getLocalDate_text (tz now : Z) : ymd :=
  {| ymd_year := getFullYear tz now;
     ymd_month := getMonth tz now + 1;
     ymd_day := Some (JsDate.getDate tz now) |}.

(* ================================================================== *)
(** * Concrete stores and instants used in the examples *)
(* ================================================================== *)

Module Sample.
(** Habit 1 "Drink water" of user 1 and habit 2 "Read" of user 2, with
    the given (habit, day number) completions. *)
Definition store (cs : list (Z * Z)) : db :=
  {| habits :=
       [ {| h_id := 1; h_user_id := Some 1; h_name := "Drink water";
            h_created_at := 1704067200000; h_reminder_time := Some 28800 |};
         {| h_id := 2; h_user_id := Some 2; h_name := "Read";
            h_created_at := 1704153600000; h_reminder_time := None |} ];
     completions :=
       map (fun '(i, (h, day)) =>
              {| c_id := Z.of_nat i; c_habit_id := h; c_completed_date := day |})
           (combine (seq 1 (List.length cs)) cs);
     habits_id_seq := 3;
     completions_id_seq := Z.of_nat (List.length cs) + 1 |}.

(** Day number of 2024-01-15. *)
Definition jan15 : Z := 19737.

(** 2024-01-15 17:00 UTC. *)
Definition now : Z := jan15 * JsDate.msPerDay + 17 * 3600000.

(** Zone offsets: UTC, UTC-05:00 and UTC+03:00. *)
Definition utc : Z := 0.
Definition utc_minus_5 : Z := - (5 * 3600000).
Definition utc_plus_3 : Z := 3 * 3600000.

(** A [TIME] input that accepts only "08:00". *)
Definition time_in (txt : string) : option Z :=
  if String.eqb txt "08:00" then Some 28800 else None.

(** The letter a followed by 100 spaces: 101 characters, 1 once
    trimmed. *)
Definition padded_name : string :=
  String "a" (string_of_list_ascii (repeat " "%char 100)).

(** A [localeCompare] by length, for the examples. *)
Definition localeCompare (a b : string) : Z :=
  JsString.length a - JsString.length b.

(** Habits 1 "Drink water" and 3 "Run" of user 1 and habit 2 "Read" of
    user 2, with the given (habit, day number) completions. *)
Definition store3 (cs : list (Z * Z)) : db :=
  {| habits :=
       habits (store cs) ++
         [ {| h_id := 3; h_user_id := Some 1; h_name := "Run";
              h_created_at := 1704240000000; h_reminder_time := Some 64800 |} ];
     completions := completions (store cs);
     habits_id_seq := 4;
     completions_id_seq := completions_id_seq (store cs) |}.

(** User 1 adds two habits and checks the first one in twice, user 2
    adds one and tries to delete and to rename a habit of user 1,
    user 1 renames the first habit, deletes the second, and somebody
    who is not logged in asks for a check-in. *)
Definition session : list (request * option Z) :=
  [ (Add 1704067200000 (Some "  Drink water ") (Some "08:00"), Some 1);
    (Add 1704153600000 (Some "Read") None, Some 1);
    (Mutate (Checkin now) 1, Some 1);
    (Mutate (Checkin now) 1, Some 1);
    (Add 1704240000000 (Some "Run") (Some ""), Some 2);
    (Mutate Delete 1, Some 2);
    (Mutate (Edit (Some "Walk") None) 2, Some 2);
    (Mutate (Checkin (now + JsDate.msPerDay)) 1, Some 1);
    (Mutate (Edit (Some " Water") (Some "08:00")) 1, Some 1);
    (Mutate Delete 2, Some 1);
    (Mutate (Checkin now) 3, None) ].

(** A [TIME] input that reads every [HH:MM] from 00:00 to 23:59, in
    seconds since midnight. *)
Definition time_of_day (txt : string) : option Z :=
  match txt with
  | String a (String b (String ":" (String c (String e EmptyString)))) =>
      match JsString.digitValue a, JsString.digitValue b,
            JsString.digitValue c, JsString.digitValue e with
      | Some h1, Some h2, Some m1, Some m2 =>
          if (h1 <? 10) && (h2 <? 10) && (m1 <? 10) && (m2 <? 10)
             && (10 * h1 + h2 <? 24) && (10 * m1 + m2 <? 60)
          then Some ((10 * h1 + h2) * 3600 + (10 * m1 + m2) * 60)
          else None
      | _, _, _, _ => None
      end
  | _ => None
  end.

(** Two Google accounts; the second has no picture. *)
Definition ada : profile :=
  {| profile_id := "g-100"; profile_emails := Some ["ada@example.org"];
     profile_displayName := Some "Ada";
     profile_photos := Some ["https://example.org/ada.png"] |}.

Definition bob : profile :=
  {| profile_id := "g-200"; profile_emails := Some ["bob@example.org"];
     profile_displayName := Some "Bob"; profile_photos := Some [] |}.

(** A profile whose [photos] is absent. *)
Definition eve : profile :=
  {| profile_id := "g-300"; profile_emails := Some ["eve@example.org"];
     profile_displayName := None; profile_photos := None |}.

(** A [DATE] input that reads the dates of the years 1000 to 9999 with
    a month from 1 to 12 and a day of that month. *)
Definition date_in (t : ymd) : option Z :=
  match ymd_day t with
  | Some day =>
      if (1000 <=? ymd_year t) && (ymd_year t <=? 9999)
         && (1 <=? ymd_month t) && (ymd_month t <=? 12)
         && (1 <=? day) && (day <=? days_in_month (ymd_year t) (ymd_month t))
      then Some (JsDate.MakeDay (ymd_year t) (ymd_month t - 1) day)
      else None
  | None => None
  end.

(** A collation that compares the lengths. *)
Definition collate (a b : string) : bool :=
  JsString.length a <=? JsString.length b.

(** The completions of the calendar examples: habits 1 and 3 of user 1
    and habit 2 of user 2 on 2024-01-15, habit 1 the day after, habit 3
    on 2023-12-06. *)
Definition january : db :=
  store3 [(1, jan15); (3, jan15); (2, jan15); (1, jan15 + 1);
          (3, jan15 - 40)].

(** The letters a and b with the code unit 0 between them. *)
Definition name_with_nul : string :=
  String "a" (String (ascii_of_nat 0) (String "b" EmptyString)).

(** [n] habits as the home page lists them, the first [k] of them
    checked in today. *)
Definition views (k n : nat) : list habit_view :=
  map (fun i =>
         {| v_id := Z.of_nat i; v_name := "habit";
            v_created_at := 1704067200000; v_reminderTime := None;
            v_checkedInToday := Nat.ltb i k;
            v_streak := 0; v_completions := []; v_totalCompletions := 0 |})
      (seq 0 n).
End Sample.

(* ================================================================== *)
(** * Properties: calendar arithmetic *)
(* ================================================================== *)

Module JsDateFacts.
Import JsDate.

Ltac case_leb :=
  repeat match goal with
    | |- context [?a <=? ?b] => destruct (Z.leb_spec a b)
    | |- context [?a <? ?b] => destruct (Z.ltb_spec a b)
    | |- context [?a =? ?b] => destruct (Z.eqb_spec a b)
    end.

Lemma DayFromYear_succ y : DayFromYear (y + 1) = DayFromYear y + DaysInYear y.
Proof.
  unfold DayFromYear, DaysInYear.
  replace (y + 1 - 1969) with (y - 1969 + 1) by lia.
  replace (y + 1 - 1901) with (y - 1901 + 1) by lia.
  replace (y + 1 - 1601) with (y - 1601 + 1) by lia.
  case_leb; cbn [negb]; Z.div_mod_to_equations; lia.
Qed.

(** [YearFromDay] is the year ECMA-262 asks for. *)
Lemma YearFromDay_spec y d :
  DayFromYear y <= d < DayFromYear (y + 1) -> YearFromDay d = y.
Proof.
  unfold YearFromDay, DayFromYear. intros H.
  case_leb; Z.div_mod_to_equations; lia.
Qed.

Lemma YearFromDay_bounds d :
  DayFromYear (YearFromDay d) <= d < DayFromYear (YearFromDay d + 1).
Proof.
  unfold YearFromDay, DayFromYear.
  case_leb; Z.div_mod_to_equations; lia.
Qed.

Lemma Day_MakeDate d : Day (MakeDate d 0) = d.
Proof.
  unfold Day, MakeDate, msPerDay. rewrite Z.add_0_r. now apply Z.div_mul.
Qed.

Lemma MonthFromTime_range t : 0 <= MonthFromTime t <= 11.
Proof. unfold MonthFromTime. cbv zeta. case_leb; lia. Qed.

(** Rebuilding the day of [t] with another day of the month. *)
Lemma MakeDay_of_time t dt :
  MakeDay (YearFromTime t) (MonthFromTime t) dt = Day t - DateFromTime t + dt.
Proof.
  pose proof (MonthFromTime_range t) as Hm.
  unfold MakeDay. cbv zeta.
  rewrite (Z.div_small (MonthFromTime t) 12) by lia.
  rewrite (Z.mod_small (MonthFromTime t) 12) by lia.
  rewrite Z.add_0_r.
  unfold DateFromTime, DayWithinYear. fold (InLeapYear t). lia.
Qed.

Section Zone.
Variable tz : Z.

(** [d.setDate(d.getDate() - i)] moves [d] back by [i] days. *)
Lemma setDate_getDate t i :
  setDate tz t (getDate tz t - i) = t - i * msPerDay.
Proof.
  unfold setDate, getDate. cbv zeta. rewrite MakeDay_of_time.
  unfold UTC, MakeDate, LocalTime, Day, TimeWithinDay.
  pose proof (Z.div_mod (t + tz) msPerDay) as H.
  unfold msPerDay in *. lia.
Qed.

Lemma setHours0_local_day t :
  setHours0 tz t = Date_of_pg tz (Day (LocalTime tz t)).
Proof. reflexivity. Qed.

Lemma setHours0_Date_of_pg d :
  setHours0 tz (Date_of_pg tz d) = Date_of_pg tz d.
Proof.
  unfold setHours0, Date_of_pg, LocalTime, UTC.
  replace (MakeDate d 0 - tz + tz) with (MakeDate d 0) by lia.
  now rewrite Day_MakeDate.
Qed.

Lemma Date_of_pg_inj d1 d2 :
  Date_of_pg tz d1 = Date_of_pg tz d2 -> d1 = d2.
Proof. unfold Date_of_pg, UTC, MakeDate, msPerDay. lia. Qed.

(** The day on which the home page anchors its streaks: the date
    string is read as UTC midnight and then moved to local midnight,
    which is the day before when local time is behind UTC. *)
Lemma setHours0_Date_of_iso today :
  - msPerDay <= tz < msPerDay ->
  setHours0 tz (Date_of_iso today) =
  Date_of_pg tz (if tz <? 0 then today - 1 else today).
Proof.
  intros Htz. rewrite setHours0_local_day. f_equal.
  unfold Date_of_iso, LocalTime, Day, MakeDate, msPerDay in *.
  rewrite Z.add_0_r. destruct (Z.ltb_spec tz 0).
  - symmetry. apply (Z.div_unique _ _ _ (tz + 86400000)); lia.
  - symmetry. apply (Z.div_unique _ _ _ tz); lia.
Qed.
End Zone.
End JsDateFacts.

(** The day numbers used in the examples. *)
Example jan15_is_2024_01_15 :
  JsDate.MakeDay 2024 0 15 = Sample.jan15
  /\ JsDate.MakeDay 2024 0 8 = Sample.jan15 - 7
  /\ JsDate.getLocalDate Sample.utc_minus_5 Sample.now = Sample.jan15
  /\ JsDate.getDate Sample.utc_minus_5 Sample.now = 15.
Proof. repeat split; vm_compute; reflexivity. Qed.

(* ================================================================== *)
(** * Properties: streaks *)
(* ================================================================== *)

Lemma insert_sorted_desc_comm x y l :
  insert_sorted desc x (insert_sorted desc y l) =
  insert_sorted desc y (insert_sorted desc x l).
Proof.
  induction l as [|z l IH]; cbn; unfold desc in *.
  - destruct (Z.leb_spec y x), (Z.leb_spec x y);
      try reflexivity; try lia.
    replace x with y by lia. reflexivity.
  - destruct (Z.leb_spec z y), (Z.leb_spec z x); cbn;
      repeat match goal with
        | |- context [?a <=? ?b] => destruct (Z.leb_spec a b)
        end; try reflexivity; try lia.
    + replace x with y by lia. reflexivity.
    + now rewrite IH.
Qed.

(** The sorted result depends on the rows, not on their order. *)
Lemma sort_by_desc_Permutation l l' :
  Permutation l l' -> sort_by desc l = sort_by desc l'.
Proof.
  induction 1; cbn.
  - reflexivity.
  - now f_equal.
  - apply insert_sorted_desc_comm.
  - congruence.
Qed.

Lemma Permutation_filter_keep {A} (f : A -> bool) l l' :
  Permutation l l' -> Permutation (filter f l) (filter f l').
Proof.
  induction 1; cbn.
  - constructor.
  - destruct (f x); auto.
  - destruct (f x), (f y); auto using perm_swap.
  - eauto using Permutation_trans.
Qed.

Lemma insert_sorted_length {A} (le : A -> A -> bool) x l :
  List.length (insert_sorted le x l) = S (List.length l).
Proof. induction l as [|y l IH]; cbn; [|destruct (le x y); cbn]; auto. Qed.

Lemma sort_by_length {A} (le : A -> A -> bool) l :
  List.length (sort_by le l) = List.length l.
Proof.
  induction l as [|x l IH]; cbn; [|rewrite insert_sorted_length]; auto.
Qed.

Lemma insert_sorted_In {A} (le : A -> A -> bool) x y l :
  In y (insert_sorted le x l) <-> y = x \/ In y l.
Proof.
  induction l as [|z l IH]; cbn.
  - intuition.
  - destruct (le x z); cbn; rewrite ?IH; intuition.
Qed.

Lemma sort_by_In {A} (le : A -> A -> bool) y l :
  In y (sort_by le l) <-> In y l.
Proof.
  induction l as [|x l IH]; cbn; [|rewrite insert_sorted_In, IH]; intuition.
Qed.

Section StreakFacts.
Variable tz : Z.

(** The loop adds at most one per remaining completion. *)
Lemma streak_loop_bounds today cs : forall i streak,
  streak <= streak_loop tz today cs i streak <= streak + Z.of_nat (List.length cs).
Proof.
  induction cs as [|c cs IH]; intros i streak; cbn [streak_loop List.length].
  - lia.
  - cbv zeta. destruct (_ =? _).
    + specialize (IH (i + 1) (streak + 1)). lia.
    + lia.
Qed.

(** At index 0 the loop compares with the anchor day itself. *)
Lemma streak_loop_first_mismatch T c cs :
  c <> T ->
  streak_loop tz (JsDate.Date_of_pg tz T)
    (map (JsDate.Date_of_pg tz) (c :: cs)) 0 0 = 0.
Proof.
  intros Hc. cbn [map streak_loop]. cbv zeta.
  rewrite JsDateFacts.setHours0_Date_of_pg, JsDateFacts.setDate_getDate.
  destruct (Z.eqb_spec (JsDate.Date_of_pg tz c) (JsDate.Date_of_pg tz T - 0 * JsDate.msPerDay))
    as [E|E]; [|reflexivity].
  exfalso. apply Hc. apply (JsDateFacts.Date_of_pg_inj tz). lia.
Qed.

(** The days a habit was completed on, as [calculateStreak] reads them. *)
Lemma In_select_completed_dates habitId d t :
  In t (select_completed_dates tz habitId d) <->
  exists c, In c (completions d) /\ c_habit_id c = habitId /\
            t = JsDate.Date_of_pg tz (c_completed_date c).
Proof.
  unfold select_completed_dates. rewrite in_map_iff. split.
  - intros (x & <- & Hx). apply sort_by_In in Hx. apply in_map_iff in Hx.
    destruct Hx as (c & <- & Hc). apply filter_In in Hc. destruct Hc as [Hc E].
    exists c. repeat split; auto. now apply Z.eqb_eq.
  - intros (c & Hc & E & ->). exists (c_completed_date c). split; auto.
    apply sort_by_In, in_map, filter_In. split; auto. now apply Z.eqb_eq.
Qed.

(** [calculateStreak] answers 0 when today is not among the habit's
    completions, in every zone. *)
Lemma calculateStreak_without_today now habitId d :
  (forall c, In c (completions d) -> c_habit_id c = habitId ->
             c_completed_date c <> JsDate.getLocalDate tz now) ->
  calculateStreak tz now habitId d = 0.
Proof.
  intros H. unfold calculateStreak. cbv zeta.
  destruct (Z.eqb_spec (Z.of_nat (List.length (select_completed_dates tz habitId d))) 0)
    as [|_]; [reflexivity|].
  rewrite JsDateFacts.setHours0_local_day. fold (JsDate.getLocalDate tz now).
  pose proof (In_select_completed_dates habitId d) as Hin.
  unfold select_completed_dates in *.
  destruct (sort_by _ _) as [|c cs] eqn:E; [reflexivity|].
  apply streak_loop_first_mismatch.
  destruct (proj1 (Hin (JsDate.Date_of_pg tz c)) (or_introl eq_refl))
    as (c' & Hc' & Hid & Heq).
  apply JsDateFacts.Date_of_pg_inj in Heq. subst c. now apply H.
Qed.

(** So does the home page, when local time is not behind UTC. *)
Lemma enrich_without_today today habit ds :
  0 <= tz < JsDate.msPerDay ->
  v_completions habit = map (JsDate.Date_of_pg tz) ds ->
  ~ In today ds ->
  v_streak (enrich tz today habit) = 0.
Proof.
  intros Htz Hcs Hnot. unfold enrich. cbn [v_streak]. rewrite Hcs.
  rewrite JsDateFacts.setHours0_Date_of_iso by (unfold JsDate.msPerDay in *; lia).
  destruct (Z.ltb_spec tz 0); [lia|].
  destruct ds as [|c cs]; [reflexivity|].
  apply streak_loop_first_mismatch. intros ->. apply Hnot. now left.
Qed.
End StreakFacts.

(* ------------------------------------------------------------------ *)
(** ** Where the [completions] arrays of the home page come from *)

Lemma In_Map_update {V} k (f : V -> V) m k' v' :
  In (k', v') (Map_update k f m) ->
  In (k', v') m \/ (k' = k /\ exists v, In (k, v) m /\ v' = f v).
Proof.
  induction m as [|[k0 v0] m IH]; cbn; [tauto|].
  destruct (Z.eqb_spec k0 k) as [->|Hne]; cbn.
  - intros [E|H]; [|tauto]. inversion E; subst.
    right. split; [reflexivity|]. exists v0. tauto.
  - intros [E|H]; [tauto|].
    destruct (IH H) as [H'|(-> & v & Hv & ->)]; [tauto|].
    right. split; [reflexivity|]. exists v. tauto.
Qed.

Lemma group_row_grouped_from seen m row :
  grouped_from seen m -> grouped_from (seen ++ [row]) (group_row m row).
Proof.
  intros Inv k v Hin. unfold group_row in Hin.
  apply In_Map_update in Hin.
  assert (Inv' : grouped_from (seen ++ [row])
                   (if negb (Map_has (r_id row) m)
                    then m ++
                         [(r_id row,
                           {| v_id := r_id row; v_name := r_name row;
                              v_created_at := r_created_at row;
                              v_reminderTime := r_reminder_time row;
                              v_checkedInToday := false; v_streak := 0;
                              v_completions := []; v_totalCompletions := 0 |})]
                    else m)).
  { intros k0 v0 H0.
    assert (In (k0, v0) m \/ (k0 = r_id row /\ v_id v0 = k0
                              /\ v_completions v0 = [])) as [H|(-> & E1 & E2)].
    { destruct (negb (Map_has (r_id row) m)); [|tauto].
      apply in_app_iff in H0. destruct H0 as [H0|[H0|[]]]; [tauto|].
      inversion H0; subst. right. cbn. tauto. }
    - destruct (Inv _ _ H) as [E Hd]. split; [exact E|].
      intros t Ht. destruct (Hd t Ht) as (r & Hr & E1 & E2).
      exists r. rewrite in_app_iff. tauto.
    - split; [exact E1|]. rewrite E2. intros t []. }
  destruct Hin as [Hin|(-> & v0 & Hv0 & ->)]; [now apply Inv'|].
  destruct (Inv' _ _ Hv0) as [E Hd]. cbn [v_id v_completions].
  split; [exact E|]. intros t Ht.
  destruct (r_completed_date row) as [c|] eqn:Ec; [|now apply Hd].
  apply in_app_iff in Ht. destruct Ht as [Ht|[<-|[]]]; [now apply Hd|].
  exists row. rewrite in_app_iff. cbn. tauto.
Qed.

Lemma group_rows_grouped_from rows : grouped_from rows (group_rows rows).
Proof.
  unfold group_rows.
  enough (H : forall seen m, grouped_from seen m ->
                             grouped_from (seen ++ rows) (fold_left group_row rows m)).
  { apply (H [] []). intros k v []. }
  induction rows as [|row rows IH]; intros seen m Inv; cbn [fold_left].
  - now rewrite app_nil_r.
  - replace (seen ++ row :: rows) with ((seen ++ [row]) ++ rows)
      by (now rewrite <- app_assoc).
    apply IH. now apply group_row_grouped_from.
Qed.

Section HomeStreakFacts.
Variable tz : Z.
Variable localeCompare : string -> string -> Z.

(** A dated row of the home-page query is a completion of that habit. *)
Lemma home_query_dated_row today userId d row t :
  In row (home_query tz today userId d) ->
  r_completed_date row = Some t ->
  exists c, In c (completions d) /\ c_habit_id c = r_id row
            /\ t = JsDate.Date_of_pg tz (c_completed_date c).
Proof.
  unfold home_query. intros Hin Ht.
  apply in_map_iff in Hin. destruct Hin as ([h c] & <- & Hin).
  apply sort_by_In, in_flat_map in Hin. destruct Hin as (h' & _ & Hin).
  unfold left_join in Hin. cbn [r_completed_date r_id] in *.
  destruct (filter (fun c0 => c_habit_id c0 =? h_id h') (completions d))
    as [|c0 cs] eqn:E.
  - destruct Hin as [Hin|[]]. inversion Hin; subst. discriminate.
  - apply in_map_iff in Hin. destruct Hin as (c1 & Hc1 & Hin).
    inversion Hc1; subst. rewrite <- E in Hin. apply filter_In in Hin.
    destruct Hin as [Hin Hid]. apply Z.eqb_eq in Hid.
    exists c1. cbn in Ht. inversion Ht. auto.
Qed.

Lemma In_sort_habits sortBy v l :
  In v (sort_habits localeCompare sortBy l) -> In v l.
Proof.
  unfold sort_habits.
  repeat match goal with
    | |- context [if ?c then _ else _] => destruct c
    end; apply sort_by_In.
Qed.

(** On a server whose local time is not behind UTC, the home page gives
    streak 0 to every habit without a completion dated today. *)
Lemma home_streak_without_today now sort userId d v :
  0 <= tz < JsDate.msPerDay ->
  In v (view_habits (get_home tz localeCompare now sort userId d)) ->
  (forall c, In c (completions d) -> c_habit_id c = v_id v ->
             c_completed_date c <> JsDate.getLocalDate tz now) ->
  v_streak v = 0.
Proof.
  intros Htz Hin Hnot. unfold get_home in Hin. cbv zeta in Hin.
  cbn [view_habits] in Hin. apply In_sort_habits in Hin.
  apply in_map_iff in Hin. destruct Hin as (v0 & <- & Hin).
  unfold Map_values in Hin. apply in_map_iff in Hin.
  destruct Hin as ([k v1] & <- & Hin). cbn [snd] in *.
  destruct (group_rows_grouped_from _ _ _ Hin) as [Hid Hdates].
  set (today := JsDate.getLocalDate tz now) in *.
  unfold enrich. cbn [v_streak].
  rewrite JsDateFacts.setHours0_Date_of_iso
    by (unfold JsDate.msPerDay in *; lia).
  destruct (Z.ltb_spec tz 0); [lia|].
  destruct (v_completions v1) as [|t ts] eqn:E; [reflexivity|].
  destruct (Hdates t (or_introl eq_refl)) as (row & Hrow & Hk & Ht).
  destruct (home_query_dated_row _ _ _ _ _ Hrow Ht) as (c & Hc & Hcid & ->).
  cbn [streak_loop]. cbv zeta.
  rewrite JsDateFacts.setHours0_Date_of_pg, JsDateFacts.setDate_getDate.
  destruct (Z.eqb_spec (JsDate.Date_of_pg tz (c_completed_date c))
              (JsDate.Date_of_pg tz today - 0 * JsDate.msPerDay)) as [Eq|];
    [|reflexivity].
  exfalso. apply (Hnot c Hc).
  - cbn [enrich v_id]. congruence.
  - apply (JsDateFacts.Date_of_pg_inj tz). lia.
Qed.
End HomeStreakFacts.

(** The scenario of the specification, on a server in UTC: no
    completion gives streak 0; a check-in today gives 1; a day later,
    without a new check-in, 0 again; three days in a row give 3. *)
Example drink_water_scenario :
  let day := JsDate.msPerDay in
  let streaks now d :=
    map v_streak
        (view_habits (get_home Sample.utc Sample.localeCompare now None 1 d)) in
  let d0 := Sample.store [] in
  let d1 := snd (post_checkin Sample.utc Sample.now 1 1 d0) in
  let d2 := snd (post_checkin Sample.utc (Sample.now + day) 1 1 d1) in
  let d3 := snd (post_checkin Sample.utc (Sample.now + 2 * day) 1 1 d2) in
  streaks Sample.now d0 = [0]
  /\ streaks Sample.now d1 = [1]
  /\ streaks (Sample.now + day) d1 = [0]
  /\ streaks (Sample.now + 2 * day) d3 = [3]
  /\ calculateStreak Sample.utc (Sample.now + 2 * day) 1 d3 = 3.
Proof. cbv zeta. repeat split; vm_compute; reflexivity. Qed.

(** C9. The streak is a non-negative integer no greater than the number
    of completion dates of the habit, and it is 0 when the habit has no
    completion: for [calculateStreak] over the store, and for the loop
    of the home page over a habit's [completions] array. *)
Theorem streak_bounded_by_completions tz now today habitId d habit :
  let dates := filter (fun c => c_habit_id c =? habitId) (completions d) in
  0 <= calculateStreak tz now habitId d <= Z.of_nat (List.length dates)
  /\ (dates = [] -> calculateStreak tz now habitId d = 0)
  /\ 0 <= v_streak (enrich tz today habit)
       <= Z.of_nat (List.length (v_completions habit))
  /\ (v_completions habit = [] -> v_streak (enrich tz today habit) = 0).
Proof.
  cbv zeta. repeat split.
  - unfold calculateStreak. cbv zeta. destruct (_ =? _); [lia|].
    apply (streak_loop_bounds tz).
  - unfold calculateStreak. cbv zeta. destruct (_ =? _); [lia|].
    pose proof (streak_loop_bounds tz (JsDate.setHours0 tz now)
                  (select_completed_dates tz habitId d) 0 0) as H.
    assert (E : List.length (select_completed_dates tz habitId d) =
                List.length (filter (fun c => c_habit_id c =? habitId) (completions d))).
    { unfold select_completed_dates.
      now rewrite length_map, sort_by_length, length_map. }
    rewrite E in H. lia.
  - intros E. unfold calculateStreak, select_completed_dates. now rewrite E.
  - apply (streak_loop_bounds tz).
  - apply (streak_loop_bounds tz).
  - intros E. unfold enrich. cbn [v_streak]. now rewrite E.
Qed.

(** A habit without completions, in the store and on the home page. *)
Lemma streak_bounded_by_completions_witness :
  calculateStreak Sample.utc Sample.now 1 (Sample.store []) = 0
  /\ v_streak (enrich Sample.utc Sample.jan15
                 {| v_id := 1; v_name := "Drink water"; v_created_at := 0;
                    v_reminderTime := None; v_checkedInToday := false;
                    v_streak := 0; v_completions := [];
                    v_totalCompletions := 0 |}) = 0.
Proof.
  split.
  - apply (streak_bounded_by_completions Sample.utc Sample.now Sample.jan15 1
             (Sample.store [])
             {| v_id := 1; v_name := "Drink water"; v_created_at := 0;
                v_reminderTime := None; v_checkedInToday := false;
                v_streak := 0; v_completions := [];
                v_totalCompletions := 0 |}).
    reflexivity.
  - apply (streak_bounded_by_completions Sample.utc Sample.now Sample.jan15 1
             (Sample.store [])).
    reflexivity.
Defined.

(** C5. The streak does not depend on the order in which the completion
    rows are handed to the computation: [calculateStreak] sorts them
    itself (ORDER BY completed_date DESC), so any permutation of the
    completion rows gives the same streak. *)
Theorem calculateStreak_order_invariant tz now habitId d d' :
  Permutation (completions d) (completions d') ->
  calculateStreak tz now habitId d' = calculateStreak tz now habitId d.
Proof.
  intros HP. unfold calculateStreak, select_completed_dates.
  rewrite (sort_by_desc_Permutation
             (map c_completed_date
                (filter (fun c => c_habit_id c =? habitId) (completions d')))
             (map c_completed_date
                (filter (fun c => c_habit_id c =? habitId) (completions d)))).
  - reflexivity.
  - apply Permutation_map, Permutation_filter_keep. now apply Permutation_sym.
Qed.

(** The loop alone does depend on the order of its array; the ORDER BY
    of the query is what makes the computation insensitive to it. *)
Example streak_loop_depends_on_order :
  let today := JsDate.Date_of_pg Sample.utc Sample.jan15 in
  let d0 := JsDate.Date_of_pg Sample.utc Sample.jan15 in
  let d1 := JsDate.Date_of_pg Sample.utc (Sample.jan15 - 1) in
  streak_loop Sample.utc today [d0; d1] 0 0 = 2
  /\ streak_loop Sample.utc today [d1; d0] 0 0 = 0.
Proof. split; vm_compute; reflexivity. Qed.

(** Two completion rows, in both orders. *)
Lemma calculateStreak_order_invariant_witness :
  calculateStreak Sample.utc Sample.now 1
    (Sample.store [(1, Sample.jan15 - 1); (1, Sample.jan15)])
  = calculateStreak Sample.utc Sample.now 1
      {| habits := habits (Sample.store []);
         completions :=
           [ {| c_id := 2; c_habit_id := 1; c_completed_date := Sample.jan15 |};
             {| c_id := 1; c_habit_id := 1; c_completed_date := Sample.jan15 - 1 |} ];
         habits_id_seq := 3;
         completions_id_seq := 3 |}.
Proof.
  apply (calculateStreak_order_invariant Sample.utc Sample.now 1).
  cbn. apply perm_swap.
Defined.

(** C4. On a server whose local time is behind UTC the home page anchors
    the walk on yesterday: with local date 2024-01-15 and a single
    completion on 2024-01-14 (so today is absent) it reports streak 1,
    where [calculateStreak] on the same store answers 0. *)
Theorem home_streak_without_today_behind_utc :
  let d := Sample.store [(1, Sample.jan15 - 1)] in
  JsDate.getLocalDate Sample.utc_minus_5 Sample.now = Sample.jan15
  /\ ~ In Sample.jan15 (map c_completed_date (completions d))
  /\ map v_streak
       (view_habits
          (get_home Sample.utc_minus_5 Sample.localeCompare Sample.now None 1 d))
     = [1]
  /\ calculateStreak Sample.utc_minus_5 Sample.now 1 d = 0.
Proof.
  cbv zeta. repeat split; try (vm_compute; reflexivity).
  cbn. unfold Sample.jan15. intros [H|[]]. lia.
Qed.

(* ================================================================== *)
(** * Properties: ownership and the mutating routes *)
(* ================================================================== *)

Lemma NoDup_map_eq {A B} (f : A -> B) l x y :
  NoDup (map f l) -> In x l -> In y l -> f x = f y -> x = y.
Proof.
  induction l as [|a l IH]; cbn; [tauto|].
  intros ND Hx Hy E. inversion ND as [|? ? Hn ND']; subst.
  destruct Hx as [->|Hx], Hy as [->|Hy]; auto.
  - exfalso. apply Hn. rewrite E. now apply in_map.
  - exfalso. apply Hn. rewrite <- E. now apply in_map.
Qed.

Lemma filter_nil_iff {A} (p : A -> bool) l :
  filter p l = [] <-> forall x, In x l -> p x = false.
Proof.
  induction l as [|a l IH]; cbn.
  - tauto.
  - destruct (p a) eqn:E; split.
    + discriminate.
    + intros H. specialize (H a (or_introl eq_refl)). congruence.
    + intros H x [->|Hx]; auto. now apply IH.
    + intros H. apply IH. auto.
Qed.

Lemma filter_negb_all {A} (p : A -> bool) l :
  (forall x, In x l -> p x = false) -> filter (fun x => negb (p x)) l = l.
Proof.
  intros H. induction l as [|a l IH]; cbn; [reflexivity|].
  rewrite (H a (or_introl eq_refl)). cbn. f_equal. apply IH.
  intros x Hx. apply H. now right.
Qed.

Lemma map_if_none {A} (p : A -> bool) (f : A -> A) l :
  (forall x, In x l -> p x = false) ->
  map (fun x => if p x then f x else x) l = l.
Proof.
  intros H. induction l as [|a l IH]; cbn; [reflexivity|].
  rewrite (H a (or_introl eq_refl)). f_equal. apply IH.
  intros x Hx. apply H. now right.
Qed.

Lemma db_eta d :
  {| habits := habits d; completions := completions d;
     habits_id_seq := habits_id_seq d;
     completions_id_seq := completions_id_seq d |} = d.
Proof. now destruct d. Qed.


Section MutationFacts.
Variable tz : Z.
Variable time_in : string -> option Z.



Lemma delete_habit_foreign id B d :
  (forall x, In x (habits d) -> owned_by id B x = false) ->
  delete_habit id B d = (0, d).
Proof.
  intros H. unfold delete_habit. cbv zeta.
  rewrite (proj2 (filter_nil_iff _ _) H), (filter_negb_all _ _ H).
  cbn [existsb negb List.length Z.of_nat]. rewrite filter_true.
  now rewrite db_eta.
Qed.


Lemma update_habit_foreign name rt id B d :
  (forall x, In x (habits d) -> owned_by id B x = false) ->
  update_habit name rt id B d = (0, d).
Proof.
  intros H. unfold update_habit.
  rewrite (proj2 (filter_nil_iff _ _) H), (map_if_none _ _ _ H).
  now rewrite db_eta.
Qed.


Lemma post_edit_checks_passed id name reminderTime userId d :
  0 < JsString.length (JsString.trim name) ->
  JsString.length name <= 100 ->
  post_edit time_in id (Some name) reminderTime userId d
  = if negb (text_ok (JsString.trim name)) || negb (int4 id)
    then (SendError 500 "Edit Error: ", d)
    else
      match reminder_param time_in reminderTime with
      | inr _ => (SendError 500 "Edit Error: ", d)
      | inl rt =>
          let '(rowCount, d') :=
            update_habit (JsString.trim name) rt id userId d in
          if rowCount =? 0 then (Send 403 "Unauthorized", d')
          else (Redirect "/", d')
      end.
Proof.
  intros Ht Hl. unfold post_edit.
  assert (JsString.truthy (Some name) = true) as ->.
  { destruct name; [cbn in Ht; lia | reflexivity]. }
  destruct (Z.eqb_spec (JsString.length (JsString.trim name)) 0); [lia|].
  cbn [negb orb]. destruct (Z.gtb_spec (JsString.length name) 100); [lia|].
  reflexivity.
Qed.

End MutationFacts.




Lemma NoDup_snoc {A} (l : list A) x : NoDup l -> ~ In x l -> NoDup (l ++ [x]).
Proof.
  induction l as [|a l IH]; cbn; intros ND Hx.
  - constructor; [tauto|constructor].
  - inversion ND as [|? ? Hn ND']; subst. constructor.
    + rewrite in_app_iff. cbn. intros [H|[H|[]]]; [tauto|subst; tauto].
    + apply IH; tauto.
Qed.

(** Under UNIQUE(habit_id, completed_date) at most one row matches a
    (habit, date) pair. *)
Lemma unique_pair_at_most_one id date l :
  NoDup (map (fun c => (c_habit_id c, c_completed_date c)) l) ->
  (List.length (filter (completion_on id date) l) <= 1)%nat.
Proof.
  induction l as [|c l IH]; cbn; intros ND; [lia|].
  inversion ND as [|? ? Hn ND']; subst. specialize (IH ND').
  destruct (completion_on id date c) eqn:E; [|lia].
  cbn. enough (filter (completion_on id date) l = []) as -> by (cbn; lia).
  apply filter_nil_iff. intros x Hx.
  destruct (completion_on id date x) eqn:Ex; [|reflexivity].
  exfalso. apply Hn. unfold completion_on in E, Ex.
  apply andb_prop in E, Ex. destruct E as [E1 E2], Ex as [Ex1 Ex2].
  apply Z.eqb_eq in E1, E2, Ex1, Ex2.
  apply in_map_iff. exists x. split; [congruence | assumption].
Qed.

Lemma existsb_filter_nonempty {A} (p : A -> bool) l :
  existsb p l = true -> (1 <= List.length (filter p l))%nat.
Proof.
  induction l as [|a l IH]; cbn; [discriminate|].
  destruct (p a); cbn; [lia|auto].
Qed.

Lemma existsb_false_filter {A} (p : A -> bool) l :
  existsb p l = false -> filter p l = [].
Proof.
  induction l as [|a l IH]; cbn; [reflexivity|].
  destruct (p a); cbn; [discriminate|auto].
Qed.

Lemma filter_negb_none {A} (p : A -> bool) l :
  filter p (filter (fun x => negb (p x)) l) = [].
Proof.
  apply filter_nil_iff. intros x Hx. apply filter_In in Hx.
  destruct Hx as [_ Hx]. now destruct (p x).
Qed.

Lemma owned_habit_selected id userId d :
  (exists h, In h (habits d) /\ owned_by id userId h = true) ->
  (Z.of_nat (List.length (filter (owned_by id userId) (habits d))) =? 0) = false.
Proof.
  intros (h & Hh & Ho). apply Z.eqb_neq.
  assert (In h (filter (owned_by id userId) (habits d))) as Hin
    by (apply filter_In; auto).
  destruct (filter _ _); [destruct Hin | cbn; lia].
Qed.

(** The ON CONFLICT DO NOTHING insert leaves exactly one row for the
    pair and keeps the constraint. *)
Lemma insert_completion_one_row id date d :
  completions_unique d ->
  List.length (filter (completion_on id date)
                 (completions (insert_completion id date d))) = 1%nat
  /\ completions_unique (insert_completion id date d)
  /\ existsb (completion_on id date)
       (completions (insert_completion id date d)) = true
  /\ filter (fun c => negb (completion_on id date c))
       (completions (insert_completion id date d))
     = filter (fun c => negb (completion_on id date c)) (completions d).
Proof.
  intros U. unfold insert_completion, completions_unique in *.
  cbn [completions].
  destruct (existsb (completion_on id date) (completions d)) eqn:E.
  - repeat split; auto.
    pose proof (unique_pair_at_most_one id date _ U).
    pose proof (existsb_filter_nonempty _ _ E). lia.
  - assert (Hnew : completion_on id date
                     {| c_id := completions_id_seq d; c_habit_id := id;
                        c_completed_date := date |} = true).
    { unfold completion_on. cbn. now rewrite !Z.eqb_refl. }
    repeat split.
    + rewrite filter_app, (existsb_false_filter _ _ E). cbn. now rewrite Hnew.
    + rewrite map_app. cbn. apply NoDup_snoc; auto.
      intros Hin. apply in_map_iff in Hin. destruct Hin as (c & Hc & Hin).
      assert (existsb (completion_on id date) (completions d) = true); [|congruence].
      apply existsb_exists. exists c. split; auto.
      unfold completion_on. inversion Hc. now rewrite !Z.eqb_refl.
    + rewrite existsb_app. cbn. rewrite Hnew. now rewrite orb_true_r.
    + rewrite filter_app. cbn. rewrite Hnew. cbn. now rewrite app_nil_r.
Qed.

Lemma post_checkin_owned tz now id userId d :
  (exists h, In h (habits d) /\ owned_by id userId h = true) ->
  post_checkin tz now id userId d
  = (Redirect "/", insert_completion id (JsDate.getLocalDate tz now) d).
Proof.
  intros H. unfold post_checkin. cbv zeta.
  now rewrite (owned_habit_selected _ _ _ H).
Qed.

Lemma post_undo_owned tz now id userId d :
  (exists h, In h (habits d) /\ owned_by id userId h = true) ->
  post_undo tz now id userId d
  = (Redirect "/", delete_completion id (JsDate.getLocalDate tz now) d).
Proof.
  intros H. unfold post_undo. cbv zeta.
  now rewrite (owned_habit_selected _ _ _ H).
Qed.

(** C3. For a habit the user owns and three instants of the same local
    day: two check-ins both succeed, the second changes no row, and
    exactly one completion row exists for the (habit, day) pair; an undo
    on that day then removes it entirely, leaving the tables as the
    original ones without any completion for that pair. *)
Theorem checkin_twice_then_undo tz now1 now2 now3 id userId d :
  completions_unique d ->
  (exists h, In h (habits d) /\ owned_by id userId h = true) ->
  let today := JsDate.getLocalDate tz now1 in
  JsDate.getLocalDate tz now2 = today ->
  JsDate.getLocalDate tz now3 = today ->
  let on_today x := filter (completion_on id today) (completions x) in
  let step1 := post_checkin tz now1 id userId d in
  let step2 := post_checkin tz now2 id userId (snd step1) in
  let step3 := post_undo tz now3 id userId (snd step2) in
  fst step1 = Redirect "/" /\ fst step2 = Redirect "/" /\ fst step3 = Redirect "/"
  /\ List.length (on_today (snd step2)) = 1%nat
  /\ completions_unique (snd step2)
  /\ habits (snd step2) = habits (snd step1)
  /\ completions (snd step2) = completions (snd step1)
  /\ on_today (snd step3) = []
  /\ habits (snd step3) = habits d
  /\ completions (snd step3)
     = filter (fun c => negb (completion_on id today c)) (completions d).
Proof.
  intros U Hown today E2 E3. cbv zeta.
  rewrite (post_checkin_owned tz now1 id userId d Hown). cbn [fst snd].
  fold today. set (d1 := insert_completion id today d).
  destruct (insert_completion_one_row id today d U) as (C1 & U1 & E1 & F1).
  fold d1 in C1, U1, E1, F1.
  rewrite (post_checkin_owned tz now2 id userId d1 Hown). cbn [fst snd].
  rewrite E2. set (d2 := insert_completion id today d1).
  assert (C12 : completions d2 = completions d1).
  { unfold d2, insert_completion. cbn [completions]. now rewrite E1. }
  rewrite (post_undo_owned tz now3 id userId d2 Hown). cbn [fst snd].
  rewrite E3.
  repeat split; try reflexivity.
  - now rewrite C12.
  - unfold completions_unique. now rewrite C12.
  - exact C12.
  - cbn [delete_completion completions]. apply filter_negb_none.
  - cbn [delete_completion completions]. now rewrite C12.
Qed.

(** User 1 checks in at 17:00 and at 18:00 on 2024-01-15, then undoes it
    at 19:00. *)
Lemma checkin_twice_then_undo_witness :
  let d := Sample.store [(1, Sample.jan15 - 1)] in
  let step1 := post_checkin Sample.utc Sample.now 1 1 d in
  let step2 := post_checkin Sample.utc (Sample.now + 3600000) 1 1 (snd step1) in
  let step3 := post_undo Sample.utc (Sample.now + 7200000) 1 1 (snd step2) in
  List.length (filter (completion_on 1 Sample.jan15) (completions (snd step2)))
  = 1%nat
  /\ completions (snd step3) = completions d.
Proof.
  cbv zeta.
  assert (U : completions_unique (Sample.store [(1, Sample.jan15 - 1)])).
  { unfold completions_unique. cbn. repeat constructor. cbn. tauto. }
  assert (O : exists h, In h (habits (Sample.store [(1, Sample.jan15 - 1)]))
                        /\ owned_by 1 1 h = true).
  { eexists. split; [left; reflexivity|reflexivity]. }
  pose proof (checkin_twice_then_undo Sample.utc Sample.now
                (Sample.now + 3600000) (Sample.now + 7200000) 1 1
                (Sample.store [(1, Sample.jan15 - 1)]) U O eq_refl eq_refl) as H.
  cbv zeta in H.
  destruct H as (_ & _ & _ & H4 & _ & _ & _ & _ & _ & H10).
  split; [exact H4|]. rewrite H10. reflexivity.
Defined.

(* ------------------------------------------------------------------ *)
(** ** The constraints hold in every reachable store *)

Lemma NoDup_map_filter {A B} (f : A -> B) (p : A -> bool) l :
  NoDup (map f l) -> NoDup (map f (filter p l)).
Proof.
  induction l as [|a l IH]; cbn; intros ND; [constructor|].
  inversion ND as [|? ? Hn ND']; subst.
  destruct (p a); cbn; auto. constructor; auto.
  intros Hin. apply Hn. apply in_map_iff in Hin.
  destruct Hin as (x & E & Hx). apply filter_In in Hx.
  apply in_map_iff. exists x. tauto.
Qed.

Lemma Forall_filter_keep {A} (P : A -> Prop) (p : A -> bool) l :
  Forall P l -> Forall P (filter p l).
Proof.
  induction 1; cbn; [constructor|]. destruct (p x); auto.
Qed.

Section Invariant.
Variable tz : Z.
Variable time_in : string -> option Z.

Lemma post_add_store_ok now habitName reminderTime userId d :
  store_ok d ->
  store_ok (snd (post_add time_in now habitName reminderTime userId d)).
Proof.
  intros (PK & U & Hlt). unfold post_add.
  destruct habitName as [name|]; [|now repeat split].
  destruct (_ || _); [now repeat split|].
  destruct (_ >? _); [now repeat split|].
  destruct (negb (text_ok _)); [now repeat split|].
  destruct (reminder_param time_in reminderTime); [|now repeat split].
  cbn [snd]. repeat split.
  - unfold habits_pk in *. cbn [habits]. rewrite map_app. cbn [map h_id].
    apply NoDup_snoc; [assumption|]. intros Hin. apply in_map_iff in Hin.
    destruct Hin as (h & E & Hh). rewrite Forall_forall in Hlt.
    specialize (Hlt h Hh). lia.
  - exact U.
  - cbn [habits habits_id_seq]. apply Forall_app. split.
    + eapply Forall_impl; [|exact Hlt]. cbn. intros; lia.
    + constructor; [cbn; lia|constructor].
Qed.

Lemma route_store_ok m id user d :
  store_ok d -> store_ok (snd (route tz time_in m id user d)).
Proof.
  intros (PK & U & Hlt). unfold route, ensureAuthenticated, with_id.
  destruct user as [userId|]; [|now repeat split].
  destruct m as [now|now| |habitName reminderTime];
    [destruct (int4 id); [|now repeat split]..|].
  - unfold post_checkin. cbv zeta. destruct (_ =? _); [now repeat split|].
    cbn [snd]. repeat split; try assumption.
    now apply insert_completion_one_row.
  - unfold post_undo. cbv zeta. destruct (_ =? _); [now repeat split|].
    cbn [snd]. repeat split; try assumption.
    unfold completions_unique in *. cbn [delete_completion completions].
    now apply NoDup_map_filter.
  - unfold post_delete, delete_habit. cbv zeta.
    assert (store_ok
              {| habits := filter (fun h => negb (owned_by id userId h)) (habits d);
                 completions :=
                   filter (fun c => negb (existsb (fun h => h_id h =? c_habit_id c)
                                            (filter (owned_by id userId) (habits d))))
                          (completions d);
                 habits_id_seq := habits_id_seq d;
                 completions_id_seq := completions_id_seq d |}) as Hok.
    { repeat split.
      - unfold habits_pk in *. cbn [habits]. now apply NoDup_map_filter.
      - unfold completions_unique in *. cbn [completions].
        now apply NoDup_map_filter.
      - cbn [habits habits_id_seq]. now apply Forall_filter_keep. }
    destruct (_ =? _); exact Hok.
  - unfold post_edit.
    destruct habitName as [name|]; [|now repeat split].
    destruct (_ || _); [now repeat split|].
    destruct (_ >? _); [now repeat split|].
    destruct (_ || _); [now repeat split|].
    destruct (reminder_param time_in reminderTime) as [rt|]; [|now repeat split].
    unfold update_habit.
    assert (store_ok
              {| habits :=
                   map (fun h =>
                          if owned_by id userId h
                          then {| h_id := h_id h; h_user_id := h_user_id h;
                                  h_name := JsString.trim name;
                                  h_created_at := h_created_at h;
                                  h_reminder_time := rt |}
                          else h) (habits d);
                 completions := completions d;
                 habits_id_seq := habits_id_seq d;
                 completions_id_seq := completions_id_seq d |}) as Hok.
    { repeat split.
      - unfold habits_pk in *. cbn [habits]. rewrite map_map.
        erewrite map_ext; [exact PK|].
        intros h. now destruct (owned_by id userId h).
      - exact U.
      - cbn [habits habits_id_seq]. apply Forall_map.
        eapply Forall_impl; [|exact Hlt]. cbn. intros h Hh.
        now destruct (owned_by id userId h). }
    destruct (_ =? _); exact Hok.
Qed.

(** The primary key of [habits] and UNIQUE(habit_id, completed_date)
    are invariants of the handlers. *)
Lemma reachable_store_ok d : reachable tz time_in d -> store_ok d.
Proof.
  induction 1 as [|d req user Hreach IH].
  - repeat split; cbn; constructor.
  - destruct req as [now habitName reminderTime|m id]; cbn [handle].
    + unfold ensureAuthenticated. destruct user; [|exact IH].
      now apply post_add_store_ok.
    + now apply route_store_ok.
Qed.
End Invariant.

(* ================================================================== *)
(** * Properties: validation of habit names, and /edit *)
(* ================================================================== *)

Lemma trimStart_length s :
  JsString.length (JsString.trimStart s) <= JsString.length s.
Proof.
  unfold JsString.length. induction s as [|c s IH]; cbn [JsString.trimStart].
  - lia.
  - destruct (JsString.isWhiteSpace c); cbn [String.length] in *; lia.
Qed.

Lemma trimEnd_length s :
  JsString.length (JsString.trimEnd s) <= JsString.length s.
Proof.
  unfold JsString.length. induction s as [|c s IH]; cbn [JsString.trimEnd].
  - lia.
  - destruct (JsString.trimEnd s); [destruct (JsString.isWhiteSpace c)|];
      cbn [String.length] in *; lia.
Qed.

Lemma trim_length s : JsString.length (JsString.trim s) <= JsString.length s.
Proof.
  unfold JsString.trim.
  pose proof (trimEnd_length (JsString.trimStart s)).
  pose proof (trimStart_length s). lia.
Qed.

Lemma truthy_of_trim name :
  0 < JsString.length (JsString.trim name) -> JsString.truthy (Some name) = true.
Proof. destruct name; cbn; [lia|reflexivity]. Qed.

(** C8 (as stated) fails: the letter a followed by 100 spaces has a
    trimmed length of 1, yet /add and /edit reject it as too long. *)
Lemma padded_name_rejected_as_too_long :
  let d := Sample.store [] in
  JsString.length (JsString.trim Sample.padded_name) = 1
  /\ post_add Sample.time_in Sample.now (Some Sample.padded_name) None 1 d
     = (Send 400 "Habit name too long (max 100 characters)", d)
  /\ post_edit Sample.time_in 1 (Some Sample.padded_name) None 1 d
     = (Send 400 "Habit name too long (max 100 characters)", d).
Proof. cbv zeta. repeat split; vm_compute; reflexivity. Qed.

(** C8 (amended). For /add and /edit: a missing name, or one that is
    empty after trimming, is rejected with 400 "Habit name is required";
    a name whose length before trimming exceeds 100 (hence any name whose
    trimmed length exceeds 100) is rejected with 400 "Habit name too
    long"; neither changes the store.  A name that is non-empty after
    trimming and at most 100 characters long before trimming passes
    these checks.  The store then has to read the trimmed name: when it
    rejects it (the name contains the code unit 0) the [catch] block
    answers 500 and the store is unchanged; when it reads it, and reads
    the reminder time, the habit is inserted (or, for /edit of a habit
    of the user with an id the store reads, updated) with exactly the
    trimmed name. *)
Theorem habit_name_validation
    time_in now id (name : string) reminderTime userId (d : db) :
  let add := post_add time_in now (Some name) reminderTime userId d in
  let edit := post_edit time_in id (Some name) reminderTime userId d in
  let trimmed := JsString.trim name in
  (post_add time_in now None reminderTime userId d
     = (Send 400 "Habit name is required", d)
   /\ post_edit time_in id None reminderTime userId d
     = (Send 400 "Habit name is required", d))
  /\ (JsString.length trimmed = 0 ->
      add = (Send 400 "Habit name is required", d)
      /\ edit = (Send 400 "Habit name is required", d))
  /\ (0 < JsString.length trimmed -> 100 < JsString.length name ->
      add = (Send 400 "Habit name too long (max 100 characters)", d)
      /\ edit = (Send 400 "Habit name too long (max 100 characters)", d))
  /\ (100 < JsString.length trimmed -> 100 < JsString.length name)
  /\ (0 < JsString.length trimmed -> JsString.length name <= 100 ->
      (text_ok trimmed = false ->
       add = (SendError 500 "Insert Error: ", d)
       /\ edit = (SendError 500 "Edit Error: ", d))
      /\ (text_ok trimmed = true ->
          forall rt, reminder_param time_in reminderTime = inl rt ->
          add = (Redirect "/",
                 {| habits :=
                      habits d ++
                        [{| h_id := habits_id_seq d;
                            h_user_id := Some userId;
                            h_name := trimmed;
                            h_created_at := now;
                            h_reminder_time := rt |}];
                    completions := completions d;
                    habits_id_seq := habits_id_seq d + 1;
                    completions_id_seq := completions_id_seq d |})
          /\ (int4 id = true ->
              (exists h, In h (habits d) /\ owned_by id userId h = true) ->
              edit = (Redirect "/",
                      snd (update_habit trimmed rt id userId d))))).
Proof.
  cbv zeta. split; [split; reflexivity|]. split; [|split; [|split]].
  - intros E. unfold post_add, post_edit. rewrite E. cbn [Z.eqb].
    rewrite orb_true_r. split; reflexivity.
  - intros Ht Hl. unfold post_add, post_edit.
    rewrite (truthy_of_trim _ Ht).
    destruct (Z.eqb_spec (JsString.length (JsString.trim name)) 0); [lia|].
    cbn [negb orb]. destruct (Z.gtb_spec (JsString.length name) 100); [|lia].
    split; reflexivity.
  - pose proof (trim_length name). lia.
  - intros Ht Hl.
    assert (Hadd : post_add time_in now (Some name) reminderTime userId d
                   = if negb (text_ok (JsString.trim name))
                     then (SendError 500 "Insert Error: ", d)
                     else
                       match reminder_param time_in reminderTime with
                       | inr _ => (SendError 500 "Insert Error: ", d)
                       | inl rt =>
                           (Redirect "/",
                            {| habits :=
                                 habits d ++
                                   [{| h_id := habits_id_seq d;
                                       h_user_id := Some userId;
                                       h_name := JsString.trim name;
                                       h_created_at := now;
                                       h_reminder_time := rt |}];
                               completions := completions d;
                               habits_id_seq := habits_id_seq d + 1;
                               completions_id_seq := completions_id_seq d |})
                       end).
    { unfold post_add. rewrite (truthy_of_trim _ Ht).
      destruct (Z.eqb_spec (JsString.length (JsString.trim name)) 0); [lia|].
      cbn [negb orb].
      destruct (Z.gtb_spec (JsString.length name) 100); [lia|]. reflexivity. }
    rewrite Hadd, (post_edit_checks_passed time_in _ _ _ _ _ Ht Hl).
    split.
    + intros ->. cbn [negb orb]. split; reflexivity.
    + intros -> rt Hrt. cbn [negb orb]. rewrite Hrt.
      split; [reflexivity|]. intros -> Hown. cbn [negb].
      unfold update_habit. rewrite (owned_habit_selected _ _ _ Hown).
      reflexivity.
Qed.

(** A padded name with a reminder time is stored trimmed. *)
Lemma habit_name_validation_witness :
  post_add Sample.time_in Sample.now (Some "  Stretch ") (Some "08:00") 1
    (Sample.store [])
  = (Redirect "/",
     {| habits :=
          habits (Sample.store []) ++
            [{| h_id := 3; h_user_id := Some 1; h_name := "Stretch";
                h_created_at := Sample.now; h_reminder_time := Some 28800 |}];
        completions := [];
        habits_id_seq := 4;
        completions_id_seq := 1 |}).
Proof.
  pose proof (habit_name_validation Sample.time_in Sample.now 1 "  Stretch "
                (Some "08:00") 1 (Sample.store [])) as H.
  cbv zeta in H. destruct H as (_ & _ & _ & _ & H).
  assert (Ht : 0 < JsString.length (JsString.trim "  Stretch "))
    by (vm_compute; reflexivity).
  assert (Hl : JsString.length "  Stretch " <= 100)
    by (vm_compute; discriminate).
  destruct (H Ht Hl) as [_ Hok].
  destruct (Hok eq_refl (Some 28800) eq_refl) as [Hadd _].
  exact Hadd.
Defined.

(** C10. A successful /edit had a name and a reminder time the store
    accepts; it writes the trimmed name and the reminder time into every
    row it selects (the habit [id] of the user), the reminder time being
    null when the request carries none or an empty one, whatever was
    stored before; the id, owner and creation time of those rows, every
    other row, the completions and the sequences are unchanged. *)
Theorem edit_overwrites_name_and_reminder
    time_in id habitName reminderTime userId (d d' : db) :
  post_edit time_in id habitName reminderTime userId d = (Redirect "/", d') ->
  exists name rt,
    habitName = Some name
    /\ reminder_param time_in reminderTime = inl rt
    /\ (JsString.truthy reminderTime = false -> rt = None)
    /\ (exists h, In h (habits d) /\ owned_by id userId h = true)
    /\ Forall2
         (fun h h' =>
            h_id h' = h_id h /\ h_user_id h' = h_user_id h
            /\ h_created_at h' = h_created_at h
            /\ if owned_by id userId h
               then h_name h' = JsString.trim name /\ h_reminder_time h' = rt
               else h' = h)
         (habits d) (habits d')
    /\ completions d' = completions d
    /\ habits_id_seq d' = habits_id_seq d
    /\ completions_id_seq d' = completions_id_seq d.
Proof.
  unfold post_edit. destruct habitName as [name|]; [|discriminate].
  destruct (_ || _); [discriminate|].
  destruct (_ >? _); [discriminate|].
  destruct (_ || _); [discriminate|].
  destruct (reminder_param time_in reminderTime) as [rt|] eqn:Hrt; [|discriminate].
  unfold update_habit.
  destruct (Z.eqb_spec (Z.of_nat (List.length (filter (owned_by id userId) (habits d)))) 0)
    as [E|E]; [discriminate|].
  intros H. inversion H; subst d'; clear H. cbn [habits completions habits_id_seq completions_id_seq].
  exists name, rt.
  split; [reflexivity|]. split; [reflexivity|]. split; [|split; [|split]].
  - intros Hf. unfold reminder_param in Hrt. rewrite Hf in Hrt. congruence.
  - destruct (filter (owned_by id userId) (habits d)) as [|h l] eqn:Ef;
      [cbn in E; lia|].
    exists h. apply filter_In. rewrite Ef. now left.
  - clear E. induction (habits d) as [|h l IH]; cbn [map]; constructor; auto.
    destruct (owned_by id userId h); cbn; auto.
  - auto.
Qed.

(** Renaming a habit without a reminder time clears the stored 08:00. *)
Lemma edit_overwrites_name_and_reminder_witness :
  exists name rt,
    Some "  Hydrate " = Some name
    /\ reminder_param Sample.time_in (Some "") = inl rt
    /\ (JsString.truthy (Some "") = false -> rt = None)
    /\ (exists h, In h (habits (Sample.store [(1, Sample.jan15)]))
                  /\ owned_by 1 1 h = true)
    /\ Forall2
         (fun h h' =>
            h_id h' = h_id h /\ h_user_id h' = h_user_id h
            /\ h_created_at h' = h_created_at h
            /\ if owned_by 1 1 h
               then h_name h' = JsString.trim name /\ h_reminder_time h' = rt
               else h' = h)
         (habits (Sample.store [(1, Sample.jan15)]))
         [ {| h_id := 1; h_user_id := Some 1; h_name := "Hydrate";
              h_created_at := 1704067200000; h_reminder_time := None |};
           {| h_id := 2; h_user_id := Some 2; h_name := "Read";
              h_created_at := 1704153600000; h_reminder_time := None |} ]
    /\ completions (Sample.store [(1, Sample.jan15)])
       = completions (Sample.store [(1, Sample.jan15)])
    /\ 3 = habits_id_seq (Sample.store [(1, Sample.jan15)])
    /\ 2 = completions_id_seq (Sample.store [(1, Sample.jan15)]).
Proof.
  apply (edit_overwrites_name_and_reminder Sample.time_in 1
           (Some "  Hydrate ") (Some "") 1
           (Sample.store [(1, Sample.jan15)])
           {| habits :=
                [ {| h_id := 1; h_user_id := Some 1; h_name := "Hydrate";
                     h_created_at := 1704067200000; h_reminder_time := None |};
                  {| h_id := 2; h_user_id := Some 2; h_name := "Read";
                     h_created_at := 1704153600000; h_reminder_time := None |} ];
              completions := completions (Sample.store [(1, Sample.jan15)]);
              habits_id_seq := 3;
              completions_id_seq := 2 |}).
  reflexivity.
Defined.

(* ================================================================== *)
(** * Properties: the weekly total *)
(* ================================================================== *)

(** Which completions the weekly filter keeps: [weekAgo] is UTC midnight
    seven days before today, a completion is local midnight of its day,
    so the day seven days back is kept unless local time is ahead of
    UTC.  Nothing bounds the dates from above. *)
Lemma week_filter_by_zone tz today day :
  - JsDate.msPerDay < tz < JsDate.msPerDay ->
  let weekAgo := JsDate.Date_of_iso today in
  let weekAgo := JsDate.setDate tz weekAgo (JsDate.getDate tz weekAgo - 7) in
  (weekAgo <=? JsDate.Date_of_pg tz day)
  = if 0 <? tz then today - 6 <=? day else today - 7 <=? day.
Proof.
  intros Htz. cbv zeta. rewrite JsDateFacts.setDate_getDate.
  unfold JsDate.Date_of_iso, JsDate.Date_of_pg, JsDate.UTC, JsDate.MakeDate,
    JsDate.msPerDay in *.
  JsDateFacts.case_leb; lia.
Qed.

Lemma Zsum_app l l' : Zsum (l ++ l') = Zsum l + Zsum l'.
Proof. unfold Zsum. induction l as [|x l IH]; cbn; lia. Qed.

Lemma Zsum_Permutation l l' : Permutation l l' -> Zsum l = Zsum l'.
Proof. unfold Zsum. induction 1; cbn; lia. Qed.

Lemma fold_left_Zsum {A} (f : A -> Z) l a :
  fold_left (fun sum h => sum + f h) l a = a + Zsum (map f l).
Proof.
  revert a. induction l as [|x l IH]; intros a; cbn; [lia|].
  rewrite IH. unfold Zsum. lia.
Qed.

Lemma insert_sorted_Permutation {A} (le : A -> A -> bool) x l :
  Permutation (insert_sorted le x l) (x :: l).
Proof.
  induction l as [|y l IH]; cbn; [reflexivity|].
  destruct (le x y); [reflexivity|].
  rewrite IH. apply perm_swap.
Qed.

Lemma sort_by_Permutation {A} (le : A -> A -> bool) l :
  Permutation (sort_by le l) l.
Proof.
  induction l as [|x l IH]; cbn; [reflexivity|].
  rewrite insert_sorted_Permutation. now constructor.
Qed.

Section Grouping.
(** A measure of a habit that a row increases by [w row]. *)
Variable g : habit_view -> Z.
Variable w : home_row -> Z.
Variable tz : Z.

Lemma Map_has_snoc {V} k (v : V) m : Map_has k (m ++ [(k, v)]) = true.
Proof.
  induction m as [|[k' v'] m IH]; cbn.
  - now rewrite Z.eqb_refl.
  - now rewrite IH, orb_true_r.
Qed.

Lemma total_Map_update k f m delta :
  Map_has k m = true ->
  (forall v, g (f v) = g v + delta) ->
  Map_total g (Map_update k f m) = Map_total g m + delta.
Proof.
  intros Hk Hf. unfold Map_total. induction m as [|[k' v'] m IH]; cbn in *.
  - discriminate.
  - destruct (Z.eqb_spec k' k); cbn.
    + rewrite Hf. unfold Zsum. cbn. lia.
    + unfold Zsum in *. cbn. rewrite IH by assumption. lia.
Qed.

Hypothesis g_fresh : forall v, v_completions v = [] -> g v = 0.
Hypothesis g_row : forall v v' row,
  v_completions v' =
    match r_completed_date row with
    | Some c => v_completions v ++ [c]
    | None => v_completions v
    end ->
  g v' = g v + w row.
Hypothesis g_completions : forall v v',
  v_completions v = v_completions v' -> g v = g v'.

Lemma total_group_row m row : Map_total g (group_row m row) = Map_total g m + w row.
Proof.
  unfold group_row.
  destruct (Map_has (r_id row) m) eqn:E; cbn [negb].
  - apply total_Map_update; [assumption|].
    intros v. now apply g_row.
  - rewrite (total_Map_update _ _ _ (w row)).
    + unfold Map_total. rewrite map_app, Zsum_app. cbn [map snd].
      rewrite g_fresh by reflexivity. unfold Zsum. cbn. lia.
    + apply Map_has_snoc.
    + intros v. now apply g_row.
Qed.

Lemma total_group_rows rows :
  Map_total g (group_rows rows) = Zsum (map w rows).
Proof.
  unfold group_rows.
  enough (H : forall m, Map_total g (fold_left group_row rows m)
                        = Map_total g m + Zsum (map w rows)).
  { rewrite H. reflexivity. }
  induction rows as [|row rows IH]; intros m; cbn [fold_left map].
  - unfold Zsum. cbn. lia.
  - rewrite IH, total_group_row. unfold Zsum. cbn. lia.
Qed.

Lemma Zsum_enriched_sorted localeCompare today sortBy m :
  Zsum (map g (sort_habits localeCompare sortBy
                 (map (enrich tz today) (Map_values m))))
  = Map_total g m.
Proof.
  unfold Map_total, Map_values.
  assert (HP : forall l, Permutation (sort_habits localeCompare sortBy l) l).
  { intros l. unfold sort_habits.
    repeat match goal with
      | |- context [if ?c then _ else _] => destruct c
      end; apply sort_by_Permutation. }
  rewrite (Zsum_Permutation _ _ (Permutation_map g (HP _))).
  rewrite !map_map. f_equal. apply map_ext. intros [k v].
  apply g_completions. reflexivity.
Qed.
End Grouping.

(** What the weekly total of the home page counts, for every store: the
    completions of the user's habits dated today - 7 or later (today - 6
    or later when local time is ahead of UTC), with no upper bound. *)
Lemma week_total_by_zone tz localeCompare now sort userId d :
  - JsDate.msPerDay < tz < JsDate.msPerDay ->
  let today := JsDate.getLocalDate tz now in
  let lo := if 0 <? tz then today - 6 else today - 7 in
  totalCompletionsThisWeek
    (view_stats (get_home tz localeCompare now sort userId d))
  = Zsum (map (fun h => Z.of_nat (List.length (completions_since lo d h)))
              (habits_of userId d)).
Proof.
  intros Htz. cbv zeta. unfold get_home. cbv zeta.
  cbn [view_stats]. unfold compute_stats. cbn [totalCompletionsThisWeek].
  set (today := JsDate.getLocalDate tz now).
  set (weekAgo := JsDate.setDate tz (JsDate.Date_of_iso today)
                    (JsDate.getDate tz (JsDate.Date_of_iso today) - 7)).
  set (lo := if 0 <? tz then today - 6 else today - 7).
  rewrite fold_left_Zsum, Z.add_0_l.
  set (g := fun h : habit_view =>
              Z.of_nat (List.length (filter (fun c => weekAgo <=? c)
                                       (v_completions h)))).
  set (w := fun row : home_row =>
              match r_completed_date row with
              | Some c => if weekAgo <=? c then 1 else 0
              | None => 0
              end).
  rewrite (Zsum_enriched_sorted g tz).
  2:{ intros v v' E. unfold g. now rewrite E. }
  rewrite (total_group_rows g w).
  2:{ intros v E. unfold g. now rewrite E. }
  2:{ intros v v' row E. unfold g, w. rewrite E.
      destruct (r_completed_date row) as [c|]; [|lia].
      rewrite filter_app, length_app. cbn.
      destruct (weekAgo <=? c); cbn; lia. }
  unfold home_query. rewrite map_map.
  rewrite (Zsum_Permutation _ _
             (Permutation_map _ (sort_by_Permutation (home_order) _))).
  induction (habits_of userId d) as [|h hs IH]; [reflexivity|].
  cbn [flat_map map]. rewrite map_app, Zsum_app, IH.
  unfold Zsum at 3. cbn [fold_right]. fold (Zsum
    (map (fun h0 => Z.of_nat (List.length (completions_since lo d h0))) hs)).
  f_equal. clear IH.
  unfold left_join, completions_since.
  assert (Hcount : forall cs,
             Zsum (map (fun x : habit_row * option Z =>
                          w (let (h0, c) := x in
                             {| r_id := h_id h0; r_name := h_name h0;
                                r_created_at := h_created_at h0;
                                r_reminder_time := h_reminder_time h0;
                                r_completed_date :=
                                  option_map (JsDate.Date_of_pg tz) c;
                                r_checked_today :=
                                  match c with
                                  | Some x0 => x0 =? today
                                  | None => false
                                  end |}))
                       (map (fun c => (h, Some (c_completed_date c))) cs))
             = Z.of_nat (List.length
                           (filter (fun c => lo <=? c_completed_date c) cs))).
  { induction cs as [|c cs IHc]; [reflexivity|].
    cbn [map filter]. unfold Zsum in *. cbn [fold_right]. rewrite IHc.
    unfold w at 1. cbn [r_completed_date option_map].
    pose proof (week_filter_by_zone tz today (c_completed_date c) Htz) as Hz.
    cbv zeta in Hz. fold weekAgo in Hz. rewrite Hz.
    replace (if 0 <? tz then today - 6 <=? c_completed_date c
             else today - 7 <=? c_completed_date c)
      with (lo <=? c_completed_date c) by (unfold lo; now destruct (0 <? tz)).
    destruct (lo <=? c_completed_date c); cbn [List.length]; lia. }
  assert (Hfilter : forall l,
             filter (fun c => (c_habit_id c =? h_id h)
                              && (lo <=? c_completed_date c)) l
             = filter (fun c => lo <=? c_completed_date c)
                 (filter (fun c => c_habit_id c =? h_id h) l)).
  { induction l as [|c l IHl]; [reflexivity|]. cbn [filter].
    destruct (c_habit_id c =? h_id h); cbn [andb filter]; rewrite IHl;
      reflexivity. }
  rewrite Hfilter.
  destruct (filter (fun c => c_habit_id c =? h_id h) (completions d))
    as [|c cs] eqn:E.
  - reflexivity.
  - apply (Hcount (c :: cs)).
Qed.

(** C1. On a server in UTC, with today 2024-01-15, a completion dated
    2024-01-08 (exactly seven days before today) is counted in
    [totalCompletionsThisWeek]; the same store gives 0 on a server at
    UTC+03:00. *)
Theorem week_total_counts_seven_days_back :
  let d := Sample.store [(1, Sample.jan15 - 7)] in
  JsDate.getLocalDate Sample.utc Sample.now = Sample.jan15
  /\ totalCompletionsThisWeek
       (view_stats (get_home Sample.utc Sample.localeCompare Sample.now None 1 d))
     = 1
  /\ JsDate.getLocalDate Sample.utc_plus_3 Sample.now = Sample.jan15
  /\ totalCompletionsThisWeek
       (view_stats
          (get_home Sample.utc_plus_3 Sample.localeCompare Sample.now None 1 d))
     = 0.
Proof. cbv zeta. repeat split; vm_compute; reflexivity. Qed.

(* ================================================================== *)
(** * Properties: the calendar query *)
(* ================================================================== *)

Lemma DaysInYear_leap y :
  JsDate.DaysInYear y = if is_leap_year y then 366 else 365.
Proof.
  unfold JsDate.DaysInYear, is_leap_year.
  destruct (Z.eqb_spec (y mod 4) 0), (Z.eqb_spec (y mod 100) 0),
    (Z.eqb_spec (y mod 400) 0); cbn; try reflexivity;
    exfalso; Z.div_mod_to_equations; lia.
Qed.

(** The calendar fields of midnight of the [k]-th day of year [y]. *)
Lemma fields_of_day_in_year y k :
  0 <= k < JsDate.DaysInYear y ->
  let t := JsDate.MakeDate (JsDate.DayFromYear y + k) 0 in
  JsDate.YearFromTime t = y
  /\ JsDate.DayWithinYear t = k
  /\ JsDate.InLeapYear t = if is_leap_year y then 1 else 0.
Proof.
  intros Hk. cbv zeta.
  assert (Hy : JsDate.YearFromTime
                 (JsDate.MakeDate (JsDate.DayFromYear y + k) 0) = y).
  { unfold JsDate.YearFromTime. rewrite JsDateFacts.Day_MakeDate.
    apply JsDateFacts.YearFromDay_spec.
    rewrite JsDateFacts.DayFromYear_succ. lia. }
  repeat split.
  - exact Hy.
  - unfold JsDate.DayWithinYear. rewrite Hy, JsDateFacts.Day_MakeDate. lia.
  - unfold JsDate.InLeapYear. rewrite Hy, DaysInYear_leap.
    now destruct (is_leap_year y).
Qed.

(** [new Date(yr, m, 0).getDate()], before the time value is clipped:
    day 0 of the month after [m] is the last day of month [m]. *)
Lemma last_day_of_month yr m :
  1 <= m <= 12 ->
  JsDate.DateFromTime (JsDate.MakeDate (JsDate.MakeDay yr m 0) 0)
  = days_in_month yr m.
Proof.
  intros Hm. unfold JsDate.MakeDay. cbv zeta.
  assert (Hk : exists k,
             JsDate.DayFromYear (yr + m / 12)
             + JsDate.monthStart
                 (if JsDate.DaysInYear (yr + m / 12) =? 365 then 0 else 1)
                 (m mod 12) + 0 - 1
             = JsDate.DayFromYear yr + k
             /\ k = JsDate.monthStart (if is_leap_year yr then 1 else 0) m - 1).
  { eexists. split; [|reflexivity].
    assert (m = 12 \/ m < 12) as [->|Hlt] by lia.
    - change (12 / 12) with 1. change (12 mod 12) with 0.
      rewrite JsDateFacts.DayFromYear_succ, (DaysInYear_leap yr).
      cbn [JsDate.monthStart]. destruct (is_leap_year yr); lia.
    - rewrite (Z.div_small m 12), (Z.mod_small m 12) by lia.
      replace (yr + 0) with yr by lia.
      rewrite (DaysInYear_leap yr).
      destruct (is_leap_year yr); simpl (_ =? _); cbv iota; lia. }
  destruct Hk as (k & -> & Hk).
  assert (Hrange : 0 <= k < JsDate.DaysInYear yr).
  { rewrite DaysInYear_leap, Hk.
    assert (m = 1 \/ m = 2 \/ m = 3 \/ m = 4 \/ m = 5 \/ m = 6 \/ m = 7
            \/ m = 8 \/ m = 9 \/ m = 10 \/ m = 11 \/ m = 12) as Hc by lia.
    destruct (is_leap_year yr);
      repeat (destruct Hc as [->|Hc]; [cbn; lia|]); subst; cbn; lia. }
  destruct (fields_of_day_in_year yr k Hrange) as (Hy & Hd & Hl).
  unfold JsDate.DateFromTime, JsDate.MonthFromTime. cbv zeta.
  rewrite Hd, Hl, Hk. unfold days_in_month.
  assert (m = 1 \/ m = 2 \/ m = 3 \/ m = 4 \/ m = 5 \/ m = 6 \/ m = 7
          \/ m = 8 \/ m = 9 \/ m = 10 \/ m = 11 \/ m = 12) as Hc by lia.
  destruct (is_leap_year yr);
    repeat (destruct Hc as [->|Hc]; [reflexivity|]); subst; reflexivity.
Qed.

(** Between the years -271820 and 275759 every month end is a valid
    time value. *)
Lemma month_end_in_range tz yr m :
  - JsDate.msPerDay < tz < JsDate.msPerDay ->
  - 271820 <= yr <= 275759 -> 1 <= m <= 12 ->
  JsDate.TimeClip (JsDate.UTC tz (JsDate.MakeDate (JsDate.MakeDay yr m 0) 0))
  = Some (JsDate.UTC tz (JsDate.MakeDate (JsDate.MakeDay yr m 0) 0)).
Proof.
  intros Htz Hy Hm. unfold JsDate.TimeClip.
  destruct (Z.leb_spec
              (Z.abs (JsDate.UTC tz (JsDate.MakeDate (JsDate.MakeDay yr m 0) 0)))
              8640000000000000) as [|Hbad]; [reflexivity|].
  exfalso. revert Hbad.
  unfold JsDate.UTC, JsDate.MakeDate, JsDate.MakeDay, JsDate.msPerDay in *.
  cbv zeta.
  assert (m = 12 \/ m < 12) as [->|Hlt] by lia.
  - change (12 / 12) with 1. change (12 mod 12) with 0.
    cbn [JsDate.monthStart].
    assert (Hday : - 99999744 <= JsDate.DayFromYear (yr + 1) <= 99999744)
      by (unfold JsDate.DayFromYear; Z.div_mod_to_equations; lia).
    lia.
  - rewrite (Z.div_small m 12), (Z.mod_small m 12) by lia.
    assert (Hday : - 99999744 <= JsDate.DayFromYear (yr + 0) <= 99999379)
      by (unfold JsDate.DayFromYear; Z.div_mod_to_equations; lia).
    assert (Hms : 0 <= JsDate.monthStart
                         (if JsDate.DaysInYear (yr + 0) =? 365 then 0 else 1) m
                  <= 366).
    { assert (m = 1 \/ m = 2 \/ m = 3 \/ m = 4 \/ m = 5 \/ m = 6 \/ m = 7
              \/ m = 8 \/ m = 9 \/ m = 10 \/ m = 11) as Hc by lia.
      destruct (JsDate.DaysInYear (yr + 0) =? 365);
        repeat (destruct Hc as [->|Hc]; [cbn; lia|]); subst; cbn; lia. }
    lia.
Qed.

Lemma days_in_month_two_digit_year y m :
  1 <= y <= 99 -> days_in_month (1900 + y) m = days_in_month y m.
Proof.
  intros Hy. unfold days_in_month.
  enough (is_leap_year (1900 + y) = is_leap_year y) as -> by reflexivity.
  unfold is_leap_year.
  destruct (Z.eqb_spec ((1900 + y) mod 4) 0), (Z.eqb_spec (y mod 4) 0),
    (Z.eqb_spec ((1900 + y) mod 100) 0), (Z.eqb_spec (y mod 100) 0),
    (Z.eqb_spec ((1900 + y) mod 400) 0), (Z.eqb_spec (y mod 400) 0);
    cbn; try reflexivity; exfalso; Z.div_mod_to_equations; lia.
Qed.

(** The last day the handler prints, for a year from -271820 to 275759
    other than 0 (which the [Date] constructor reads as 1900). *)
Lemma calendar_last_day tz yearNum monthNum :
  - JsDate.msPerDay < tz < JsDate.msPerDay ->
  - 271820 <= yearNum <= 275759 -> yearNum <> 0 -> 1 <= monthNum <= 12 ->
  option_map (JsDate.getDate tz) (JsDate.Date_ymd tz yearNum monthNum 0)
  = Some (days_in_month yearNum monthNum).
Proof.
  intros Htz Hy Hy0 Hm. unfold JsDate.Date_ymd. cbv zeta.
  set (yr := if (0 <=? yearNum) && (yearNum <=? 99) then 1900 + yearNum
             else yearNum).
  assert (Hyr : - 271820 <= yr <= 275759 /\ days_in_month yr monthNum
                                     = days_in_month yearNum monthNum).
  { unfold yr. destruct (Z.leb_spec 0 yearNum), (Z.leb_spec yearNum 99);
      cbn [andb]; try (split; [lia|reflexivity]).
    split; [lia|]. apply days_in_month_two_digit_year. lia. }
  destruct Hyr as [Hyr Hdays].
  rewrite (month_end_in_range tz yr monthNum Htz Hyr Hm). cbn [option_map].
  unfold JsDate.getDate, JsDate.LocalTime, JsDate.UTC.
  replace (JsDate.MakeDate (JsDate.MakeDay yr monthNum 0) 0 - tz + tz)
    with (JsDate.MakeDate (JsDate.MakeDay yr monthNum 0) 0) by lia.
  now rewrite last_day_of_month, Hdays.
Qed.

Lemma parseInt_truthy s k :
  JsString.parseInt s = Some k -> JsString.truthy (Some s) = true.
Proof. destruct s; [discriminate|reflexivity]. Qed.

(** C7 (as stated) fails: the year "2024abc" is not numeric, yet the
    query is accepted, as the year 2024.  And not every accepted query
    gets the last day of its month: the year "0" is taken for 1900, whose
    February has 28 days where year 0 has 29, and December 275760 lies
    beyond the last [Date], so that the day printed is NaN. *)
Lemma calendar_accepts_year_with_trailing_text :
  (is_numeric "2024abc" = false
   /\ get_api_calendar Sample.utc (Some "2024abc") (Some "2")
      = Calendar_query
          {| ymd_year := 2024; ymd_month := 2; ymd_day := Some 1 |}
          {| ymd_year := 2024; ymd_month := 2; ymd_day := Some 29 |})
  /\ (days_in_month 0 2 = 29
      /\ get_api_calendar Sample.utc (Some "0") (Some "2")
         = Calendar_query
             {| ymd_year := 0; ymd_month := 2; ymd_day := Some 1 |}
             {| ymd_year := 0; ymd_month := 2; ymd_day := Some 28 |})
  /\ get_api_calendar Sample.utc (Some "275760") (Some "12")
     = Calendar_query
         {| ymd_year := 275760; ymd_month := 12; ymd_day := Some 1 |}
         {| ymd_year := 275760; ymd_month := 12; ymd_day := None |}.
Proof. repeat split; vm_compute; reflexivity. Qed.

(** C7 (amended). The calendar query answers 400 "Year and month are
    required" when the year or the month is missing or empty, and 400
    "Invalid year or month" when [parseInt] reads no integer from the
    year or from the month, or reads a month below 1 or above 12; so
    month 0, month 13 and the year or month "abc" are rejected, while a
    text that only begins with an integer is read as that integer.  For
    an accepted query whose year is between -271820 and 275759 and is
    not 0, the window runs from day 1 to the last day of that month, for
    every month; February has 29 days in 2024 and 28 in 2023. *)
Theorem calendar_validation_and_window tz (year month : option string) :
  - JsDate.msPerDay < tz < JsDate.msPerDay ->
  (JsString.truthy year = false \/ JsString.truthy month = false ->
   get_api_calendar tz year month
   = Calendar_400 "Year and month are required")
  /\ (forall y m,
        year = Some y -> month = Some m ->
        JsString.truthy year = true -> JsString.truthy month = true ->
        JsString.parseInt y = None \/ JsString.parseInt m = None
        \/ (exists k, JsString.parseInt m = Some k /\ (k < 1 \/ 12 < k)) ->
        get_api_calendar tz year month = Calendar_400 "Invalid year or month")
  /\ (forall y m yearNum monthNum,
        year = Some y -> month = Some m ->
        JsString.parseInt y = Some yearNum ->
        JsString.parseInt m = Some monthNum ->
        1 <= monthNum <= 12 ->
        - 271820 <= yearNum <= 275759 -> yearNum <> 0 ->
        get_api_calendar tz year month
        = Calendar_query
            {| ymd_year := yearNum; ymd_month := monthNum; ymd_day := Some 1 |}
            {| ymd_year := yearNum; ymd_month := monthNum;
               ymd_day := Some (days_in_month yearNum monthNum) |})
  /\ get_api_calendar tz (Some "2024") (Some "0")
     = Calendar_400 "Invalid year or month"
  /\ get_api_calendar tz (Some "2024") (Some "13")
     = Calendar_400 "Invalid year or month"
  /\ get_api_calendar tz (Some "abc") (Some "2")
     = Calendar_400 "Invalid year or month"
  /\ get_api_calendar tz (Some "2024") (Some "abc")
     = Calendar_400 "Invalid year or month"
  /\ get_api_calendar tz (Some "2024") (Some "2")
     = Calendar_query
         {| ymd_year := 2024; ymd_month := 2; ymd_day := Some 1 |}
         {| ymd_year := 2024; ymd_month := 2; ymd_day := Some 29 |}
  /\ get_api_calendar tz (Some "2023") (Some "2")
     = Calendar_query
         {| ymd_year := 2023; ymd_month := 2; ymd_day := Some 1 |}
         {| ymd_year := 2023; ymd_month := 2; ymd_day := Some 28 |}.
Proof.
  intros Htz.
  assert (Hok : forall y m yearNum monthNum,
             JsString.parseInt y = Some yearNum ->
             JsString.parseInt m = Some monthNum ->
             1 <= monthNum <= 12 ->
             - 271820 <= yearNum <= 275759 -> yearNum <> 0 ->
             get_api_calendar tz (Some y) (Some m)
             = Calendar_query
                 {| ymd_year := yearNum; ymd_month := monthNum;
                    ymd_day := Some 1 |}
                 {| ymd_year := yearNum; ymd_month := monthNum;
                    ymd_day := Some (days_in_month yearNum monthNum) |}).
  { intros y m yearNum monthNum Hy Hm Hmr Hyr Hy0. unfold get_api_calendar.
    rewrite (parseInt_truthy _ _ Hy), (parseInt_truthy _ _ Hm). cbn [negb orb].
    rewrite Hy, Hm.
    destruct (Z.ltb_spec monthNum 1); [lia|].
    destruct (Z.gtb_spec monthNum 12); [lia|]. cbn [orb].
    now rewrite (calendar_last_day tz yearNum monthNum Htz Hyr Hy0 Hmr). }
  split; [|split; [|split]].
  - intros [H|H]; unfold get_api_calendar; rewrite H; cbn [negb orb];
      [reflexivity | now rewrite orb_true_r].
  - intros y m -> -> Ty Tm H. unfold get_api_calendar.
    rewrite Ty, Tm. cbn [negb orb].
    destruct H as [H|[H|(k & H & Hk)]].
    + now rewrite H.
    + rewrite H. now destruct (JsString.parseInt y).
    + rewrite H. destruct (JsString.parseInt y); [|reflexivity].
      destruct (Z.ltb_spec k 1); [reflexivity|].
      destruct (Z.gtb_spec k 12); [reflexivity|lia].
  - intros y m yearNum monthNum -> ->. apply Hok.
  - repeat split; try reflexivity.
    + apply (Hok "2024" "2" 2024 2); [reflexivity|reflexivity|lia|lia|lia].
    + apply (Hok "2023" "2" 2023 2); [reflexivity|reflexivity|lia|lia|lia].
Qed.

(** February 2024 on a server at UTC+03:00. *)
Lemma calendar_validation_and_window_witness :
  get_api_calendar Sample.utc_plus_3 (Some "2024") (Some "02")
  = Calendar_query
      {| ymd_year := 2024; ymd_month := 2; ymd_day := Some 1 |}
      {| ymd_year := 2024; ymd_month := 2;
         ymd_day := Some (days_in_month 2024 2) |}.
Proof.
  assert (Htz : - JsDate.msPerDay < Sample.utc_plus_3 < JsDate.msPerDay)
    by (vm_compute; split; reflexivity).
  destruct (calendar_validation_and_window Sample.utc_plus_3
              (Some "2024") (Some "02") Htz) as (_ & _ & H & _).
  apply (H "2024" "02" 2024 2); try reflexivity; lia.
Defined.

(* ================================================================== *)
(** * Properties: the completion rate *)
(* ================================================================== *)

(** [JsNumber] computes what the kernel's binary64 floats compute, for
    every [k <= n <= 60]. *)
Example round64_agrees_with_binary64 :
  forallb Binary64.agrees (Binary64.grid 60) = true.
Proof. vm_compute. reflexivity. Qed.

(** The rate is rounded from the binary64 product, not from the exact
    quotient: 23 of 40 gives 57, since 23 / 40 * 100 is
    57.49999999999999 in binary64. *)
Example completion_rate_23_of_40 :
  JsNumber.Math_round
    (JsNumber.mul (JsNumber.div (inject_Z 23) (inject_Z 40)) (inject_Z 100))
  = 57.
Proof. vm_compute. reflexivity. Qed.

Lemma rne_div_bounds a b M :
  0 <= a -> 0 < b -> a <= M * b -> 0 <= JsNumber.rne_div a b <= M.
Proof.
  intros Ha Hb HM. unfold JsNumber.rne_div. cbv zeta.
  pose proof (Z.div_mod a b ltac:(lia)) as E.
  pose proof (Z.mod_pos_bound a b Hb) as R.
  pose proof (Z.div_pos a b Ha Hb) as Q.
  assert (a / b <= M) by nia.
  assert (0 < a mod b -> a / b < M) by nia.
  destruct (Z.ltb_spec (2 * (a mod b)) b); [lia|].
  destruct (Z.ltb_spec b (2 * (a mod b))); [lia|].
  destruct (Z.even (a / b)); lia.
Qed.

Lemma ilog2_le a b : JsNumber.ilog2 a b <= Z.log2 a - Z.log2 b.
Proof.
  unfold JsNumber.ilog2. cbv zeta.
  repeat match goal with
    | |- context [if ?c then _ else _] => destruct c
    end; lia.
Qed.

(** Rounding to binary64 does not cross an integer below 2^50. *)
Lemma round64_between_0_and_int x c :
  0 < c < 2 ^ 50 ->
  (0 <= x)%Q -> (x <= inject_Z c)%Q ->
  (0 <= JsNumber.round64 x)%Q /\ (JsNumber.round64 x <= inject_Z c)%Q.
Proof.
  intros Hc H0 Hx. unfold Qle in H0, Hx. cbn in H0, Hx.
  destruct x as [a b]. cbn [Qnum Qden] in *.
  rewrite Z.mul_1_r in H0, Hx.
  unfold JsNumber.round64. cbn [Qnum Qden].
  rewrite (Z.abs_eq a) by lia.
  destruct (Z.eqb_spec a 0) as [|Ha].
  - split; unfold Qle; cbn; lia.
  - assert (Hs : Z.sgn a = 1) by (apply Z.sgn_pos; lia). rewrite Hs.
    assert (He : JsNumber.ilog2 a (Z.pos b) <= 50).
    { pose proof (ilog2_le a (Z.pos b)).
      pose proof (Z.log2_le_mono a (c * Z.pos b) Hx).
      pose proof (Z.log2_mul_above c (Z.pos b) ltac:(lia) ltac:(lia)).
      assert (Z.log2 c < 50) by (apply Z.log2_lt_pow2; lia).
      lia. }
    set (sh := 52 - JsNumber.ilog2 a (Z.pos b)) in *.
    destruct (Z.leb_spec 0 sh); [|lia].
    assert (Hp : 0 < 2 ^ sh) by (apply Z.pow_pos_nonneg; lia).
    pose proof (rne_div_bounds (a * 2 ^ sh) (Z.pos b) (c * 2 ^ sh)
                  ltac:(nia) ltac:(lia) ltac:(nia)) as Hm.
    split; unfold Qle; cbn [Qnum Qden inject_Z];
      rewrite ?Z2Pos.id by lia; lia.
Qed.

Lemma completion_rate_range k n :
  0 <= k <= n -> 0 < n ->
  0 <= JsNumber.Math_round
         (JsNumber.mul (JsNumber.div (inject_Z k) (inject_Z n)) (inject_Z 100))
    <= 100.
Proof.
  intros Hk Hn.
  assert (H1 : (0 <= JsNumber.div (inject_Z k) (inject_Z n))%Q
               /\ (JsNumber.div (inject_Z k) (inject_Z n) <= inject_Z 1)%Q).
  { apply round64_between_0_and_int; [lia| |].
    - destruct n as [|p|p]; try lia. unfold Qle; cbn. lia.
    - destruct n as [|p|p]; try lia. unfold Qle; cbn. lia. }
  destruct H1 as [L1 U1].
  set (x1 := JsNumber.div (inject_Z k) (inject_Z n)) in *.
  assert (H2 : (0 <= JsNumber.mul x1 (inject_Z 100))%Q
               /\ (JsNumber.mul x1 (inject_Z 100) <= inject_Z 100)%Q).
  { apply round64_between_0_and_int; [lia| |];
      unfold Qle in *; cbn in *; lia. }
  destruct H2 as [L2 U2].
  set (x2 := JsNumber.mul x1 (inject_Z 100)) in *.
  unfold JsNumber.Math_round. split.
  - change 0 with (Qfloor (0 + (1 # 2))).
    apply Qfloor_resp_le. now apply Qplus_le_l.
  - change 100 with (Qfloor (inject_Z 100 + (1 # 2))).
    apply Qfloor_resp_le. now apply Qplus_le_l.
Qed.

Lemma filter_length_le {A} (p : A -> bool) l :
  (List.length (filter p l) <= List.length l)%nat.
Proof. induction l as [|a l IH]; cbn; [|destruct (p a); cbn]; lia. Qed.

Lemma rne_div_error a b :
  0 <= a -> 0 < b -> - b <= 2 * (JsNumber.rne_div a b * b - a) <= b.
Proof.
  intros Ha Hb. unfold JsNumber.rne_div. cbv zeta.
  pose proof (Z.div_mod a b ltac:(lia)) as E.
  pose proof (Z.mod_pos_bound a b Hb) as R.
  destruct (Z.ltb_spec (2 * (a mod b)) b); [nia|].
  destruct (Z.ltb_spec b (2 * (a mod b))); [nia|].
  destruct (Z.even (a / b)); nia.
Qed.

(** Rounding a number between 0 and an integer below 2^m moves it by
    at most 2^(m - 53). *)
Lemma round64_error x c m :
  0 < c < 2 ^ m -> 0 <= m <= 52 ->
  (0 <= x)%Q -> (x <= inject_Z c)%Q ->
  (JsNumber.round64 x - x <= 1 # Z.to_pos (2 ^ (53 - m)))%Q
  /\ (x - JsNumber.round64 x <= 1 # Z.to_pos (2 ^ (53 - m)))%Q.
Proof.
  intros Hc Hm H0 Hx. unfold Qle in H0, Hx. cbn in H0, Hx.
  destruct x as [a b]. cbn [Qnum Qden] in *.
  rewrite Z.mul_1_r in H0, Hx.
  assert (HM : 0 < 2 ^ (53 - m)) by (apply Z.pow_pos_nonneg; lia).
  unfold JsNumber.round64. cbn [Qnum Qden].
  rewrite (Z.abs_eq a) by lia.
  destruct (Z.eqb_spec a 0) as [->|Ha].
  - split; unfold Qle; cbn; lia.
  - assert (Hs : Z.sgn a = 1) by (apply Z.sgn_pos; lia). rewrite Hs.
    assert (He : JsNumber.ilog2 a (Z.pos b) <= m).
    { pose proof (ilog2_le a (Z.pos b)).
      pose proof (Z.log2_le_mono a (c * Z.pos b) Hx).
      pose proof (Z.log2_mul_above c (Z.pos b) ltac:(lia) ltac:(lia)).
      assert (Z.log2 c < m) by (apply Z.log2_lt_pow2; lia).
      lia. }
    set (sh := 52 - JsNumber.ilog2 a (Z.pos b)) in *.
    destruct (Z.leb_spec 0 sh); [|lia].
    assert (Hp : 0 < 2 ^ sh) by (apply Z.pow_pos_nonneg; lia).
    pose proof (rne_div_error (a * 2 ^ sh) (Z.pos b) ltac:(nia) ltac:(lia))
      as Hr.
    set (r := JsNumber.rne_div (a * 2 ^ sh) (Z.pos b)) in *.
    assert (HMP : 2 ^ (53 - m) <= 2 * 2 ^ sh).
    { change 2 with (2 ^ 1) at 2. rewrite <- Z.pow_add_r by lia.
      apply Z.pow_le_mono_r; lia. }
    set (P := 2 ^ sh) in *. set (M := 2 ^ (53 - m)) in *.
    split; unfold Qle, Qminus, Qplus, Qopp; cbn [Qnum Qden];
      rewrite ?Pos2Z.inj_mul, ?Z2Pos.id by lia; rewrite Z.mul_1_l.
    + destruct (Z.le_gt_cases (r * Z.pos b - a * P) 0); [nia|].
      assert ((r * Z.pos b - a * P) * M <= (r * Z.pos b - a * P) * (2 * P))
        by nia.
      nia.
    + destruct (Z.le_gt_cases (a * P - r * Z.pos b) 0); [nia|].
      assert ((a * P - r * Z.pos b) * M <= (a * P - r * Z.pos b) * (2 * P))
        by nia.
      nia.
Qed.

(** The two roundings of [k / n * 100] move the value by less than
    2^-45, less than the distance 1 / (2 n) between two values of
    [100 k / n + 1 / 2] when [n] is an array length: the rate is the
    exact rounding unless [100 k / n] is halfway between two integers,
    where it is the exact rounding or one less. *)
Lemma completion_rate_close k n :
  0 <= k <= n -> 0 < n < 2 ^ 32 ->
  let rate :=
    JsNumber.Math_round
      (JsNumber.mul (JsNumber.div (inject_Z k) (inject_Z n)) (inject_Z 100)) in
  round_percent k n - 1 <= rate <= round_percent k n
  /\ ((200 * k + n) mod (2 * n) <> 0 -> rate = round_percent k n).
Proof.
  intros Hk Hn. cbv zeta.
  change (JsNumber.mul (JsNumber.div (inject_Z k) (inject_Z n)) (inject_Z 100))
    with (JsNumber.round64
            (JsNumber.round64 (inject_Z k / inject_Z n) * inject_Z 100)).
  set (x := (inject_Z k / inject_Z n)%Q).
  assert (Hx0 : (0 <= x)%Q /\ (x <= inject_Z 1)%Q).
  { unfold x. destruct n as [|p|p]; try lia. unfold Qle; cbn. lia. }
  destruct Hx0 as [Hx0 Hx1].
  destruct (round64_between_0_and_int x 1 ltac:(lia) Hx0 Hx1) as [Hd0 Hd1].
  destruct (round64_error x 1 1 ltac:(lia) ltac:(lia) Hx0 Hx1) as [He1 He1'].
  set (d := JsNumber.round64 x) in *.
  assert (Hy0 : (0 <= d * inject_Z 100)%Q
                /\ (d * inject_Z 100 <= inject_Z 100)%Q).
  { change (inject_Z 1) with 1%Q in Hd1. change (inject_Z 100) with 100%Q.
    split; lra. }
  destruct Hy0 as [Hy0 Hy1].
  destruct (round64_error (d * inject_Z 100) 100 7 ltac:(lia) ltac:(lia)
              Hy0 Hy1) as [He2 He2'].
  set (p := JsNumber.round64 (d * inject_Z 100)) in *.
  change (Z.to_pos (2 ^ (53 - 1))) with 4503599627370496%positive in He1, He1'.
  change (Z.to_pos (2 ^ (53 - 7))) with 70368744177664%positive in He2, He2'.
  change (inject_Z 100) with 100%Q in *.
  unfold round_percent. set (R := (200 * k + n) / (2 * n)).
  pose proof (Z.div_mod (200 * k + n) (2 * n) ltac:(lia)) as Hdm.
  pose proof (Z.mod_pos_bound (200 * k + n) (2 * n) ltac:(lia)) as Hmod.
  fold R in Hdm.
  set (g := (1 # Z.to_pos (2 * n))%Q).
  assert (Hg : (1 # 8589934592 <= g)%Q).
  { unfold g, Qle. cbn [Qnum Qden]. rewrite Z2Pos.id by lia.
    change (2 ^ 32) with 4294967296 in Hn. lia. }
  assert (HR1 : (inject_Z R <= 100 * x + (1 # 2))%Q).
  { unfold x. destruct n as [|q|q]; try lia.
    cbv [Qle Qplus Qmult Qdiv Qinv inject_Z Qnum Qden].
    rewrite ?Pos2Z.inj_mul. nia. }
  assert (HR2 : (100 * x + (1 # 2) <= inject_Z (R + 1) - g)%Q).
  { unfold x, g. destruct n as [|q|q]; try lia.
    cbv [Qle Qplus Qminus Qopp Qmult Qdiv Qinv inject_Z Qnum Qden].
    rewrite ?Pos2Z.inj_mul, ?Z2Pos.id by lia.
    rewrite ?Pos2Z.inj_mul. nia. }
  assert (HR3 : (200 * k + n) mod (2 * n) <> 0 ->
                (inject_Z R + g <= 100 * x + (1 # 2))%Q).
  { intros Hnz. unfold x, g. destruct n as [|q|q]; try lia.
    cbv [Qle Qplus Qminus Qopp Qmult Qdiv Qinv inject_Z Qnum Qden].
    rewrite ?Pos2Z.inj_mul, ?Z2Pos.id by lia.
    rewrite ?Pos2Z.inj_mul. nia. }
  unfold JsNumber.Math_round.
  pose proof (Qfloor_le (p + (1 # 2))) as Hf1.
  pose proof (Qlt_floor (p + (1 # 2))) as Hf2.
  set (F := Qfloor (p + (1 # 2))) in *.
  rewrite inject_Z_plus in Hf2, HR2. change (inject_Z 1) with 1%Q in *.
  split; [split|].
  - assert (inject_Z R < inject_Z F + 2)%Q as H by lra.
    assert (inject_Z R < inject_Z (F + 2))%Q as H'
      by (rewrite inject_Z_plus; exact H).
    rewrite <- Zlt_Qlt in H'. lia.
  - assert (inject_Z F < inject_Z R + 1)%Q as H by lra.
    assert (inject_Z F < inject_Z (R + 1))%Q as H'
      by (rewrite inject_Z_plus; exact H).
    rewrite <- Zlt_Qlt in H'. lia.
  - intros Hnz. specialize (HR3 Hnz).
    assert (inject_Z F < inject_Z R + 1)%Q as H by lra.
    assert (inject_Z F < inject_Z (R + 1))%Q as H'
      by (rewrite inject_Z_plus; exact H).
    rewrite <- Zlt_Qlt in H'.
    assert (inject_Z R < inject_Z F + 1)%Q as H2 by lra.
    assert (inject_Z R < inject_Z (F + 1))%Q as H2'
      by (rewrite inject_Z_plus; exact H2).
    rewrite <- Zlt_Qlt in H2'. lia.
Qed.

Lemma completion_rate_of_none n :
  0 < n ->
  JsNumber.Math_round
    (JsNumber.mul (JsNumber.div (inject_Z 0) (inject_Z n)) (inject_Z 100)) = 0.
Proof. destruct n as [|p|p]; try lia. reflexivity. Qed.

(** C6 (as stated) fails when [round] is the rounding of the exact
    quotient: of 40 habits with 23 checked in today the rate is 57,
    where 23 / 40 × 100 = 57.5 rounds to 58. *)
Lemma completion_rate_of_23_in_40_is_57 :
  let s := compute_stats Sample.utc Sample.jan15 (Sample.views 23 40) in
  totalHabits s = 40
  /\ completedToday s = 23
  /\ completionRate s = 57
  /\ round_percent 23 40 = 58.
Proof. cbv zeta. repeat split; vm_compute; reflexivity. Qed.

(** C6 (amended). In the stats of any list of habits, with [n] the
    length of the list and [k] the number of its habits checked in
    today: [totalHabits] is [n] and [completedToday] is [k];
    [completionRate] is 0 when there is no habit (nothing is divided)
    and otherwise [Math.round] of the binary64 product
    [(k / n) * 100]; it always lies between 0 and 100, and is 0 when no
    habit is checked in.  For a list whose length is an array length
    (below 2^32) it is the integer nearest to [100 k / n], except that
    when [100 k / n] lies halfway between two integers it is the upper
    one or the lower one; and it is 100 when every habit is checked
    in. *)
Theorem completionRate_spec tz today (enrichedHabits : list habit_view) :
  let s := compute_stats tz today enrichedHabits in
  let n := Z.of_nat (List.length enrichedHabits) in
  let k := Z.of_nat (List.length (filter v_checkedInToday enrichedHabits)) in
  totalHabits s = n
  /\ completedToday s = k
  /\ (n = 0 -> completionRate s = 0)
  /\ (0 < n ->
      completionRate s
      = JsNumber.Math_round
          (JsNumber.mul (JsNumber.div (inject_Z k) (inject_Z n))
             (inject_Z 100)))
  /\ 0 <= completionRate s <= 100
  /\ (k = 0 -> completionRate s = 0)
  /\ (0 < n < 2 ^ 32 ->
      round_percent k n - 1 <= completionRate s <= round_percent k n
      /\ ((200 * k + n) mod (2 * n) <> 0 ->
          completionRate s = round_percent k n)
      /\ (k = n -> completionRate s = 100)).
Proof.
  cbv zeta. unfold compute_stats.
  cbn [totalHabits completedToday completionRate]. unfold JsNumber.of_length.
  pose proof (filter_length_le v_checkedInToday enrichedHabits) as Hle.
  set (n := Z.of_nat (List.length enrichedHabits)) in *.
  set (k := Z.of_nat (List.length (filter v_checkedInToday enrichedHabits)))
    in *.
  assert (Hk : 0 <= k <= n) by (unfold k, n; lia).
  split; [reflexivity|]. split; [reflexivity|].
  destruct (Z.gtb_spec n 0) as [Hn|Hn].
  - split; [lia|]. split; [intros _; reflexivity|].
    split; [apply completion_rate_range; lia|].
    split; [intros ->; now apply completion_rate_of_none|].
    intros Hn32.
    destruct (completion_rate_close k n Hk Hn32) as [Hb He].
    split; [exact Hb|]. split; [exact He|].
    intros E. rewrite He.
    + unfold round_percent. rewrite E.
      replace (200 * n + n) with (100 * (2 * n) + n) by lia.
      rewrite Z.div_add_l by lia. rewrite (Z.div_small n (2 * n)) by lia. lia.
    + rewrite E. replace (200 * n + n) with (n + 100 * (2 * n)) by lia.
      rewrite Z.mod_add by lia. rewrite Z.mod_small by lia. lia.
  - split; [intros _; reflexivity|]. split; [lia|]. split; [lia|].
    split; [intros _; reflexivity|]. lia.
Qed.

(** Three habits of which two are checked in today: 67, the integer
    nearest to 66.66...; and no habit at all. *)
Lemma completionRate_spec_witness :
  completionRate (compute_stats Sample.utc Sample.jan15 (Sample.views 2 3))
  = round_percent 2 3
  /\ round_percent 2 3 = 67
  /\ completionRate (compute_stats Sample.utc Sample.jan15 []) = 0.
Proof.
  split; [|split; [reflexivity|]].
  - pose proof (completionRate_spec Sample.utc Sample.jan15
                  (Sample.views 2 3)) as H.
    cbv zeta in H. destruct H as (_ & _ & _ & _ & _ & _ & H).
    assert (Hn : 0 < Z.of_nat (List.length (Sample.views 2 3)) < 2 ^ 32)
      by (vm_compute; split; reflexivity).
    destruct (H Hn) as (_ & He & _). apply He. vm_compute. discriminate.
  - pose proof (completionRate_spec Sample.utc Sample.jan15 []) as H.
    cbv zeta in H. destruct H as (_ & _ & H0 & _). exact (H0 eq_refl).
Defined.

(* ================================================================== *)
(** * Further properties: sorting *)
(* ================================================================== *)

Section SortedFacts.
Variable A : Type.
Variable le : A -> A -> bool.
Hypothesis le_total : forall a b, le a b = true \/ le b a = true.
Hypothesis le_trans :
  forall a b c, le a b = true -> le b c = true -> le a c = true.

Lemma insert_sorted_StronglySorted x l :
  StronglySorted (fun a b => le a b = true) l ->
  StronglySorted (fun a b => le a b = true) (insert_sorted le x l).
Proof.
  induction 1 as [|y l Hs IH Hy]; cbn.
  - repeat constructor.
  - destruct (le x y) eqn:E.
    + constructor; [now constructor|]. constructor; [exact E|].
      rewrite Forall_forall in *. intros z Hz. eauto.
    + constructor; [exact IH|]. rewrite Forall_forall in *.
      intros z Hz. apply insert_sorted_In in Hz. destruct Hz as [->|Hz]; auto.
      destruct (le_total x y); congruence.
Qed.

Lemma sort_by_StronglySorted l :
  StronglySorted (fun a b => le a b = true) (sort_by le l).
Proof.
  induction l as [|x l IH]; cbn; [constructor|].
  now apply insert_sorted_StronglySorted.
Qed.
End SortedFacts.

Lemma sort_by_sorted_id {A} (le : A -> A -> bool) l :
  StronglySorted (fun a b => le a b = true) l -> sort_by le l = l.
Proof.
  induction 1 as [|x l Hs IH Hx]; [reflexivity|].
  change (sort_by le (x :: l)) with (insert_sorted le x (sort_by le l)).
  rewrite IH. destruct l as [|y l]; [reflexivity|]. cbn.
  inversion Hx as [|? ? Hxy]; subst. now rewrite Hxy.
Qed.

Lemma desc_total a b : desc a b = true \/ desc b a = true.
Proof. unfold desc. destruct (Z.leb_spec b a), (Z.leb_spec a b); auto; lia. Qed.

Lemma desc_trans a b c : desc a b = true -> desc b c = true -> desc a c = true.
Proof. unfold desc. rewrite !Z.leb_le. lia. Qed.

(** A descending list that is a rearrangement of [l] is what
    ORDER BY ... DESC returns for [l]. *)
Lemma sorted_desc_unique l s :
  Permutation s l -> StronglySorted (fun a b => desc a b = true) s ->
  sort_by desc l = s.
Proof.
  intros HP Hs. rewrite (sort_by_desc_Permutation l s) by now apply Permutation_sym.
  now apply sort_by_sorted_id.
Qed.

Lemma sorted_desc_NoDup_strict l :
  StronglySorted (fun a b => desc a b = true) l -> NoDup l ->
  StronglySorted (fun a b => b < a) l.
Proof.
  induction 1 as [|x l Hs IH Hx]; intros ND; [constructor|].
  inversion ND as [|? ? Hn ND']; subst. constructor; [auto|].
  rewrite Forall_forall in *. intros y Hy. specialize (Hx y Hy).
  unfold desc in Hx. apply Z.leb_le in Hx.
  assert (y <> x) by (intros ->; contradiction). lia.
Qed.

(* ================================================================== *)
(** * Further properties: what the streak counts *)
(* ================================================================== *)

Lemma dates_of_NoDup d id : completions_unique d -> NoDup (dates_of d id).
Proof.
  unfold completions_unique, dates_of.
  induction (completions d) as [|c l IH]; cbn; intros ND; [constructor|].
  inversion ND as [|? ? Hn ND']; subst.
  destruct (Z.eqb_spec (c_habit_id c) id) as [E|E]; cbn; [|auto].
  constructor; [|auto]. intros Hin. apply Hn.
  apply in_map_iff in Hin. destruct Hin as (c' & Hd & Hc').
  apply filter_In in Hc'. destruct Hc' as [Hc' Hid]. apply Z.eqb_eq in Hid.
  apply in_map_iff. exists c'. split; [congruence|assumption].
Qed.

Lemma In_dates_of d id day : In day (dates_of d id) <-> done_on d id day = true.
Proof.
  unfold dates_of, done_on. rewrite in_map_iff, existsb_exists. split.
  - intros (c & E & Hc). apply filter_In in Hc. destruct Hc as [Hc Hid].
    exists c. split; [assumption|]. unfold completion_on.
    now rewrite Hid, E, Z.eqb_refl.
  - intros (c & Hc & Ho). unfold completion_on in Ho.
    apply andb_prop in Ho. destruct Ho as [E1 E2]. apply Z.eqb_eq in E2.
    exists c. split; [assumption|]. apply filter_In. tauto.
Qed.

Section StreakRun.
Variable tz : Z.

(** The loop from index [i] on, over days in strictly descending order
    none of which is after day [T - i]: it adds the length [j] of the
    run of consecutive days that starts at [T - i]. *)
Lemma streak_loop_run T : forall s i streak j,
  StronglySorted (fun a b => b < a) s ->
  (forall x, In x s -> x <= T - i) ->
  0 <= j ->
  (forall m, 0 <= m < j -> In (T - i - m) s) ->
  ~ In (T - i - j) s ->
  streak_loop tz (JsDate.Date_of_pg tz T) (map (JsDate.Date_of_pg tz) s) i streak
  = streak + j.
Proof.
  induction s as [|x s IH]; intros i streak j Hs Hle Hj Hrun Hstop;
    cbn [map streak_loop].
  - assert (j = 0) as ->; [|lia].
    destruct (Z.eq_dec j 0); [assumption|].
    destruct (Hrun 0 ltac:(lia)).
  - cbv zeta.
    rewrite JsDateFacts.setHours0_Date_of_pg, JsDateFacts.setDate_getDate.
    inversion Hs as [|? ? Hs' Hx]; subst. rewrite Forall_forall in Hx.
    destruct (Z.eqb_spec (JsDate.Date_of_pg tz x)
                (JsDate.Date_of_pg tz T - i * JsDate.msPerDay)) as [E|E].
    + assert (x = T - i) as ->.
      { unfold JsDate.Date_of_pg, JsDate.UTC, JsDate.MakeDate,
          JsDate.msPerDay in E. lia. }
      assert (0 < j).
      { destruct (Z.eq_dec j 0) as [->|]; [|lia].
        exfalso. apply Hstop. left. lia. }
      rewrite (IH (i + 1) (streak + 1) (j - 1)); try lia; try assumption.
      * intros y Hy. specialize (Hx y Hy). lia.
      * intros m Hm. destruct (Hrun (m + 1) ltac:(lia)) as [Hin|Hin].
        -- lia.
        -- replace (T - (i + 1) - m) with (T - i - (m + 1)) by lia. exact Hin.
      * intros Hin. apply Hstop. right.
        replace (T - i - j) with (T - (i + 1) - (j - 1)) by lia. exact Hin.
    + assert (x < T - i).
      { specialize (Hle x (or_introl eq_refl)).
        assert (x <> T - i); [|lia]. intros ->. apply E.
        unfold JsDate.Date_of_pg, JsDate.UTC, JsDate.MakeDate,
          JsDate.msPerDay. lia. }
      assert (j = 0) as ->; [|lia].
      destruct (Z.eq_dec j 0); [assumption|]. exfalso.
      destruct (Hrun 0 ltac:(lia)) as [Hin|Hin]; [lia|].
      specialize (Hx _ Hin). lia.
Qed.
End StreakRun.

(** X1. Under UNIQUE(habit_id, completed_date), for a habit with no
    completion dated after today: if the habit was completed on each of
    the [k] days today, today - 1, ..., today - k + 1 and not on day
    today - k, then [calculateStreak] returns [k]. *)
Theorem calculateStreak_counts_run tz now habitId d k :
  let today := JsDate.getLocalDate tz now in
  completions_unique d ->
  (forall day, done_on d habitId day = true -> day <= today) ->
  0 <= k ->
  (forall i, 0 <= i < k -> done_on d habitId (today - i) = true) ->
  done_on d habitId (today - k) = false ->
  calculateStreak tz now habitId d = k.
Proof.
  intros today U Hpast Hk Hrun Hstop.
  unfold calculateStreak. cbv zeta.
  rewrite JsDateFacts.setHours0_local_day. fold (JsDate.getLocalDate tz now).
  fold today. unfold select_completed_dates. fold (dates_of d habitId).
  set (s := sort_by desc (dates_of d habitId)).
  assert (Hin : forall x, In x s <-> done_on d habitId x = true).
  { intros x. unfold s. rewrite sort_by_In. apply In_dates_of. }
  assert (Hs : StronglySorted (fun a b => b < a) s).
  { apply sorted_desc_NoDup_strict.
    - apply sort_by_StronglySorted; [apply desc_total|apply desc_trans].
    - eapply Permutation_NoDup; [|apply dates_of_NoDup; exact U].
      apply Permutation_sym, sort_by_Permutation. }
  assert (Hloop : streak_loop tz (JsDate.Date_of_pg tz today)
                    (map (JsDate.Date_of_pg tz) s) 0 0 = 0 + k).
  { apply streak_loop_run; try assumption.
    - intros x Hx. apply Hin in Hx. specialize (Hpast x Hx). lia.
    - intros m Hm. apply Hin. replace (today - 0 - m) with (today - m) by lia.
      now apply Hrun.
    - intros Hx. apply Hin in Hx.
      replace (today - 0 - k) with (today - k) in Hx by lia. congruence. }
  destruct (Z.eqb_spec (Z.of_nat (List.length (map (JsDate.Date_of_pg tz) s))) 0)
    as [E|E]; [|rewrite Hloop; lia].
  destruct s as [|x s']; [|cbn in E; lia].
  cbn in Hloop. lia.
Qed.

(** Three days in a row up to 2024-01-15, and an older completion. *)
Lemma calculateStreak_counts_run_witness :
  calculateStreak Sample.utc_minus_5 Sample.now 1
    (Sample.store [(1, Sample.jan15 - 1); (1, Sample.jan15 - 4);
                   (1, Sample.jan15); (2, Sample.jan15 - 3);
                   (1, Sample.jan15 - 2)]) = 3.
Proof.
  apply (calculateStreak_counts_run Sample.utc_minus_5 Sample.now 1
           (Sample.store [(1, Sample.jan15 - 1); (1, Sample.jan15 - 4);
                          (1, Sample.jan15); (2, Sample.jan15 - 3);
                          (1, Sample.jan15 - 2)]) 3).
  - unfold completions_unique. vm_compute.
    repeat constructor; cbn; intuition discriminate.
  - intros day H. unfold done_on in H. apply existsb_exists in H.
    destruct H as (c & Hc & Ho). unfold completion_on in Ho.
    apply andb_prop in Ho. destruct Ho as [_ Ho]. apply Z.eqb_eq in Ho.
    subst day. vm_compute in Hc.
    repeat (destruct Hc as [<-|Hc]; [vm_compute; discriminate|]).
    destruct Hc.
  - lia.
  - intros i Hi.
    assert (i = 0 \/ i = 1 \/ i = 2) as [->|[->| ->]] by lia;
      vm_compute; reflexivity.
  - vm_compute. reflexivity.
Defined.

(* ================================================================== *)
(** * Further properties: the habits of the home page *)
(* ================================================================== *)

Lemma Map_has_In {V} k (m : list (Z * V)) :
  Map_has k m = true <-> In k (map fst m).
Proof.
  induction m as [|[k' v'] m IH]; cbn; [split; [discriminate|tauto]|].
  rewrite orb_true_iff, IH, Z.eqb_eq. tauto.
Qed.

Lemma Map_update_keys {V} k (f : V -> V) m :
  map fst (Map_update k f m) = map fst m.
Proof.
  induction m as [|[k' v'] m IH]; cbn; [reflexivity|].
  destruct (k' =? k); cbn; [reflexivity|now rewrite IH].
Qed.

Lemma In_Map_update_NoDup {V} k (f : V -> V) m k' v' :
  NoDup (map fst m) ->
  In (k', v') (Map_update k f m) ->
  (k' <> k /\ In (k', v') m)
  \/ (k' = k /\ exists v, In (k, v) m /\ v' = f v).
Proof.
  induction m as [|[k0 v0] m IH]; cbn; [tauto|]. intros ND.
  inversion ND as [|? ? Hn ND']; subst.
  destruct (Z.eqb_spec k0 k) as [->|Hne]; cbn.
  - intros [E|H].
    + inversion E; subst. right. split; [reflexivity|]. exists v0. tauto.
    + left. split; [|tauto]. intros ->. apply Hn.
      apply in_map_iff. exists (k, v'). tauto.
  - intros [E|H].
    + inversion E; subst. tauto.
    + destruct (IH ND' H) as [[? ?]|(-> & v & Hv & ->)]; [tauto|].
      right. split; [reflexivity|]. exists v. tauto.
Qed.

Lemma row_dates_snoc k seen row :
  row_dates k (seen ++ [row])
  = row_dates k seen
    ++ (if r_id row =? k
        then match r_completed_date row with Some c => [c] | None => [] end
        else []).
Proof. unfold row_dates. rewrite flat_map_app. cbn. now rewrite app_nil_r. Qed.

Lemma row_checked_snoc k seen row :
  row_checked k (seen ++ [row])
  = row_checked k seen || ((r_id row =? k) && r_checked_today row).
Proof. unfold row_checked. rewrite existsb_app. cbn. now rewrite orb_false_r. Qed.

Lemma row_dates_absent k seen :
  ~ In k (map r_id seen) -> row_dates k seen = [] /\ row_checked k seen = false.
Proof.
  unfold row_dates, row_checked.
  induction seen as [|r seen IH]; cbn; [tauto|]. intros H.
  destruct (Z.eqb_spec (r_id r) k); [tauto|]. cbn. apply IH. tauto.
Qed.

Lemma group_row_grouped_exactly seen m row :
  grouped_exactly seen m -> grouped_exactly (seen ++ [row]) (group_row m row).
Proof.
  intros (ND & Hkeys & Hent). unfold group_row.
  set (fresh := {| v_id := r_id row; v_name := r_name row;
                   v_created_at := r_created_at row;
                   v_reminderTime := r_reminder_time row;
                   v_checkedInToday := false; v_streak := 0;
                   v_completions := []; v_totalCompletions := 0 |}).
  set (m1 := if negb (Map_has (r_id row) m) then m ++ [(r_id row, fresh)] else m).
  assert (ND1 : NoDup (map fst m1)).
  { unfold m1. destruct (Map_has (r_id row) m) eqn:E; cbn [negb]; [exact ND|].
    rewrite map_app. cbn. apply NoDup_snoc; [exact ND|].
    intros Hin. apply Map_has_In in Hin. congruence. }
  assert (Hk1 : forall k, In k (map fst m1) <-> In k (map r_id (seen ++ [row]))).
  { intros k. rewrite map_app, in_app_iff. cbn. unfold m1.
    destruct (Map_has (r_id row) m) eqn:E; cbn [negb].
    - rewrite Hkeys. apply Map_has_In, Hkeys in E.
      split; [tauto|]. intros [H|[<-|[]]]; assumption.
    - rewrite map_app, in_app_iff, Hkeys. cbn. tauto. }
  assert (Hin1 : forall k v, In (k, v) m1 ->
                   In (k, v) m \/ (k = r_id row /\ v = fresh
                                   /\ ~ In k (map r_id seen))).
  { intros k v. unfold m1.
    destruct (Map_has (r_id row) m) eqn:E; cbn [negb]; [tauto|].
    rewrite in_app_iff. intros [H|[H|[]]]; [tauto|].
    inversion H; subst. right. repeat split.
    intros Hin. apply Hkeys, Map_has_In in Hin. congruence. }
  split; [now rewrite Map_update_keys|]. split.
  { intros k. now rewrite Map_update_keys. }
  intros k v Hin.
  apply In_Map_update_NoDup in Hin; [|exact ND1].
  rewrite row_dates_snoc, row_checked_snoc.
  destruct Hin as [[Hne Hin]|(-> & v0 & Hin & ->)].
  - destruct (Z.eqb_spec (r_id row) k); [congruence|].
    rewrite app_nil_r, orb_false_r.
    destruct (Hin1 _ _ Hin) as [H|(-> & _)]; [|congruence].
    destruct (Hent _ _ H) as (E1 & E2 & E3 & E4 & E5 & r & Hr & Er).
    do 5 (split; [assumption|]). exists r. rewrite in_app_iff. tauto.
  - rewrite Z.eqb_refl. cbn [andb v_id v_completions v_totalCompletions
                               v_checkedInToday v_streak v_name v_created_at
                               v_reminderTime].
    destruct (Hin1 _ _ Hin) as [H|(_ & -> & Hnew)].
    + destruct (Hent _ _ H) as (E1 & E2 & E3 & E4 & E5 & r & Hr & Er).
      rewrite E2, E3, E4.
      split; [assumption|]. split; [|split; [|split; [|split]]].
      * destruct (r_completed_date row); [reflexivity|now rewrite app_nil_r].
      * destruct (r_completed_date row); [|now rewrite app_nil_r].
        rewrite length_app. cbn. lia.
      * destruct (r_checked_today row), (row_checked (r_id row) seen);
          reflexivity.
      * assumption.
      * exists r. rewrite in_app_iff. tauto.
    + destruct (row_dates_absent _ _ Hnew) as [-> ->]. cbn.
      split; [reflexivity|]. split; [|split; [|split; [|split]]].
      * now destruct (r_completed_date row).
      * now destruct (r_completed_date row).
      * now destruct (r_checked_today row).
      * reflexivity.
      * exists row. rewrite in_app_iff. cbn. tauto.
Qed.

Lemma group_rows_grouped_exactly rows : grouped_exactly rows (group_rows rows).
Proof.
  unfold group_rows.
  enough (H : forall seen m, grouped_exactly seen m ->
                grouped_exactly (seen ++ rows) (fold_left group_row rows m)).
  { apply (H [] []).
    split; [constructor|]. split; [intros k; cbn; tauto|intros k v []]. }
  induction rows as [|row rows IH]; intros seen m Inv; cbn [fold_left].
  - now rewrite app_nil_r.
  - replace (seen ++ row :: rows) with ((seen ++ [row]) ++ rows)
      by (now rewrite <- app_assoc).
    apply IH. now apply group_row_grouped_exactly.
Qed.

Lemma home_order_total a b : home_order a b = true \/ home_order b a = true.
Proof.
  unfold home_order.
  destruct (Z.ltb_spec (h_created_at (fst b)) (h_created_at (fst a))),
    (Z.ltb_spec (h_created_at (fst a)) (h_created_at (fst b))),
    (Z.eqb_spec (h_created_at (fst a)) (h_created_at (fst b))),
    (Z.eqb_spec (h_created_at (fst b)) (h_created_at (fst a)));
    cbn; try tauto; try lia.
  destruct (snd a) as [x|], (snd b) as [y|]; try tauto.
  destruct (Z.leb_spec y x), (Z.leb_spec x y); try tauto. lia.
Qed.

Lemma home_order_trans a b c :
  home_order a b = true -> home_order b c = true -> home_order a c = true.
Proof.
  unfold home_order.
  destruct (Z.ltb_spec (h_created_at (fst b)) (h_created_at (fst a))),
    (Z.ltb_spec (h_created_at (fst c)) (h_created_at (fst b))),
    (Z.ltb_spec (h_created_at (fst c)) (h_created_at (fst a))),
    (Z.eqb_spec (h_created_at (fst a)) (h_created_at (fst b))),
    (Z.eqb_spec (h_created_at (fst b)) (h_created_at (fst c))),
    (Z.eqb_spec (h_created_at (fst a)) (h_created_at (fst c)));
    cbn; try tauto; try lia; try discriminate.
  destruct (snd a) as [x|], (snd b) as [y|], (snd c) as [z|];
    try tauto; try discriminate.
  rewrite !Z.leb_le. lia.
Qed.

Lemma home_query_read_row tz today userId d :
  home_query tz today userId d
  = map (read_row tz today)
      (sort_by home_order (flat_map (left_join d) (habits_of userId d))).
Proof. reflexivity. Qed.

(** The joined rows of one habit: its dates, or a single null. *)
Lemma left_join_spec d h hc :
  In hc (left_join d h) ->
  fst hc = h
  /\ match snd hc with
     | Some x => In x (dates_of d (h_id h))
     | None => dates_of d (h_id h) = []
     end.
Proof.
  unfold left_join, dates_of.
  destruct (filter (fun c => c_habit_id c =? h_id h) (completions d))
    as [|c cs] eqn:E.
  - intros [<-|[]]. cbn. tauto.
  - intros Hin. apply in_map_iff in Hin. destruct Hin as (c' & <- & Hc').
    cbn [fst snd]. split; [reflexivity|]. now apply in_map.
Qed.

Lemma left_join_nonempty d h : exists c, In (h, c) (left_join d h).
Proof.
  unfold left_join.
  destruct (filter (fun c => c_habit_id c =? h_id h) (completions d)) as [|c cs].
  - exists None. now left.
  - exists (Some (c_completed_date c)). now left.
Qed.

Lemma joined_dates_left_join d k h :
  joined_dates k (left_join d h)
  = if h_id h =? k then dates_of d (h_id h) else [].
Proof.
  unfold left_join, dates_of, joined_dates.
  destruct (filter (fun c => c_habit_id c =? h_id h) (completions d)) as [|c cs].
  - cbn. now destruct (h_id h =? k).
  - generalize (c :: cs). intros l. induction l as [|x l IH]; cbn [map flat_map].
    + now destruct (h_id h =? k).
    + cbn [fst snd]. rewrite IH. now destruct (h_id h =? k).
Qed.

Lemma joined_dates_app k l l' :
  joined_dates k (l ++ l') = joined_dates k l ++ joined_dates k l'.
Proof. unfold joined_dates. apply flat_map_app. Qed.

Lemma joined_dates_of_habit d hs h :
  NoDup (map h_id hs) -> In h hs ->
  joined_dates (h_id h) (flat_map (left_join d) hs) = dates_of d (h_id h).
Proof.
  induction hs as [|h' hs IH]; cbn [flat_map map]; intros ND Hin; [destruct Hin|].
  inversion ND as [|? ? Hn ND']; subst.
  rewrite joined_dates_app, joined_dates_left_join.
  destruct Hin as [->|Hin].
  - rewrite Z.eqb_refl.
    enough (joined_dates (h_id h) (flat_map (left_join d) hs) = []) as ->
        by apply app_nil_r.
    clear IH ND ND'. induction hs as [|x hs IH]; [reflexivity|].
    cbn [flat_map]. rewrite joined_dates_app, joined_dates_left_join.
    cbn [map] in Hn.
    destruct (Z.eqb_spec (h_id x) (h_id h)) as [E|_];
      [exfalso; apply Hn; now left|].
    apply IH. intros H. apply Hn. now right.
  - destruct (Z.eqb_spec (h_id h') (h_id h)) as [E|_].
    + exfalso. apply Hn. rewrite E. now apply in_map.
    + now apply IH.
Qed.

Lemma row_dates_read_row tz today k l :
  row_dates k (map (read_row tz today) l)
  = map (JsDate.Date_of_pg tz) (joined_dates k l).
Proof.
  unfold row_dates, joined_dates.
  induction l as [|[h c] l IH]; [reflexivity|].
  cbn [map flat_map read_row r_id r_completed_date fst snd].
  rewrite map_app, IH.
  destruct (h_id h =? k); [|reflexivity]. now destruct c.
Qed.

Lemma row_checked_read_row tz today k l :
  row_checked k (map (read_row tz today) l)
  = existsb (fun x => x =? today) (joined_dates k l).
Proof.
  unfold row_checked, joined_dates.
  induction l as [|[h c] l IH]; [reflexivity|].
  cbn [map flat_map existsb read_row r_id r_checked_today fst snd].
  rewrite existsb_app, IH.
  destruct (h_id h =? k); [|reflexivity]. destruct c; cbn; [|reflexivity].
  now rewrite orb_false_r.
Qed.

Lemma joined_dates_StronglySorted k l :
  StronglySorted (fun a b => home_order a b = true) l ->
  (forall a b, In a l -> In b l ->
               h_id (fst a) = k -> h_id (fst b) = k -> fst a = fst b) ->
  StronglySorted (fun a b => desc a b = true) (joined_dates k l).
Proof.
  induction 1 as [|a l Hs IH Ha]; intros Hsame; [constructor|].
  unfold joined_dates. cbn [flat_map]. fold (joined_dates k l).
  assert (IH' : StronglySorted (fun a b => desc a b = true) (joined_dates k l)).
  { apply IH. intros x y Hx Hy. apply Hsame; now right. }
  destruct (Z.eqb_spec (h_id (fst a)) k) as [E|_]; [|exact IH'].
  destruct (snd a) as [x|] eqn:Ex; [|exact IH'].
  cbn [app]. constructor; [exact IH'|].
  rewrite Forall_forall in *. intros y Hy.
  unfold joined_dates in Hy. apply in_flat_map in Hy.
  destruct Hy as (b & Hb & Hy).
  destruct (Z.eqb_spec (h_id (fst b)) k) as [Eb|_]; [|destruct Hy].
  destruct (snd b) as [y'|] eqn:Ey; [|destruct Hy].
  destruct Hy as [<-|[]].
  specialize (Ha b Hb). unfold home_order in Ha.
  rewrite (Hsame a b (or_introl eq_refl) (or_intror Hb) E Eb) in Ha.
  rewrite Z.ltb_irrefl, Z.eqb_refl, Ex, Ey in Ha. exact Ha.
Qed.

Section HomeRows.
Variable tz : Z.
Variable d : db.
Variable userId : Z.
Hypothesis PK : habits_pk d.

Let hs := habits_of userId d.
Let sorted := sort_by home_order (flat_map (left_join d) hs).

Lemma habits_of_NoDup : NoDup (map h_id hs).
Proof. apply NoDup_map_filter. exact PK. Qed.

Lemma In_sorted hc :
  In hc sorted <-> exists h, In h hs /\ In hc (left_join d h).
Proof. unfold sorted. rewrite sort_by_In, in_flat_map. reflexivity. Qed.

Lemma sorted_habit h hc :
  In h hs -> In hc sorted -> h_id (fst hc) = h_id h -> fst hc = h.
Proof.
  intros Hh Hhc E. apply In_sorted in Hhc. destruct Hhc as (h' & Hh' & Hin).
  destruct (left_join_spec _ _ _ Hin) as [E' _]. rewrite E' in *.
  exact (NoDup_map_eq h_id hs h' h habits_of_NoDup Hh' Hh E).
Qed.

(** The dates of one habit come out of the query in descending order. *)
Lemma joined_dates_sorted h :
  In h hs -> joined_dates (h_id h) sorted = sort_by desc (dates_of d (h_id h)).
Proof.
  intros Hh. symmetry. apply sorted_desc_unique.
  - rewrite <- (joined_dates_of_habit d hs h habits_of_NoDup Hh).
    unfold joined_dates. apply Permutation_flat_map. apply sort_by_Permutation.
  - apply joined_dates_StronglySorted.
    + apply sort_by_StronglySorted;
        [apply home_order_total|apply home_order_trans].
    + intros a b Ha Hb Ea Eb.
      rewrite (sorted_habit h a Hh Ha Ea), (sorted_habit h b Hh Hb Eb).
      reflexivity.
Qed.

Lemma home_rows_ids today k :
  In k (map r_id (home_query tz today userId d)) <-> In k (map h_id hs).
Proof.
  rewrite home_query_read_row, map_map. fold hs. fold sorted.
  rewrite !in_map_iff. split.
  - intros ([h c] & <- & Hin). apply In_sorted in Hin.
    destruct Hin as (h' & Hh' & Hin).
    destruct (left_join_spec _ _ _ Hin) as [E _]. cbn in E. subst h'.
    exists h. tauto.
  - intros (h & <- & Hh). destruct (left_join_nonempty d h) as (c & Hc).
    exists (h, c). split; [reflexivity|]. apply In_sorted. eauto.
Qed.

Lemma home_rows_dates today h :
  In h hs ->
  row_dates (h_id h) (home_query tz today userId d)
  = select_completed_dates tz (h_id h) d.
Proof.
  intros Hh. rewrite home_query_read_row. fold hs. fold sorted.
  now rewrite row_dates_read_row, joined_dates_sorted.
Qed.

Lemma home_rows_checked today h :
  In h hs ->
  row_checked (h_id h) (home_query tz today userId d) = done_on d (h_id h) today.
Proof.
  intros Hh. rewrite home_query_read_row. fold hs. fold sorted.
  rewrite row_checked_read_row, joined_dates_sorted by assumption.
  apply eq_true_iff_eq. rewrite existsb_exists. split.
  - intros (x & Hx & E). apply Z.eqb_eq in E. subst x.
    apply sort_by_In in Hx. now apply In_dates_of.
  - intros H. exists today. rewrite sort_by_In, Z.eqb_refl.
    split; [now apply In_dates_of|reflexivity].
Qed.

Lemma home_rows_columns today h r :
  In h hs -> In r (home_query tz today userId d) -> r_id r = h_id h ->
  r_name r = h_name h /\ r_created_at r = h_created_at h
  /\ r_reminder_time r = h_reminder_time h.
Proof.
  intros Hh Hr E. rewrite home_query_read_row in Hr. fold hs in Hr.
  fold sorted in Hr. apply in_map_iff in Hr. destruct Hr as ([h' c] & <- & Hin).
  cbn in E. pose proof (sorted_habit h (h', c) Hh Hin E) as E'.
  cbn in E'. subst h'. cbn. tauto.
Qed.
End HomeRows.

Section HomeViews.
Variable tz : Z.
Variable localeCompare : string -> string -> Z.

Lemma sort_habits_Permutation sortBy l :
  Permutation (sort_habits localeCompare sortBy l) l.
Proof.
  unfold sort_habits.
  repeat match goal with
    | |- context [if ?c then _ else _] => destruct c
    end; apply sort_by_Permutation.
Qed.

(** An entry of [habitsMap], once enriched, is the expected view of the
    habit with that id. *)
Lemma enriched_entry today userId d k v h :
  habits_pk d ->
  In (k, v) (group_rows (home_query tz today userId d)) ->
  In h (habits_of userId d) -> h_id h = k ->
  enrich tz today v = expected_view tz today d h.
Proof.
  intros PK Hin Hh <-.
  destruct (group_rows_grouped_exactly (home_query tz today userId d))
    as (_ & _ & Hent).
  destruct (Hent _ _ Hin) as (E1 & E2 & E3 & E4 & E5 & r & Hr & Er & En & Ec & Et).
  destruct (home_rows_columns tz d userId PK today h r Hh Hr Er) as (N1 & N2 & N3).
  rewrite (home_rows_dates tz d userId PK today h Hh) in E2, E3.
  rewrite (home_rows_checked tz d userId PK today h Hh) in E4.
  unfold enrich, expected_view. rewrite E1, E2, E3, E4, En, Ec, Et, N1, N2, N3.
  reflexivity.
Qed.

(** The list of habits the home page renders is, up to its order, the
    list of the expected views of the user's habits. *)
Lemma home_views_Permutation now sort userId d :
  habits_pk d ->
  Permutation
    (view_habits (get_home tz localeCompare now sort userId d))
    (map (expected_view tz (JsDate.getLocalDate tz now) d)
         (habits_of userId d)).
Proof.
  intros PK. unfold get_home. cbv zeta. cbn [view_habits].
  set (today := JsDate.getLocalDate tz now).
  rewrite sort_habits_Permutation.
  set (m := group_rows (home_query tz today userId d)).
  destruct (group_rows_grouped_exactly (home_query tz today userId d))
    as (ND & Hkeys & Hent). fold m in ND, Hkeys, Hent.
  assert (Hids : map v_id (map (enrich tz today) (Map_values m)) = map fst m).
  { unfold Map_values. rewrite !map_map. apply map_ext_in.
    intros [k v] Hin. cbn. now destruct (Hent _ _ Hin). }
  apply NoDup_Permutation.
  - apply NoDup_map_inv with (f := v_id). now rewrite Hids.
  - apply NoDup_map_inv with (f := v_id). rewrite map_map. cbn [expected_view v_id].
    now apply habits_of_NoDup.
  - intros v. rewrite !in_map_iff. split.
    + intros (v0 & <- & Hv0). unfold Map_values in Hv0.
      apply in_map_iff in Hv0. destruct Hv0 as ([k v1] & <- & Hin). cbn [snd].
      assert (Hk : In k (map fst m)) by (apply in_map_iff; exists (k, v1); tauto).
      apply Hkeys, (home_rows_ids tz d userId today) in Hk.
      apply in_map_iff in Hk. destruct Hk as (h & Ek & Hh).
      exists h. split; [|exact Hh]. symmetry.
      now apply (enriched_entry today userId d k v1 h).
    + intros (h & <- & Hh).
      assert (Hk : In (h_id h) (map fst m)).
      { apply Hkeys, (home_rows_ids tz d userId today). now apply in_map. }
      apply in_map_iff in Hk. destruct Hk as ([k v1] & Ek & Hin). cbn in Ek.
      exists v1. split.
      * now apply (enriched_entry today userId d k v1 h).
      * unfold Map_values. apply in_map_iff. exists (k, v1). tauto.
Qed.
End HomeViews.

(** X2. Under the primary key of [habits], the home page shows each
    habit of the requesting user exactly once, with the columns of that
    habit, its completion dates in descending order, their number and
    whether one of them is today; it shows no habit of anybody else. *)
Theorem home_page_shows_the_users_habits tz localeCompare now sort userId d :
  habits_pk d ->
  let today := JsDate.getLocalDate tz now in
  let views := view_habits (get_home tz localeCompare now sort userId d) in
  (forall v, In v views ->
     exists h, In h (habits d) /\ h_user_id h = Some userId
               /\ v = expected_view tz today d h)
  /\ (forall h, In h (habits d) -> h_user_id h = Some userId ->
        In (expected_view tz today d h) views)
  /\ NoDup (map v_id views)
  /\ List.length views = List.length (habits_of userId d).
Proof.
  intros PK today views.
  pose proof (home_views_Permutation tz localeCompare now sort userId d PK) as HP.
  fold today in HP. fold views in HP.
  assert (Hof : forall h, In h (habits_of userId d)
                          <-> In h (habits d) /\ h_user_id h = Some userId).
  { intros h. unfold habits_of. rewrite filter_In.
    destruct (h_user_id h) as [u|]; [|split; intros [? ?]; discriminate].
    rewrite Z.eqb_eq. split; intros [? E]; split; congruence. }
  split; [|split; [|split]].
  - intros v Hv. apply (Permutation_in _ HP) in Hv.
    apply in_map_iff in Hv. destruct Hv as (h & <- & Hh).
    apply Hof in Hh. exists h. tauto.
  - intros h Hh Hu. apply (Permutation_in _ (Permutation_sym HP)).
    apply in_map. apply Hof. tauto.
  - rewrite (Permutation_map v_id HP), map_map. cbn [expected_view v_id].
    now apply habits_of_NoDup.
  - rewrite (Permutation_length HP). apply length_map.
Qed.

(** User 1 sees the one habit they own. *)
Lemma home_page_shows_the_users_habits_witness :
  List.length
    (view_habits
       (get_home Sample.utc_plus_3 Sample.localeCompare Sample.now None 1
          (Sample.store [(1, Sample.jan15); (2, Sample.jan15)])))
  = List.length
      (habits_of 1 (Sample.store [(1, Sample.jan15); (2, Sample.jan15)])).
Proof.
  assert (PK : habits_pk (Sample.store [(1, Sample.jan15); (2, Sample.jan15)])).
  { unfold habits_pk. cbn. repeat constructor; cbn; intuition lia. }
  apply (home_page_shows_the_users_habits Sample.utc_plus_3
           Sample.localeCompare Sample.now None 1 _ PK).
Defined.

Lemma select_completed_dates_length tz id d :
  List.length (select_completed_dates tz id d) = List.length (dates_of d id).
Proof.
  unfold select_completed_dates. fold (dates_of d id).
  now rewrite length_map, sort_by_length.
Qed.

Lemma expected_views_checked tz today d hs :
  List.length (filter v_checkedInToday (map (expected_view tz today d) hs))
  = List.length (filter (fun h => done_on d (h_id h) today) hs).
Proof.
  induction hs as [|h hs IH]; [reflexivity|].
  cbn [map filter expected_view v_checkedInToday].
  destruct (done_on d (h_id h) today); cbn [List.length]; now rewrite IH.
Qed.

(** X3. Under the primary key of [habits], the counters of the home
    page are those of the store: [totalHabits] is the number of habits of
    the user, [completedToday] the number of them with a completion dated
    today, [totalAllTime] the number of completions of all of them. *)
Theorem home_stats_count_the_store tz localeCompare now sort userId d :
  habits_pk d ->
  let today := JsDate.getLocalDate tz now in
  let s := view_stats (get_home tz localeCompare now sort userId d) in
  totalHabits s = Z.of_nat (List.length (habits_of userId d))
  /\ completedToday s
     = Z.of_nat (List.length
                   (filter (fun h => done_on d (h_id h) today)
                           (habits_of userId d)))
  /\ totalAllTime s
     = Zsum (map (fun h => Z.of_nat (List.length (dates_of d (h_id h))))
                 (habits_of userId d)).
Proof.
  intros PK today s.
  pose proof (home_views_Permutation tz localeCompare now sort userId d PK) as HP.
  fold today in HP.
  unfold s, get_home. cbv zeta. cbn [view_stats]. fold today.
  unfold get_home in HP. cbv zeta in HP. cbn [view_habits] in HP. fold today in HP.
  set (views := sort_habits localeCompare _ _) in *.
  unfold compute_stats. cbn [totalHabits completedToday totalAllTime].
  split; [|split].
  - now rewrite (Permutation_length HP), length_map.
  - rewrite (Permutation_length (Permutation_filter_keep v_checkedInToday _ _ HP)).
    f_equal. apply expected_views_checked.
  - rewrite fold_left_Zsum, Z.add_0_l.
    rewrite (Zsum_Permutation _ _ (Permutation_map v_totalCompletions HP)).
    rewrite map_map. f_equal. apply map_ext. intros h.
    cbn [expected_view v_totalCompletions].
    now rewrite select_completed_dates_length.
Qed.

(** Two habits of user 1, one completed today and three days ago, the
    other never; a habit of user 2 completed today. *)
Lemma home_stats_count_the_store_witness :
  let s := view_stats
             (get_home Sample.utc Sample.localeCompare Sample.now None 1
                (Sample.store3 [(1, Sample.jan15); (2, Sample.jan15);
                                (1, Sample.jan15 - 3)])) in
  totalHabits s = 2 /\ completedToday s = 1 /\ totalAllTime s = 2.
Proof.
  cbv zeta.
  assert (PK : habits_pk (Sample.store3 [(1, Sample.jan15); (2, Sample.jan15);
                                         (1, Sample.jan15 - 3)])).
  { unfold habits_pk. cbn. repeat constructor; cbn; intuition lia. }
  destruct (home_stats_count_the_store Sample.utc Sample.localeCompare
              Sample.now None 1 _ PK) as (H1 & H2 & H3).
  rewrite H1, H2, H3. repeat split; vm_compute; reflexivity.
Defined.

(* ================================================================== *)
(** * Further properties: the two streak computations *)
(* ================================================================== *)

Lemma calculateStreak_loop tz now id d :
  calculateStreak tz now id d
  = streak_loop tz (JsDate.Date_of_pg tz (JsDate.getLocalDate tz now))
      (select_completed_dates tz id d) 0 0.
Proof.
  unfold calculateStreak. cbv zeta. rewrite JsDateFacts.setHours0_local_day.
  fold (JsDate.getLocalDate tz now).
  destruct (select_completed_dates tz id d); reflexivity.
Qed.

Lemma getLocalDate_day_before tz now :
  JsDate.getLocalDate tz (now - JsDate.msPerDay) = JsDate.getLocalDate tz now - 1.
Proof.
  unfold JsDate.getLocalDate, JsDate.LocalTime, JsDate.Day, JsDate.msPerDay.
  replace (now - 86400000 + tz) with (now + tz + (-1) * 86400000) by lia.
  rewrite Z.div_add by lia. lia.
Qed.

(** X4. While the local year has four digits (1000 to 9999), so that
    [new Date(today)] is UTC midnight of today, and under the primary
    key of [habits]: the streak the home page shows for a habit is the
    value of [calculateStreak] for that habit, taken at the same instant
    when the server's local time is not behind UTC, and one day earlier
    when it is. *)
Theorem home_streak_is_calculateStreak tz localeCompare now sort userId d v :
  1000 <= getFullYear tz now <= 9999 ->
  - JsDate.msPerDay <= tz < JsDate.msPerDay ->
  habits_pk d ->
  In v (view_habits (get_home tz localeCompare now sort userId d)) ->
  v_streak v
  = calculateStreak tz (if tz <? 0 then now - JsDate.msPerDay else now)
      (v_id v) d.
Proof.
  intros _ Htz PK Hv.
  apply (Permutation_in _
           (home_views_Permutation tz localeCompare now sort userId d PK)) in Hv.
  apply in_map_iff in Hv. destruct Hv as (h & <- & Hh).
  cbn [expected_view v_streak v_id].
  rewrite calculateStreak_loop, JsDateFacts.setHours0_Date_of_iso by assumption.
  destruct (tz <? 0); [|reflexivity].
  now rewrite getLocalDate_day_before.
Qed.

(** At UTC+03:00 the home page and [calculateStreak] agree. *)
Lemma home_streak_is_calculateStreak_witness :
  map v_streak
    (view_habits
       (get_home Sample.utc_plus_3 Sample.localeCompare Sample.now None 1
          (Sample.store [(1, Sample.jan15); (1, Sample.jan15 - 1)])))
  = [calculateStreak Sample.utc_plus_3 Sample.now 1
       (Sample.store [(1, Sample.jan15); (1, Sample.jan15 - 1)])].
Proof.
  assert (PK : habits_pk (Sample.store [(1, Sample.jan15); (1, Sample.jan15 - 1)])).
  { unfold habits_pk. cbn. repeat constructor; cbn; intuition lia. }
  assert (Htz : - JsDate.msPerDay <= Sample.utc_plus_3 < JsDate.msPerDay)
    by (vm_compute; split; [discriminate|reflexivity]).
  assert (Hy : 1000 <= getFullYear Sample.utc_plus_3 Sample.now <= 9999)
    by (vm_compute; split; discriminate).
  pose proof (fun v =>
    home_streak_is_calculateStreak Sample.utc_plus_3 Sample.localeCompare
      Sample.now None 1 _ v Hy Htz PK) as H.
  remember (view_habits
              (get_home Sample.utc_plus_3 Sample.localeCompare Sample.now None 1
                 (Sample.store [(1, Sample.jan15); (1, Sample.jan15 - 1)])))
    as views eqn:E.
  vm_compute in E. subst views. cbn [map].
  rewrite (H _ (or_introl eq_refl)). reflexivity.
Defined.

Lemma streak_loop_head tz T s :
  StronglySorted (fun a b => b < a) s ->
  (forall x, In x s -> x <= T) -> In T s ->
  1 <= streak_loop tz (JsDate.Date_of_pg tz T) (map (JsDate.Date_of_pg tz) s) 0 0.
Proof.
  intros Hs Hle HT. destruct s as [|x s]; [destruct HT|].
  inversion Hs as [|? ? Hs' Hx]; subst. rewrite Forall_forall in Hx.
  assert (x = T) as ->.
  { destruct HT as [E|HT]; [exact E|].
    specialize (Hx _ HT). specialize (Hle x (or_introl eq_refl)). lia. }
  cbn [map streak_loop]. cbv zeta.
  rewrite JsDateFacts.setHours0_Date_of_pg, JsDateFacts.setDate_getDate.
  replace (JsDate.Date_of_pg tz T - 0 * JsDate.msPerDay)
    with (JsDate.Date_of_pg tz T) by lia.
  rewrite Z.eqb_refl.
  pose proof (streak_loop_bounds tz (JsDate.Date_of_pg tz T)
                (map (JsDate.Date_of_pg tz) s) (0 + 1) (0 + 1)). lia.
Qed.

Lemma done_on_insert_completion d id id' day day' :
  done_on (insert_completion id day d) id' day'
  = done_on d id' day' || ((id' =? id) && (day' =? day)).
Proof.
  unfold done_on, insert_completion. cbn [completions].
  destruct (existsb (completion_on id day) (completions d)) eqn:E.
  - destruct (Z.eqb_spec id' id) as [->|]; [|now rewrite orb_false_r].
    destruct (Z.eqb_spec day' day) as [->|]; [|now rewrite orb_false_r].
    now rewrite E.
  - rewrite existsb_app. cbn. unfold completion_on at 2. cbn.
    rewrite orb_false_r. f_equal.
    now rewrite (Z.eqb_sym id id'), (Z.eqb_sym day day').
Qed.

(** X5. A check-in shows on the home page.  On a server whose local time
    is not behind UTC, for a habit of the user with no completion dated
    after today: once the check-in is made, the home page of that day
    lists the habit as checked in today with a streak of at least 1, and
    [calculateStreak] is at least 1 as well. *)
Theorem checkin_shows_on_home tz localeCompare now now' sort id userId d :
  0 <= tz < JsDate.msPerDay ->
  habits_pk d -> completions_unique d ->
  (exists h, In h (habits d) /\ owned_by id userId h = true) ->
  let today := JsDate.getLocalDate tz now in
  JsDate.getLocalDate tz now' = today ->
  (forall day, done_on d id day = true -> day <= today) ->
  let d' := snd (post_checkin tz now id userId d) in
  1 <= calculateStreak tz now' id d'
  /\ exists v,
       In v (view_habits (get_home tz localeCompare now' sort userId d'))
       /\ v_id v = id /\ v_checkedInToday v = true /\ 1 <= v_streak v.
Proof.
  intros Htz PK U Hown today Hday Hpast d'.
  unfold d'. rewrite (post_checkin_owned tz now id userId d Hown). cbn [snd].
  fold today. set (d1 := insert_completion id today d).
  assert (PK1 : habits_pk d1) by exact PK.
  destruct (insert_completion_one_row id today d U) as (_ & U1 & _ & _).
  fold d1 in U1.
  assert (Hdone : forall day, done_on d1 id day = true -> day <= today).
  { intros day. unfold d1. rewrite done_on_insert_completion, orb_true_iff.
    intros [H|H]; [now apply Hpast|].
    apply andb_prop in H. destruct H as [_ H]. apply Z.eqb_eq in H. lia. }
  assert (Htoday : done_on d1 id today = true).
  { unfold d1. rewrite done_on_insert_completion, !Z.eqb_refl.
    now rewrite orb_true_r. }
  assert (Hloop : 1 <= streak_loop tz (JsDate.Date_of_pg tz today)
                         (select_completed_dates tz id d1) 0 0).
  { unfold select_completed_dates. fold (dates_of d1 id).
    apply streak_loop_head.
    - apply sorted_desc_NoDup_strict.
      + apply sort_by_StronglySorted; [apply desc_total|apply desc_trans].
      + eapply Permutation_NoDup; [|apply dates_of_NoDup; exact U1].
        apply Permutation_sym, sort_by_Permutation.
    - intros x Hx. apply sort_by_In, In_dates_of in Hx. now apply Hdone.
    - apply sort_by_In, In_dates_of. exact Htoday. }
  split.
  - rewrite calculateStreak_loop, Hday. exact Hloop.
  - destruct Hown as (h & Hh & Ho).
    exists (expected_view tz today d1 h).
    assert (Eid : h_id h = id).
    { unfold owned_by in Ho. apply andb_prop in Ho. now apply Z.eqb_eq. }
    split; [|split; [|split]].
    + apply (Permutation_in _
               (Permutation_sym
                  (home_views_Permutation tz localeCompare now' sort userId d1 PK1))).
      rewrite Hday. apply in_map. unfold habits_of. apply filter_In.
      split; [exact Hh|]. unfold owned_by in Ho. apply andb_prop in Ho. tauto.
    + exact Eid.
    + cbn [expected_view v_checkedInToday]. now rewrite Eid.
    + cbn [expected_view v_streak]. rewrite Eid.
      rewrite JsDateFacts.setHours0_Date_of_iso
        by (unfold JsDate.msPerDay in *; lia).
      destruct (Z.ltb_spec tz 0); [lia|]. exact Hloop.
Qed.

(** User 1 checks in at 17:00 UTC on a server at UTC+03:00 and loads
    the home page an hour later. *)
Lemma checkin_shows_on_home_witness :
  1 <= calculateStreak Sample.utc_plus_3 (Sample.now + 3600000) 1
         (snd (post_checkin Sample.utc_plus_3 Sample.now 1 1
                 (Sample.store [(1, Sample.jan15 - 1)]))).
Proof.
  assert (Htz : 0 <= Sample.utc_plus_3 < JsDate.msPerDay)
    by (vm_compute; split; [discriminate|reflexivity]).
  assert (PK : habits_pk (Sample.store [(1, Sample.jan15 - 1)])).
  { unfold habits_pk. cbn. repeat constructor; cbn; intuition lia. }
  assert (U : completions_unique (Sample.store [(1, Sample.jan15 - 1)])).
  { unfold completions_unique. cbn. repeat constructor. cbn. tauto. }
  assert (O : exists h, In h (habits (Sample.store [(1, Sample.jan15 - 1)]))
                        /\ owned_by 1 1 h = true).
  { eexists. split; [left; reflexivity|reflexivity]. }
  apply (checkin_shows_on_home Sample.utc_plus_3 Sample.localeCompare
           Sample.now (Sample.now + 3600000) None 1 1 _ Htz PK U O eq_refl).
  intros day H. unfold done_on in H. apply existsb_exists in H.
  destruct H as (c & Hc & Ho). unfold completion_on in Ho.
  apply andb_prop in Ho. destruct Ho as [_ Ho]. apply Z.eqb_eq in Ho.
  subst day. vm_compute in Hc. destruct Hc as [<-|[]]. vm_compute. discriminate.
Defined.

(* ================================================================== *)
(** * Further properties: the order of the home page *)
(* ================================================================== *)

Lemma StronglySorted_weaken {A} (P Q : A -> A -> Prop) l :
  (forall a b, P a b -> Q a b) -> StronglySorted P l -> StronglySorted Q l.
Proof.
  intros H. induction 1 as [|a l Hs IH Ha]; constructor; [assumption|].
  eapply Forall_impl; [|exact Ha]. auto.
Qed.

Lemma sort_by_key_sorted {A} (key : A -> Z) (l : list A) :
  StronglySorted (fun a b => key a <= key b)
    (sort_by (fun a b => key a - key b <=? 0) l).
Proof.
  apply StronglySorted_weaken
    with (P := fun a b => (key a - key b <=? 0) = true).
  - intros a b H. apply Z.leb_le in H. lia.
  - apply sort_by_StronglySorted.
    + intros a b. rewrite !Z.leb_le. lia.
    + intros a b c. rewrite !Z.leb_le. lia.
Qed.

(** X6. The home page lists the habits by decreasing streak for
    [sort=streak], by increasing creation time for [sort=oldest], and by
    decreasing creation time when [sort] is absent, empty, or any other
    value than these two and [alphabetical]. *)
Theorem home_page_order tz localeCompare now sort userId d :
  let views := view_habits (get_home tz localeCompare now sort userId d) in
  (sort = Some "streak" ->
   StronglySorted (fun a b => v_streak b <= v_streak a) views)
  /\ (sort = Some "oldest" ->
      StronglySorted (fun a b => v_created_at a <= v_created_at b) views)
  /\ ((forall s, sort = Some s ->
                 s <> "streak" /\ s <> "oldest" /\ s <> "alphabetical") ->
      StronglySorted (fun a b => v_created_at b <= v_created_at a) views).
Proof.
  cbv zeta. unfold get_home. cbv zeta. cbn [view_habits].
  split; [|split].
  - intros ->. cbn [JsString.truthy]. unfold sort_habits.
    change (String.eqb "streak" "oldest") with false.
    change (String.eqb "streak" "streak") with true. cbv iota.
    apply StronglySorted_weaken
      with (P := fun a b => (v_streak b - v_streak a <=? 0) = true).
    + intros a b H. apply Z.leb_le in H. lia.
    + apply sort_by_StronglySorted.
      * intros a b. rewrite !Z.leb_le. lia.
      * intros a b c. rewrite !Z.leb_le. lia.
  - intros ->. cbn [JsString.truthy]. unfold sort_habits.
    change (String.eqb "oldest" "oldest") with true. cbv iota.
    apply (sort_by_key_sorted v_created_at).
  - intros Hs.
    assert (Hnew : forall l,
               StronglySorted (fun a b => v_created_at b <= v_created_at a)
                 (sort_by (fun a b => v_created_at b - v_created_at a <=? 0) l)).
    { intros l. apply StronglySorted_weaken
        with (P := fun a b => (v_created_at b - v_created_at a <=? 0) = true).
      - intros a b H. apply Z.leb_le in H. lia.
      - apply sort_by_StronglySorted.
        + intros a b. rewrite !Z.leb_le. lia.
        + intros a b c. rewrite !Z.leb_le. lia. }
    destruct sort as [s|]; [|apply Hnew].
    destruct (Hs s eq_refl) as (N1 & N2 & N3).
    destruct s as [|c s]; [apply Hnew|]. cbn [JsString.truthy].
    unfold sort_habits.
    destruct (String.eqb_spec (String c s) "oldest"); [contradiction|].
    destruct (String.eqb_spec (String c s) "streak"); [contradiction|].
    destruct (String.eqb_spec (String c s) "alphabetical"); [contradiction|].
    apply Hnew.
Qed.

(** The two habits of user 1 by streak: "Run" (0) after "Drink water". *)
Lemma home_page_order_witness :
  StronglySorted (fun a b => v_streak b <= v_streak a)
    (view_habits
       (get_home Sample.utc Sample.localeCompare Sample.now (Some "streak") 1
          (Sample.store3 [(1, Sample.jan15)]))).
Proof.
  apply (home_page_order Sample.utc Sample.localeCompare Sample.now
           (Some "streak") 1 (Sample.store3 [(1, Sample.jan15)])).
  reflexivity.
Defined.

(* ================================================================== *)
(** * Further properties: the write requests *)
(* ================================================================== *)

(** X7. A write request that is not answered by the redirect to the home
    page leaves the store exactly as it was: the 400 of a check on the
    name, the 500 of a [catch] block (a name, a reminder time or an
    [:id] the store rejects), the 403 of the four habit routes and the
    redirect of an unauthenticated request to the login page. *)
Theorem failed_request_changes_nothing tz time_in req user d :
  fst (handle tz time_in req user d) <> Redirect "/" ->
  snd (handle tz time_in req user d) = d.
Proof.
  destruct req as [now habitName reminderTime|m id]; cbn [handle];
    unfold route, ensureAuthenticated, with_id; destruct user as [userId|];
    try reflexivity.
  - unfold post_add. destruct habitName as [name|]; [|reflexivity].
    destruct (_ || _); [reflexivity|]. destruct (_ >? _); [reflexivity|].
    destruct (negb (text_ok _)); [reflexivity|].
    destruct (reminder_param time_in reminderTime); [|reflexivity].
    cbn. congruence.
  - destruct m as [now|now| |habitName reminderTime];
      [destruct (int4 id); [|reflexivity]..|].
    + unfold post_checkin. cbv zeta. destruct (_ =? _); [reflexivity|].
      cbn. congruence.
    + unfold post_undo. cbv zeta. destruct (_ =? _); [reflexivity|].
      cbn. congruence.
    + unfold post_delete.
      destruct (delete_habit id userId d) as [rowCount d'] eqn:E.
      destruct (Z.eqb_spec rowCount 0) as [->|]; [|cbn; congruence].
      intros _. cbn [snd].
      assert (Hno : forall x, In x (habits d) -> owned_by id userId x = false).
      { apply filter_nil_iff. unfold delete_habit in E. inversion E as [[E1 E2]].
        destruct (filter (owned_by id userId) (habits d)); [reflexivity|].
        cbn in E1. lia. }
      rewrite (delete_habit_foreign id userId d Hno) in E. congruence.
    + unfold post_edit. destruct habitName as [name|]; [|reflexivity].
      destruct (_ || _); [reflexivity|]. destruct (_ >? _); [reflexivity|].
      destruct (_ || _); [reflexivity|].
      destruct (reminder_param time_in reminderTime) as [rt|]; [|reflexivity].
      destruct (update_habit (JsString.trim name) rt id userId d)
        as [rowCount d'] eqn:E.
      destruct (Z.eqb_spec rowCount 0) as [->|]; [|cbn; congruence].
      intros _. cbn [snd].
      assert (Hno : forall x, In x (habits d) -> owned_by id userId x = false).
      { apply filter_nil_iff. unfold update_habit in E. inversion E as [[E1 E2]].
        destruct (filter (owned_by id userId) (habits d)); [reflexivity|].
        cbn in E1. lia. }
      rewrite (update_habit_foreign _ _ id userId d Hno) in E. congruence.
Qed.

(** Deleting a habit that does not exist. *)
Lemma failed_request_changes_nothing_witness :
  snd (handle Sample.utc Sample.time_in (Mutate Delete 7) (Some 1)
         (Sample.store [(1, Sample.jan15)]))
  = Sample.store [(1, Sample.jan15)].
Proof.
  apply (failed_request_changes_nothing Sample.utc Sample.time_in
           (Mutate Delete 7) (Some 1) (Sample.store [(1, Sample.jan15)])).
  vm_compute. discriminate.
Defined.

(** The answers of the [catch] blocks: a name with the code unit 0,
    and an [:id] beyond int4. *)
Example rejected_parameters_are_answered_500 :
  let d := Sample.store [(1, Sample.jan15)] in
  handle Sample.utc Sample.time_in
    (Add Sample.now (Some Sample.name_with_nul) None) (Some 1) d
  = (SendError 500 "Insert Error: ", d)
  /\ handle Sample.utc Sample.time_in
       (Mutate (Edit (Some Sample.name_with_nul) None) 1) (Some 1) d
     = (SendError 500 "Edit Error: ", d)
  /\ handle Sample.utc Sample.time_in
       (Mutate (Checkin Sample.now) 2147483648) (Some 1) d
     = (SendError 500 "Check-in Error: ", d)
  /\ handle Sample.utc Sample.time_in (Mutate (Undo Sample.now) 2147483648)
       (Some 1) d
     = (SendError 500 "Undo Error: ", d)
  /\ handle Sample.utc Sample.time_in (Mutate Delete 2147483648) (Some 1) d
     = (SendError 500 "Delete Error: ", d)
  /\ handle Sample.utc Sample.time_in
       (Mutate (Edit (Some "Water") None) 2147483648) (Some 1) d
     = (SendError 500 "Edit Error: ", d)
  /\ handle Sample.utc Sample.time_in
       (Mutate (Edit (Some "") None) 2147483648) (Some 1) d
     = (Send 400 "Habit name is required", d).
Proof. cbv zeta. repeat split. Qed.

Lemma owned_by_id id userId h : owned_by id userId h = true -> h_id h = id.
Proof. unfold owned_by. intros H. apply andb_prop in H. now apply Z.eqb_eq. Qed.

(** X8. Under the primary key of [habits], the owner's delete of habit
    [id] succeeds and removes that habit row and every completion of that
    habit, and nothing else: the other habits, the completions of other
    habits and the sequences are unchanged. *)
Theorem owner_delete_cascades id userId d :
  habits_pk d ->
  (exists h, In h (habits d) /\ owned_by id userId h = true) ->
  let d' := snd (post_delete id userId d) in
  fst (post_delete id userId d) = Redirect "/"
  /\ habits d' = filter (fun h => negb (h_id h =? id)) (habits d)
  /\ completions d'
     = filter (fun c => negb (c_habit_id c =? id)) (completions d)
  /\ habits_id_seq d' = habits_id_seq d
  /\ completions_id_seq d' = completions_id_seq d.
Proof.
  intros PK (h & Hh & Ho). cbv zeta. unfold post_delete, delete_habit.
  assert (Hsame : forall x, In x (habits d) ->
                            owned_by id userId x = (h_id x =? id)).
  { intros x Hx. destruct (Z.eqb_spec (h_id x) id) as [E|E].
    - assert (x = h) as ->; [|exact Ho].
      apply (NoDup_map_eq h_id (habits d)); auto.
      rewrite E. symmetry. now apply owned_by_id with (userId := userId).
    - unfold owned_by. destruct (Z.eqb_spec (h_id x) id); [contradiction|].
      reflexivity. }
  assert (Hgone : forall k,
             existsb (fun x => h_id x =? k)
                     (filter (owned_by id userId) (habits d)) = (k =? id)).
  { intros k. apply eq_true_iff_eq. rewrite existsb_exists, Z.eqb_eq. split.
    - intros (x & Hx & E). apply filter_In in Hx. destruct Hx as [_ Hx].
      apply owned_by_id in Hx. apply Z.eqb_eq in E. lia.
    - intros ->. exists h. rewrite filter_In, Z.eqb_eq.
      split; [tauto|]. now apply owned_by_id with (userId := userId). }
  rewrite (owned_habit_selected id userId d) by eauto. cbn [fst snd habits
    completions habits_id_seq completions_id_seq].
  split; [reflexivity|]. split; [|split; [|split; reflexivity]].
  - apply filter_ext_in. intros x Hx. now rewrite Hsame.
  - apply filter_ext. intros c. now rewrite Hgone, Z.eqb_sym.
Qed.

(** User 1 deletes habit 1: its two completions go, that of habit 2
    stays. *)
Lemma owner_delete_cascades_witness :
  let d := Sample.store [(1, Sample.jan15); (2, Sample.jan15);
                         (1, Sample.jan15 - 1)] in
  map h_id (habits (snd (post_delete 1 1 d))) = [2]
  /\ map c_habit_id (completions (snd (post_delete 1 1 d))) = [2].
Proof.
  cbv zeta.
  assert (PK : habits_pk (Sample.store [(1, Sample.jan15); (2, Sample.jan15);
                                        (1, Sample.jan15 - 1)])).
  { unfold habits_pk. cbn. repeat constructor; cbn; intuition lia. }
  assert (O : exists h, In h (habits (Sample.store [(1, Sample.jan15);
                                                    (2, Sample.jan15);
                                                    (1, Sample.jan15 - 1)]))
                        /\ owned_by 1 1 h = true).
  { eexists. split; [left; reflexivity|reflexivity]. }
  destruct (owner_delete_cascades 1 1 _ PK O) as (_ & H1 & H2 & _).
  rewrite H1, H2. split; reflexivity.
Defined.

(* ================================================================== *)
(** * Further properties: what every reachable store satisfies *)
(* ================================================================== *)

Lemma trimStart_id s :
  match s with
  | EmptyString => True
  | String c _ => JsString.isWhiteSpace c = false
  end ->
  JsString.trimStart s = s.
Proof. destruct s as [|c s]; cbn; [reflexivity|]. now intros ->. Qed.

Lemma trimStart_head s :
  match JsString.trimStart s with
  | EmptyString => True
  | String c _ => JsString.isWhiteSpace c = false
  end.
Proof.
  induction s as [|c s IH]; cbn; [exact I|].
  destruct (JsString.isWhiteSpace c) eqn:E; [exact IH|exact E].
Qed.

Lemma trimEnd_head s :
  match s with
  | EmptyString => True
  | String c _ => JsString.isWhiteSpace c = false
  end ->
  match JsString.trimEnd s with
  | EmptyString => True
  | String c _ => JsString.isWhiteSpace c = false
  end.
Proof.
  destruct s as [|c s]; cbn; [trivial|]. intros E.
  destruct (JsString.trimEnd s); [rewrite E|]; exact E.
Qed.

Lemma trimEnd_idempotent s :
  JsString.trimEnd (JsString.trimEnd s) = JsString.trimEnd s.
Proof.
  induction s as [|c s IH]; [reflexivity|]. cbn [JsString.trimEnd].
  destruct (JsString.trimEnd s) as [|c' r] eqn:E.
  - destruct (JsString.isWhiteSpace c) eqn:W; [reflexivity|].
    cbn. now rewrite W.
  - cbn [JsString.trimEnd]. cbn [JsString.trimEnd] in IH. now rewrite IH.
Qed.

(** [trim] leaves a trimmed string alone. *)
Lemma trim_idempotent s : JsString.trim (JsString.trim s) = JsString.trim s.
Proof.
  unfold JsString.trim.
  rewrite (trimStart_id (JsString.trimEnd (JsString.trimStart s))).
  - apply trimEnd_idempotent.
  - apply trimEnd_head, trimStart_head.
Qed.

Section DataInvariants.
Variable tz : Z.
Variable time_in : string -> option Z.

Lemma valid_new_name name :
  (JsString.length (JsString.trim name) =? 0) = false ->
  (JsString.length name >? 100) = false ->
  1 <= JsString.length (JsString.trim name) <= 100
  /\ JsString.trim (JsString.trim name) = JsString.trim name.
Proof.
  intros H0 H100. apply Z.eqb_neq in H0.
  pose proof (trim_length name).
  assert (0 <= JsString.length (JsString.trim name))
    by (unfold JsString.length; lia).
  destruct (Z.gtb_spec (JsString.length name) 100); [discriminate|].
  split; [lia|apply trim_idempotent].
Qed.

Lemma handle_habits_valid req user d :
  habits_valid d -> habits_valid (snd (handle tz time_in req user d)).
Proof.
  intros Hv. unfold habits_valid in *.
  destruct req as [now habitName reminderTime|m id]; cbn [handle];
    unfold route, ensureAuthenticated, with_id; destruct user as [userId|];
    try exact Hv.
  - unfold post_add. destruct habitName as [name|]; [|exact Hv].
    destruct (negb (JsString.truthy (Some name))); cbn [orb]; [exact Hv|].
    destruct (JsString.length (JsString.trim name) =? 0) eqn:H0; [exact Hv|].
    destruct (JsString.length name >? 100) eqn:H100; [exact Hv|].
    destruct (negb (text_ok _)); [exact Hv|].
    destruct (reminder_param time_in reminderTime); [|exact Hv].
    cbn [snd habits]. apply Forall_app. split; [exact Hv|].
    constructor; [|constructor]. cbn [h_user_id h_name].
    split; [discriminate|]. now apply valid_new_name.
  - destruct m as [now|now| |habitName reminderTime];
      [destruct (int4 id); [|exact Hv]..|].
    + unfold post_checkin. cbv zeta. destruct (_ =? _); exact Hv.
    + unfold post_undo. cbv zeta. destruct (_ =? _); exact Hv.
    + unfold post_delete, delete_habit.
      assert (Forall (fun h => h_user_id h <> None
                               /\ 1 <= JsString.length (h_name h) <= 100
                               /\ JsString.trim (h_name h) = h_name h)
                (filter (fun h => negb (owned_by id userId h)) (habits d)))
        by now apply Forall_filter_keep.
      destruct (_ =? _); assumption.
    + unfold post_edit. destruct habitName as [name|]; [|exact Hv].
      destruct (negb (JsString.truthy (Some name))); cbn [orb]; [exact Hv|].
      destruct (JsString.length (JsString.trim name) =? 0) eqn:H0; [exact Hv|].
      destruct (JsString.length name >? 100) eqn:H100; [exact Hv|].
      destruct (negb (text_ok _) || negb (int4 id)); [exact Hv|].
      destruct (reminder_param time_in reminderTime) as [rt|]; [|exact Hv].
      unfold update_habit.
      assert (Forall (fun h => h_user_id h <> None
                               /\ 1 <= JsString.length (h_name h) <= 100
                               /\ JsString.trim (h_name h) = h_name h)
                (map (fun h =>
                        if owned_by id userId h
                        then {| h_id := h_id h; h_user_id := h_user_id h;
                                h_name := JsString.trim name;
                                h_created_at := h_created_at h;
                                h_reminder_time := rt |}
                        else h) (habits d))).
      { apply Forall_map. eapply Forall_impl; [|exact Hv]. cbn.
        intros h (Hu & Hn). destruct (owned_by id userId h); [|tauto].
        cbn [h_user_id h_name]. split; [exact Hu|]. now apply valid_new_name. }
      destruct (Z.of_nat _ =? 0); exact H.
Qed.

Lemma handle_no_orphans req user d :
  no_orphans d -> no_orphans (snd (handle tz time_in req user d)).
Proof.
  intros Hv. unfold no_orphans in *.
  destruct req as [now habitName reminderTime|m id]; cbn [handle];
    unfold route, ensureAuthenticated, with_id; destruct user as [userId|];
    try exact Hv.
  - unfold post_add. destruct habitName as [name|]; [|exact Hv].
    destruct (_ || _); [exact Hv|]. destruct (_ >? _); [exact Hv|].
    destruct (negb (text_ok _)); [exact Hv|].
    destruct (reminder_param time_in reminderTime); [|exact Hv].
    cbn [snd habits completions]. eapply Forall_impl; [|exact Hv]. cbn.
    intros c (h & Hh & E). exists h. rewrite in_app_iff. tauto.
  - destruct m as [now|now| |habitName reminderTime];
      [destruct (int4 id); [|exact Hv]..|].
    + unfold post_checkin. cbv zeta.
      destruct (filter (owned_by id userId) (habits d)) as [|h l] eqn:E;
        [exact Hv|].
      cbn [List.length Z.of_nat Z.eqb snd]. change (Z.pos _ =? 0) with false.
      cbv iota. cbn [snd insert_completion completions habits].
      destruct (existsb _ _); [exact Hv|]. apply Forall_app. split; [exact Hv|].
      constructor; [|constructor]. cbn [c_habit_id]. exists h.
      assert (Hin : In h (filter (owned_by id userId) (habits d)))
        by (rewrite E; now left).
      apply filter_In in Hin. split; [tauto|]. now apply owned_by_id with userId.
    + unfold post_undo. cbv zeta. destruct (_ =? _); [exact Hv|].
      cbn [snd delete_completion completions habits].
      now apply Forall_filter_keep.
    + unfold post_delete, delete_habit.
      set (gone := filter (owned_by id userId) (habits d)).
      assert (Forall (fun c => exists h,
                          In h (filter (fun h => negb (owned_by id userId h))
                                       (habits d))
                          /\ h_id h = c_habit_id c)
                (filter (fun c => negb (existsb (fun h => h_id h =? c_habit_id c)
                                          gone))
                        (completions d))) as Hok.
      { rewrite Forall_forall in *. intros c Hc. apply filter_In in Hc.
        destruct Hc as [Hc Hkeep]. destruct (Hv c Hc) as (h & Hh & E).
        exists h. split; [|exact E]. apply filter_In. split; [exact Hh|].
        destruct (owned_by id userId h) eqn:Ho; [|reflexivity].
        exfalso. apply negb_true_iff in Hkeep.
        assert (existsb (fun h0 => h_id h0 =? c_habit_id c) gone = true);
          [|congruence].
        apply existsb_exists. exists h. split.
        - unfold gone. apply filter_In. tauto.
        - now apply Z.eqb_eq. }
      destruct (_ =? _); exact Hok.
    + unfold post_edit. destruct habitName as [name|]; [|exact Hv].
      destruct (_ || _); [exact Hv|]. destruct (_ >? _); [exact Hv|].
      destruct (_ || _); [exact Hv|].
      destruct (reminder_param time_in reminderTime) as [rt|]; [|exact Hv].
      unfold update_habit.
      assert (Forall (fun c => exists h,
                          In h (map (fun h =>
                                       if owned_by id userId h
                                       then {| h_id := h_id h;
                                               h_user_id := h_user_id h;
                                               h_name := JsString.trim name;
                                               h_created_at := h_created_at h;
                                               h_reminder_time := rt |}
                                       else h) (habits d))
                          /\ h_id h = c_habit_id c)
                (completions d)) as Hok.
      { eapply Forall_impl; [|exact Hv]. cbn. intros c (h & Hh & E).
        eexists. split; [apply in_map; exact Hh|].
        now destruct (owned_by id userId h). }
      destruct (_ =? _); exact Hok.
Qed.

Lemma reachable_habits_valid d : reachable tz time_in d -> habits_valid d.
Proof.
  induction 1 as [|d req user Hreach IH]; [constructor|].
  now apply handle_habits_valid.
Qed.

Lemma reachable_no_orphans d : reachable tz time_in d -> no_orphans d.
Proof.
  induction 1 as [|d req user Hreach IH]; [constructor|].
  now apply handle_no_orphans.
Qed.
End DataInvariants.


Lemma reachable_run tz time_in reqs d :
  reachable tz time_in d -> reachable tz time_in (run tz time_in reqs d).
Proof.
  revert d. induction reqs as [|r reqs IH]; intros d Hd; [exact Hd|].
  cbn. apply IH. now apply reachable_step.
Qed.

(** X9. Whatever requests were served since the tables were created,
    the store satisfies the constraints of the schema: no two habits
    share an id, and no habit has two completions on one day. *)
Theorem served_store_satisfies_schema tz time_in d :
  reachable tz time_in d -> habits_pk d /\ completions_unique d.
Proof.
  intros H. destruct (reachable_store_ok tz time_in d H) as (Hpk & Hu & _).
  now split.
Qed.

Lemma served_store_satisfies_schema_witness :
  habits_pk (run Sample.utc Sample.time_in Sample.session empty_store)
  /\ completions_unique (run Sample.utc Sample.time_in Sample.session empty_store).
Proof.
  apply (served_store_satisfies_schema Sample.utc Sample.time_in).
  apply reachable_run. constructor.
Defined.

(** X10. Whatever requests were served, every habit of the store has an
    owner and a name of 1 to 100 characters with no white space at
    either end. *)
Theorem served_habits_are_valid tz time_in d :
  reachable tz time_in d -> habits_valid d.
Proof. apply reachable_habits_valid. Qed.

Lemma served_habits_are_valid_witness :
  habits_valid (run Sample.utc Sample.time_in Sample.session empty_store).
Proof.
  apply (served_habits_are_valid Sample.utc Sample.time_in).
  apply reachable_run. constructor.
Defined.

(** X11. Whatever requests were served, every completion of the store
    belongs to a habit that is still there: deleting a habit leaves no
    completion behind. *)
Theorem served_store_has_no_orphans tz time_in d :
  reachable tz time_in d -> no_orphans d.
Proof. apply reachable_no_orphans. Qed.

Lemma served_store_has_no_orphans_witness :
  no_orphans (run Sample.utc Sample.time_in Sample.session empty_store).
Proof.
  apply (served_store_has_no_orphans Sample.utc Sample.time_in).
  apply reachable_run. constructor.
Defined.

(** The session of the examples leaves habit 1, renamed, with its two
    completions, and habit 3 of user 2. *)
Example session_store :
  run Sample.utc Sample.time_in Sample.session empty_store
  = {| habits :=
         [ {| h_id := 1; h_user_id := Some 1; h_name := "Water";
              h_created_at := 1704067200000; h_reminder_time := Some 28800 |};
           {| h_id := 3; h_user_id := Some 2; h_name := "Run";
              h_created_at := 1704240000000; h_reminder_time := None |} ];
       completions :=
         [ {| c_id := 1; c_habit_id := 1; c_completed_date := Sample.jan15 |};
           {| c_id := 3; c_habit_id := 1;
              c_completed_date := Sample.jan15 + 1 |} ];
       habits_id_seq := 4;
       completions_id_seq := 4 |}.
Proof. vm_compute. reflexivity. Qed.

(* ================================================================== *)
(** * Further properties: the history of a habit *)
(* ================================================================== *)

Lemma filter_single {A B} (f : A -> B) (p : A -> bool) l h :
  NoDup (map f l) -> In h l -> p h = true ->
  (forall x, In x l -> p x = true -> f x = f h) ->
  filter p l = [h].
Proof.
  induction l as [|x l IH]; intros ND Hin Hp Hf; [destruct Hin|].
  cbn [map] in ND. inversion ND as [|? ? Hx ND']; subst.
  assert (Hnone : In h l -> False -> filter p l = []) by tauto.
  cbn [filter]. destruct Hin as [->|Hin].
  - rewrite Hp. f_equal. apply filter_nil_iff. intros y Hy.
    destruct (p y) eqn:E; [|reflexivity]. exfalso. apply Hx.
    rewrite <- (Hf y (or_intror Hy) E). now apply in_map.
  - destruct (p x) eqn:E.
    + exfalso. apply Hx. rewrite (Hf x (or_introl eq_refl) E). now apply in_map.
    + apply IH; auto. intros y Hy. apply Hf. now right.
Qed.

Lemma owned_filter_single id userId d h :
  habits_pk d -> In h (habits d) -> owned_by id userId h = true ->
  filter (owned_by id userId) (habits d) = [h].
Proof.
  intros PK Hin Ho. apply (filter_single h_id); auto.
  intros x _ Hx. apply owned_by_id in Hx, Ho. congruence.
Qed.

Lemma insert_sorted_map {A B} (f : A -> B) le1 le2 x l :
  (forall a b, le2 (f a) (f b) = le1 a b) ->
  insert_sorted le2 (f x) (map f l) = map f (insert_sorted le1 x l).
Proof.
  intros H. induction l as [|y l IH]; cbn; [reflexivity|].
  rewrite H. destruct (le1 x y); cbn; [reflexivity|]. now rewrite IH.
Qed.

Lemma sort_by_map {A B} (f : A -> B) le1 le2 l :
  (forall a b, le2 (f a) (f b) = le1 a b) ->
  sort_by le2 (map f l) = map f (sort_by le1 l).
Proof.
  intros H. induction l as [|x l IH]; [reflexivity|].
  cbn [map]. change (sort_by le2 (f x :: map f l))
    with (insert_sorted le2 (f x) (sort_by le2 (map f l))).
  rewrite IH. change (sort_by le1 (x :: l))
    with (insert_sorted le1 x (sort_by le1 l)).
  now apply insert_sorted_map.
Qed.

Lemma filter_present_map_Some {A B} (f : A -> B) (g : A -> string) l :
  filter_present snd (map (fun x => (g x, Some (f x))) l) = map f l.
Proof. induction l as [|x l IH]; cbn; [reflexivity|]. now rewrite <- IH. Qed.

(** X12. Under the primary key of [habits], the owner of habit [id]
    is answered the habit's name and the dates the streak is computed
    from: the completions of that habit, most recent first, each read as
    the local midnight of its day.  A habit without completions gives
    the empty list, not an error. *)
Theorem history_of_own_habit tz id userId d h :
  habits_pk d -> In h (habits d) -> owned_by id userId h = true ->
  get_api_history tz id (Some userId) d
  = Json {| history_name := h_name h;
            history_completions := select_completed_dates tz id d |}.
Proof.
  intros PK Hin Ho. unfold get_api_history, ensureAuthenticated_read.
  cbv zeta. unfold history_query, select_completed_dates.
  rewrite (owned_filter_single id userId d h PK Hin Ho).
  cbn [flat_map]. rewrite app_nil_r. unfold left_join.
  rewrite (owned_by_id id userId h Ho).
  destruct (filter (fun c => c_habit_id c =? id) (completions d))
    as [|c cs] eqn:E.
  - reflexivity.
  - rewrite <- (map_map c_completed_date (fun x => (h, Some x))).
    rewrite (sort_by_map (fun x => (h, Some x)) desc history_order)
      by reflexivity.
    rewrite map_map. cbn [fst snd option_map].
    rewrite (filter_present_map_Some (JsDate.Date_of_pg tz)
               (fun _ => h_name h)).
    pose proof (sort_by_length desc (map c_completed_date (c :: cs))) as Hlen.
    destruct (sort_by desc (map c_completed_date (c :: cs))) as [|x l];
      [discriminate Hlen|reflexivity].
Qed.

Lemma history_of_own_habit_witness :
  get_api_history Sample.utc_plus_3 1 (Some 1)
    (Sample.store [(1, Sample.jan15 - 1); (2, Sample.jan15); (1, Sample.jan15)])
  = Json {| history_name := "Drink water";
            history_completions :=
              [ Sample.jan15 * JsDate.msPerDay - Sample.utc_plus_3;
                (Sample.jan15 - 1) * JsDate.msPerDay - Sample.utc_plus_3 ] |}.
Proof.
  rewrite (history_of_own_habit Sample.utc_plus_3 1 1 _
             {| h_id := 1; h_user_id := Some 1; h_name := "Drink water";
                h_created_at := 1704067200000;
                h_reminder_time := Some 28800 |}).
  - reflexivity.
  - unfold habits_pk. cbn. repeat constructor; cbn; intuition lia.
  - left. reflexivity.
  - reflexivity.
Defined.

(** Once [:id] is read, the handler answers 404 exactly when the user
    has no habit with that id. *)
Lemma get_api_history_404 tz id userId d :
  get_api_history tz id (Some userId) d = Status 404 "Habit not found"
  <-> (forall h, In h (habits d) -> owned_by id userId h = false).
Proof.
  unfold get_api_history, ensureAuthenticated_read. cbv zeta.
  unfold history_query. split.
  - intros H h Hin. destruct (owned_by id userId h) eqn:Ho; [|reflexivity].
    exfalso.
    assert (In h (filter (owned_by id userId) (habits d))) as Hf
      by (apply filter_In; auto).
    destruct (left_join_nonempty d h) as (c & Hc).
    assert (In (h, c) (flat_map (left_join d)
                         (filter (owned_by id userId) (habits d)))) as Hj
      by (apply in_flat_map; eauto).
    apply (sort_by_In history_order) in Hj.
    destruct (sort_by history_order _) as [|r rs]; [destruct Hj|].
    discriminate H.
  - intros H.
    assert (filter (owned_by id userId) (habits d) = []) as ->
      by (apply filter_nil_iff; exact H).
    reflexivity.
Qed.

(** X13. The history route answers 404 exactly when [:id] is an int4,
    which the store reads, and the store has no habit with that id that
    belongs to the user: an absent habit and somebody else's habit are
    not told apart, and a habit of the user is never answered 404,
    whatever its completions.  For an [:id] outside int4 the query
    fails and the route answers 500. *)
Theorem history_404_iff_not_own_habit tz id userId d :
  (history_route tz id (Some userId) d = Status 404 "Habit not found"
   <-> int4 id = true
       /\ forall h, In h (habits d) -> owned_by id userId h = false)
  /\ (int4 id = false -> history_route tz id (Some userId) d = Failed 500).
Proof.
  unfold history_route, ensureAuthenticated_read.
  destruct (int4 id).
  - split; [|discriminate]. rewrite get_api_history_404. tauto.
  - split; [|reflexivity]. split; [discriminate|]. intros [E _].
    discriminate E.
Qed.

(** The two failures of the route, and an answer: an id of somebody
    else's habit, an id beyond int4, and the user's own habit. *)
Example history_route_answers :
  let d := Sample.store [(1, Sample.jan15)] in
  history_route Sample.utc 2 (Some 1) d = Status 404 "Habit not found"
  /\ history_route Sample.utc 2147483648 (Some 1) d = Failed 500
  /\ history_route Sample.utc 1 (Some 1) d
     = Json {| history_name := "Drink water";
               history_completions := [Sample.jan15 * JsDate.msPerDay] |}.
Proof. cbv zeta. repeat split. Qed.

(* ================================================================== *)
(** * Further properties: the reminders *)
(* ================================================================== *)

(** What the join and the [WHERE] clause keep of one habit. *)
Lemma filter_due_left_join_on today userId t d h :
  filter (reminder_due userId t) (left_join_on today d h)
  = if pending_reminder today userId t d h then [(h, None)] else [].
Proof.
  unfold left_join_on, pending_reminder, done_on.
  assert (Hsame : forall c, ((h_id h =? c_habit_id c)
                             && (c_completed_date c =? today))
                            = completion_on (h_id h) today c).
  { intros c. unfold completion_on. now rewrite Z.eqb_sym. }
  rewrite (filter_ext _ _ Hsame).
  destruct (filter (completion_on (h_id h) today) (completions d))
    as [|c cs] eqn:E.
  - assert (existsb (completion_on (h_id h) today) (completions d) = false)
      as ->.
    { destruct (existsb _ _) eqn:Ex; [|reflexivity].
      apply existsb_exists in Ex. destruct Ex as (c & Hc & Hon).
      assert (In c (filter (completion_on (h_id h) today) (completions d)))
        as Hin by (apply filter_In; auto).
      rewrite E in Hin. destruct Hin. }
    cbn [filter]. unfold reminder_due. cbn [fst snd negb].
    destruct (h_user_id h) as [u|]; [|reflexivity].
    destruct (u =? userId); [|reflexivity].
    destruct (h_reminder_time h) as [r|]; [|reflexivity].
    cbn [andb]. now destruct (r <=? t).
  - assert (existsb (completion_on (h_id h) today) (completions d) = true)
      as ->.
    { apply existsb_exists. exists c.
      assert (In c (filter (completion_on (h_id h) today) (completions d)))
        as Hin by (rewrite E; now left).
      apply filter_In in Hin. tauto. }
    cbn [negb]. rewrite !andb_false_r.
    generalize (c :: cs). intros l. induction l as [|x l IH]; [reflexivity|].
    cbn [map filter]. unfold reminder_due at 1. cbn [snd].
    rewrite andb_false_r. exact IH.
Qed.

Lemma filter_flat_map {A B} (p : B -> bool) (f : A -> list B) l :
  filter p (flat_map f l) = flat_map (fun x => filter p (f x)) l.
Proof.
  induction l as [|x l IH]; [reflexivity|].
  cbn [flat_map]. now rewrite filter_app, IH.
Qed.

Lemma reminders_query_pending today userId t d :
  reminders_query today userId t d
  = map (fun h => {| rem_id := h_id h; rem_name := h_name h;
                     rem_reminder_time := h_reminder_time h |})
      (filter (pending_reminder today userId t d) (habits d)).
Proof.
  unfold reminders_query. rewrite filter_flat_map.
  induction (habits d) as [|h l IH]; [reflexivity|].
  cbn [flat_map filter]. rewrite map_app, IH, filter_due_left_join_on.
  now destruct (pending_reminder today userId t d h).
Qed.

(** X14. When the store can read the current time [HH:MM] as a time of
    day [t], the reminders route answers, in some order (the query has
    no ORDER BY), exactly the habits of the user whose reminder time is
    set and not after [t] and which have no completion dated today,
    each of them once. *)
Theorem reminders_are_the_pending_habits tz time_in now later userId d t :
  time_in (currentTime tz now) = Some t ->
  exists rows,
    get_api_reminders tz time_in now later (Some userId) d = Json rows
    /\ Permutation rows
         (map (fun h => {| rem_id := h_id h; rem_name := h_name h;
                           rem_reminder_time := h_reminder_time h |})
            (filter (pending_reminder (JsDate.getLocalDate tz later) userId t d)
               (habits d))).
Proof.
  intros Ht. unfold get_api_reminders, ensureAuthenticated_read. cbv zeta.
  rewrite Ht. eexists. split; [reflexivity|].
  now rewrite reminders_query_pending.
Qed.


(** User 1 at 17:00 UTC of 2024-01-15, on a server at UTC+03:00 (20:00
    there): "Run", due at 18:00, is pending; "Drink water", due at 08:00,
    was done today; "Read" is somebody else's. *)
Lemma reminders_are_the_pending_habits_witness :
  exists rows,
    get_api_reminders Sample.utc_plus_3 Sample.time_of_day Sample.now
      (Sample.now + 1) (Some 1)
      (Sample.store3 [(1, Sample.jan15); (3, Sample.jan15 - 1)])
    = Json rows
    /\ Permutation rows
         [ {| rem_id := 3; rem_name := "Run";
              rem_reminder_time := Some 64800 |} ].
Proof.
  exact (reminders_are_the_pending_habits Sample.utc_plus_3
           Sample.time_of_day Sample.now (Sample.now + 1) 1
           (Sample.store3 [(1, Sample.jan15); (3, Sample.jan15 - 1)])
           72000 eq_refl).
Defined.

(** X15. Once a check-in of habit [id] has succeeded, the reminders of
    that local day no longer list the habit, whoever asks and whatever
    its reminder time. *)
Theorem checkin_silences_reminder tz time_in now now' later id userId user d
    rows :
  fst (post_checkin tz now id userId d) = Redirect "/" ->
  JsDate.getLocalDate tz later = JsDate.getLocalDate tz now ->
  get_api_reminders tz time_in now' later user
    (snd (post_checkin tz now id userId d))
  = Json rows ->
  ~ In id (map rem_id rows).
Proof.
  intros Hok Hday Hrows Hin.
  unfold get_api_reminders, ensureAuthenticated_read in Hrows.
  destruct user as [u|]; [|discriminate Hrows]. cbv zeta in Hrows.
  destruct (time_in (currentTime tz now')) as [t|]; [|discriminate Hrows].
  injection Hrows as <-. rewrite reminders_query_pending in Hin.
  rewrite map_map in Hin. cbn [rem_id] in Hin.
  apply in_map_iff in Hin. destruct Hin as (h & Hid & Hh).
  apply filter_In in Hh. destruct Hh as [_ Hp].
  unfold pending_reminder in Hp. apply andb_prop in Hp. destruct Hp as [_ Hp].
  apply negb_true_iff in Hp. rewrite Hid, Hday in Hp.
  unfold post_checkin in Hp, Hok. cbv zeta in Hp, Hok.
  destruct (Z.of_nat _ =? 0); [discriminate Hok|]. cbn [snd] in Hp.
  rewrite done_on_insert_completion, !Z.eqb_refl, orb_true_r in Hp.
  discriminate Hp.
Qed.

(** "Drink water" is due at 08:00; user 1 checks it in at 17:00 and asks
    for the reminders at the same instant. *)
Lemma checkin_silences_reminder_witness :
  ~ In 1 (map rem_id [ {| rem_id := 3; rem_name := "Run";
                          rem_reminder_time := Some 64800 |} ]).
Proof.
  apply (checkin_silences_reminder Sample.utc_plus_3 Sample.time_of_day
           Sample.now (Sample.now + 60000) (Sample.now + 60001) 1 1 (Some 1)
           (Sample.store3 [])).
  - reflexivity.
  - reflexivity.
  - reflexivity.
Defined.

Lemma pad2_two_digits n :
  0 <= n < 60 -> padStart 2 "0" (Number_toString n) = two_digits n.
Proof.
  intros Hn.
  assert (forallb (fun k => String.eqb
                              (padStart 2 "0" (Number_toString (Z.of_nat k)))
                              (two_digits (Z.of_nat k)))
                  (seq 0 60) = true) as Hall by (vm_compute; reflexivity).
  rewrite forallb_forall in Hall.
  specialize (Hall (Z.to_nat n)). rewrite Z2Nat.id in Hall by lia.
  apply String.eqb_eq, Hall, in_seq. lia.
Qed.

(** X16. Whatever the instant and the zone, the text the reminders route
    sends as the current time has the shape [HH:MM]: two decimal digits
    of the local hour, from 00 to 23, a colon, and two decimal digits of
    the minute, from 00 to 59. *)
Theorem currentTime_is_HH_MM tz now :
  0 <= getHours tz now < 24
  /\ 0 <= getMinutes tz now < 60
  /\ currentTime tz now
     = (two_digits (getHours tz now) ++ ":"
        ++ two_digits (getMinutes tz now))%string.
Proof.
  assert (0 <= getHours tz now < 24) as Hh
    by (unfold getHours; apply Z.mod_pos_bound; lia).
  assert (0 <= getMinutes tz now < 60) as Hm
    by (unfold getMinutes; apply Z.mod_pos_bound; lia).
  split; [exact Hh|]. split; [exact Hm|].
  unfold currentTime. rewrite !pad2_two_digits by lia. reflexivity.
Qed.

(* ================================================================== *)
(** * Further properties: login and session *)
(* ================================================================== *)

(** X17. Login is find-or-create: logging in again with the same profile
    gives the same answer as the first login, the same user row when
    there was one, and changes nothing more in the table. *)
Theorem login_again_finds_the_same_user now now' p t :
  verify now' p (snd (verify now p t))
  = (fst (verify now p t), snd (verify now p t)).
Proof.
  unfold verify.
  destruct (filter (fun u => String.eqb (u_google_id u) (profile_id p))
                   (users t)) as [|u us] eqn:E.
  - destruct (profile_emails p) as [[|email emails]|];
      try (cbn [fst snd]; rewrite E; reflexivity).
    destruct (profile_photos p) as [photos|];
      [|cbn [fst snd]; rewrite E; reflexivity].
    cbn [fst snd users]. rewrite filter_app, E. cbn [filter u_google_id app].
    now rewrite String.eqb_refl.
  - cbn [fst snd]. now rewrite E.
Qed.

Lemma verify_users_ok now p t : users_ok t -> users_ok (snd (verify now p t)).
Proof.
  intros (Hid & Hg & Hlt). unfold verify.
  destruct (filter (fun u => String.eqb (u_google_id u) (profile_id p))
                   (users t)) as [|u us] eqn:E; [|now repeat split].
  destruct (profile_emails p) as [[|email emails]|]; try now repeat split.
  destruct (profile_photos p) as [photos|]; [|now repeat split].
  cbn [snd]. unfold users_ok. cbn [users users_id_seq].
  rewrite !map_app. cbn [map u_id u_google_id].
  split; [|split].
  - apply NoDup_snoc; [exact Hid|]. intros Hin. apply in_map_iff in Hin.
    destruct Hin as (u & Hu & Hin). rewrite Forall_forall in Hlt.
    specialize (Hlt u Hin). lia.
  - apply NoDup_snoc; [exact Hg|]. intros Hin. apply in_map_iff in Hin.
    destruct Hin as (u & Hu & Hin).
    assert (In u (filter (fun u => String.eqb (u_google_id u) (profile_id p))
                         (users t))) as Hf.
    { apply filter_In. split; [exact Hin|]. now apply String.eqb_eq. }
    rewrite E in Hf. destruct Hf.
  - apply Forall_app. split.
    + eapply Forall_impl; [|exact Hlt]. cbn. intros; lia.
    + constructor; [cbn; lia|constructor].
Qed.

Lemma users_reachable_ok t : users_reachable t -> users_ok t.
Proof.
  induction 1 as [|now p t _ IH].
  - repeat split; cbn; constructor.
  - now apply verify_users_ok.
Qed.

Lemma users_reachable_logins ps t :
  users_reachable t -> users_reachable (logins ps t).
Proof.
  revert t. induction ps as [|np ps IH]; intros t Ht; [exact Ht|].
  cbn. apply IH. now constructor.
Qed.

(** A login never removes or changes a row. *)
Lemma verify_keeps_users now p t u :
  In u (users t) -> In u (users (snd (verify now p t))).
Proof.
  intros Hin. unfold verify.
  destruct (filter _ (users t)); [|exact Hin].
  destruct (profile_emails p) as [[|email emails]|]; try exact Hin.
  destruct (profile_photos p); [|exact Hin].
  cbn [snd users]. apply in_or_app. now left.
Qed.

Lemma logins_keep_users ps t u :
  In u (users t) -> In u (users (logins ps t)).
Proof.
  revert t. induction ps as [|np ps IH]; intros t Hin; [exact Hin|].
  cbn. apply IH. now apply verify_keeps_users.
Qed.

(** The user a login answers is a row of the table it leaves, with the
    Google id of the profile. *)
Lemma verify_user_row now p t u :
  fst (verify now p t) = Done_user u ->
  In u (users (snd (verify now p t))) /\ u_google_id u = profile_id p.
Proof.
  unfold verify.
  destruct (filter (fun u => String.eqb (u_google_id u) (profile_id p))
                   (users t)) as [|u0 us] eqn:E.
  - destruct (profile_emails p) as [[|email emails]|]; try discriminate.
    destruct (profile_photos p); [|discriminate].
    cbn [fst snd users]. intros [= <-]. split; [|reflexivity].
    apply in_or_app. right. now left.
  - cbn [fst snd]. intros [= <-].
    assert (In u0 (filter (fun u => String.eqb (u_google_id u) (profile_id p))
                          (users t))) as Hin by (rewrite E; now left).
    apply filter_In in Hin. destruct Hin as [Hin Hg].
    split; [exact Hin|]. now apply String.eqb_eq.
Qed.

Lemma deserializeUser_row t u :
  users_ok t -> In u (users t) -> deserializeUser (serializeUser u) t = Some u.
Proof.
  intros (Hid & _) Hin. unfold deserializeUser, serializeUser.
  rewrite (filter_single u_id (fun x => u_id x =? u_id u) (users t) u);
    auto using Z.eqb_refl.
  intros x _ Hx. now apply Z.eqb_eq.
Qed.

(** X18. Whatever logins were served since the table was created, no
    two users share an id or a Google id. *)
Theorem served_users_are_distinct t :
  users_reachable t ->
  NoDup (map u_id (users t)) /\ NoDup (map u_google_id (users t)).
Proof.
  intros H. destruct (users_reachable_ok t H) as (H1 & H2 & _). now split.
Qed.

Lemma served_users_are_distinct_witness :
  let t := logins [(1, Sample.ada); (2, Sample.bob); (3, Sample.ada);
                   (4, Sample.eve)] no_users in
  NoDup (map u_id (users t)) /\ NoDup (map u_google_id (users t)).
Proof.
  cbv zeta. apply served_users_are_distinct.
  apply users_reachable_logins. constructor.
Defined.

(** X19. A session stays valid: the id kept in the session of a user
    who logged in reads back as that same user row, whatever logins
    happen afterwards. *)
Theorem session_reads_back_the_user now p t u ps :
  users_reachable t ->
  fst (verify now p t) = Done_user u ->
  deserializeUser (serializeUser u) (logins ps (snd (verify now p t)))
  = Some u.
Proof.
  intros Ht Hu. apply deserializeUser_row.
  - apply users_reachable_ok, users_reachable_logins. now constructor.
  - apply logins_keep_users. now apply verify_user_row in Hu.
Qed.

Lemma session_reads_back_the_user_witness :
  deserializeUser 1
    (logins [(2, Sample.bob); (3, Sample.ada)]
       (snd (verify 1 Sample.ada no_users)))
  = Some {| u_id := 1; u_google_id := "g-100";
            u_email := "ada@example.org"; u_name := Some "Ada";
            u_picture := Some "https://example.org/ada.png";
            u_created_at := 1 |}.
Proof.
  apply (session_reads_back_the_user 1 Sample.ada no_users
           {| u_id := 1; u_google_id := "g-100";
              u_email := "ada@example.org"; u_name := Some "Ada";
              u_picture := Some "https://example.org/ada.png";
              u_created_at := 1 |}
           [(2, Sample.bob); (3, Sample.ada)]).
  - constructor.
  - reflexivity.
Defined.

(** X20. Two logins are answered users with the same id exactly when
    the two profiles have the same Google id: an account always comes
    back to its own user, and two accounts never share one. *)
Theorem same_user_iff_same_account now1 p1 now2 p2 t ps u1 u2 :
  users_reachable t ->
  fst (verify now1 p1 t) = Done_user u1 ->
  fst (verify now2 p2 (logins ps (snd (verify now1 p1 t)))) = Done_user u2 ->
  (u_id u1 = u_id u2 <-> profile_id p1 = profile_id p2).
Proof.
  intros Ht H1 H2.
  set (t2 := logins ps (snd (verify now1 p1 t))) in *.
  assert (users_reachable t2) as Hr2
    by (apply users_reachable_logins; now constructor).
  assert (users_ok (snd (verify now2 p2 t2))) as (Hid & Hg & _)
    by (apply users_reachable_ok; now constructor).
  apply verify_user_row in H1, H2. destruct H1 as [In1 G1], H2 as [In2 G2].
  assert (In u1 (users (snd (verify now2 p2 t2)))) as In1'
    by (apply verify_keeps_users; unfold t2; now apply logins_keep_users).
  rewrite <- G1, <- G2. split; intros E.
  - f_equal. now apply (NoDup_map_eq u_id (users (snd (verify now2 p2 t2)))).
  - f_equal.
    now apply (NoDup_map_eq u_google_id (users (snd (verify now2 p2 t2)))).
Qed.

Lemma same_user_iff_same_account_witness :
  1 = 2 <-> "g-100" = "g-200".
Proof.
  apply (same_user_iff_same_account 1 Sample.ada 5 Sample.bob no_users
           [(2, Sample.bob); (3, Sample.eve)]
           {| u_id := 1; u_google_id := "g-100";
              u_email := "ada@example.org"; u_name := Some "Ada";
              u_picture := Some "https://example.org/ada.png";
              u_created_at := 1 |}
           {| u_id := 2; u_google_id := "g-200";
              u_email := "bob@example.org"; u_name := Some "Bob";
              u_picture := None; u_created_at := 2 |}).
  - constructor.
  - reflexivity.
  - reflexivity.
Defined.

(** X21. A first login needs a first email and a [photos] array: without
    either, the callback fails and no user is created; with an empty
    [photos] array the user is created with no picture. *)
Theorem first_login_needs_email_and_photos now p t :
  (forall u, In u (users t) -> u_google_id u <> profile_id p) ->
  match profile_emails p, profile_photos p with
  | Some (email :: _), Some photos =>
      exists u,
        verify now p t
        = (Done_user u, {| users := users t ++ [u];
                           users_id_seq := users_id_seq t + 1 |})
        /\ u_id u = users_id_seq t /\ u_google_id u = profile_id p
        /\ u_email u = email /\ u_name u = profile_displayName p
        /\ u_picture u = hd_error photos
  | _, _ => verify now p t = (Done_error, t)
  end.
Proof.
  intros Hnew. unfold verify.
  assert (filter (fun u => String.eqb (u_google_id u) (profile_id p))
                 (users t) = []) as ->.
  { apply filter_nil_iff. intros u Hu. apply String.eqb_neq. now apply Hnew. }
  destruct (profile_emails p) as [[|email emails]|]; try reflexivity.
  destruct (profile_photos p) as [photos|]; [|reflexivity].
  eexists. split; [reflexivity|]. cbn. tauto.
Qed.

Lemma first_login_needs_email_and_photos_witness :
  verify 4 Sample.eve (logins [(1, Sample.ada); (2, Sample.bob)] no_users)
  = (Done_error, logins [(1, Sample.ada); (2, Sample.bob)] no_users).
Proof.
  apply (first_login_needs_email_and_photos 4 Sample.eve
           (logins [(1, Sample.ada); (2, Sample.bob)] no_users)).
  intros u [<-|[<-|[]]]; discriminate.
Defined.

(* ================================================================== *)
(** * Further properties: the calendar of a month *)
(* ================================================================== *)

Lemma names_on_snoc k seen row :
  names_on k (seen ++ [row])
  = names_on k seen ++ (if fst row =? k then [snd row] else []).
Proof.
  unfold names_on. rewrite filter_app, map_app. cbn.
  now destruct (fst row =? k).
Qed.

Lemma names_on_absent k rows :
  ~ In k (map fst rows) -> names_on k rows = [].
Proof.
  intros H. unfold names_on.
  assert (filter (fun r => fst r =? k) rows = []) as ->; [|reflexivity].
  apply filter_nil_iff. intros r Hr. apply Z.eqb_neq. intros E. apply H.
  rewrite <- E. now apply in_map.
Qed.

Lemma names_on_present k rows :
  In k (map fst rows) <-> names_on k rows <> [].
Proof.
  split.
  - intros H E. apply in_map_iff in H. destruct H as (r & Hk & Hr).
    assert (In (snd r) (names_on k rows)) as Hin.
    { unfold names_on. apply in_map, filter_In. split; [exact Hr|].
      now apply Z.eqb_eq. }
    rewrite E in Hin. destruct Hin.
  - intros H. destruct (in_dec Z.eq_dec k (map fst rows)) as [Hin|Hn];
      [exact Hin|]. now apply names_on_absent in Hn.
Qed.

Lemma calendar_add_keys m row :
  map fst (calendar_add m row)
  = if Map_has (fst row) m then map fst m else map fst m ++ [fst row].
Proof.
  unfold calendar_add. cbv zeta. rewrite Map_update_keys.
  destruct (Map_has (fst row) m); cbn [negb]; [reflexivity|].
  now rewrite map_app.
Qed.

(** One turn of the loop keeps the keys distinct, adds the date of the
    row to them, and appends the name to the names of that date. *)
Lemma calendar_add_grouped seen m row :
  NoDup (map fst m) ->
  (forall k, In k (map fst m) <-> In k (map fst seen)) ->
  (forall k v, In (k, v) m -> v = names_on k seen) ->
  NoDup (map fst (calendar_add m row))
  /\ (forall k, In k (map fst (calendar_add m row))
                <-> In k (map fst (seen ++ [row])))
  /\ (forall k v, In (k, v) (calendar_add m row)
                  -> v = names_on k (seen ++ [row])).
Proof.
  intros ND Hk Hv.
  assert (Hkeys : forall k, In k (map fst (calendar_add m row))
                            <-> In k (map fst (seen ++ [row]))).
  { intros k. rewrite calendar_add_keys, map_app, in_app_iff. cbn [map In].
    destruct (Map_has (fst row) m) eqn:E.
    - apply Map_has_In in E. rewrite Hk. split; [tauto|].
      intros [H|[<-|[]]]; [exact H|]. now apply Hk.
    - rewrite in_app_iff, Hk. cbn [In]. tauto. }
  assert (ND' : NoDup (map fst (calendar_add m row))).
  { rewrite calendar_add_keys. destruct (Map_has (fst row) m) eqn:E;
      [exact ND|]. apply NoDup_snoc; [exact ND|].
    intros H. apply Map_has_In in H. congruence. }
  split; [exact ND'|]. split; [exact Hkeys|].
  intros k v Hin. unfold calendar_add in Hin. cbv zeta in Hin.
  set (m' := if negb (Map_has (fst row) m)
             then m ++ [(fst row, [])] else m) in *.
  assert (NDm' : NoDup (map fst m')).
  { unfold m'. destruct (Map_has (fst row) m) eqn:E; cbn [negb]; [exact ND|].
    rewrite map_app. cbn [map fst]. apply NoDup_snoc; [exact ND|].
    intros H. apply Map_has_In in H. congruence. }
  assert (Hv' : forall k v, In (k, v) m' -> v = names_on k seen).
  { intros k0 v0 H0. unfold m' in H0.
    destruct (Map_has (fst row) m) eqn:E; cbn [negb] in H0; [now apply Hv|].
    apply in_app_iff in H0. destruct H0 as [H0|[H0|[]]]; [now apply Hv|].
    inversion H0; subst. symmetry. apply names_on_absent.
    intros H. apply Hk, Map_has_In in H. congruence. }
  rewrite names_on_snoc.
  destruct (In_Map_update_NoDup _ _ _ _ _ NDm' Hin)
    as [[Hne Hm]|(-> & v0 & Hm & ->)].
  - destruct (Z.eqb_spec (fst row) k); [congruence|].
    rewrite app_nil_r. now apply Hv'.
  - rewrite Z.eqb_refl. f_equal. now apply Hv'.
Qed.

Lemma calendar_fold_grouped rows : forall seen m,
  NoDup (map fst m) ->
  (forall k, In k (map fst m) <-> In k (map fst seen)) ->
  (forall k v, In (k, v) m -> v = names_on k seen) ->
  NoDup (map fst (fold_left calendar_add rows m))
  /\ (forall k, In k (map fst (fold_left calendar_add rows m))
                <-> In k (map fst (seen ++ rows)))
  /\ (forall k v, In (k, v) (fold_left calendar_add rows m)
                  -> v = names_on k (seen ++ rows)).
Proof.
  induction rows as [|row rows IH]; intros seen m ND Hk Hv.
  - rewrite app_nil_r. cbn [fold_left].
    split; [exact ND|]. split; [exact Hk|exact Hv].
  - cbn [fold_left].
    destruct (calendar_add_grouped seen m row ND Hk Hv) as (ND' & Hk' & Hv').
    replace (seen ++ row :: rows) with ((seen ++ [row]) ++ rows)
      by (now rewrite <- app_assoc).
    now apply IH.
Qed.

Lemma calendar_group_grouped rows :
  NoDup (map fst (calendar_group rows))
  /\ (forall k, In k (map fst (calendar_group rows)) <-> In k (map fst rows))
  /\ (forall k v, In (k, v) (calendar_group rows) -> v = names_on k rows).
Proof.
  apply (calendar_fold_grouped rows [] []).
  - constructor.
  - intros k. tauto.
  - intros k v [].
Qed.

Lemma StronglySorted_snoc {A} (R : A -> A -> Prop) l a :
  StronglySorted R l -> Forall (fun x => R x a) l ->
  StronglySorted R (l ++ [a]).
Proof.
  induction 1 as [|x l Hs IH Hx]; intros Ha; cbn.
  - repeat constructor.
  - inversion Ha; subst. constructor; [now apply IH|].
    apply Forall_app. split; [exact Hx|]. now constructor.
Qed.

(** Rows in ascending order of date give the keys in strictly ascending
    order. *)
Lemma calendar_fold_keys_sorted rows : forall m,
  StronglySorted Z.lt (map fst m) ->
  StronglySorted (fun a b : Z * string => fst a <= fst b) rows ->
  (forall k r, In k (map fst m) -> In r rows -> k <= fst r) ->
  StronglySorted Z.lt (map fst (fold_left calendar_add rows m)).
Proof.
  induction rows as [|row rows IH]; intros m Hm Hrows Hle; [exact Hm|].
  cbn [fold_left]. inversion Hrows as [|? ? Hrest Hrow]; subst.
  rewrite Forall_forall in Hrow. apply IH; [|exact Hrest|].
  - rewrite calendar_add_keys. destruct (Map_has (fst row) m) eqn:E;
      [exact Hm|]. apply StronglySorted_snoc; [exact Hm|].
    apply Forall_forall. intros k Hk.
    assert (k <= fst row) by (apply Hle; [exact Hk|now left]).
    assert (k <> fst row); [|lia]. intros ->.
    apply Map_has_In in Hk. congruence.
  - intros k r Hk Hr. rewrite calendar_add_keys in Hk.
    assert (In k (map fst m) \/ k = fst row) as [Hk' | ->].
    { destruct (Map_has (fst row) m); [now left|].
      apply in_app_iff in Hk. destruct Hk as [Hk|[<-|[]]]; tauto. }
    + apply Hle; [exact Hk'|now right].
    + now apply Hrow.
Qed.

Lemma insert_sorted_by_key {A} (key : A -> Z) le x l :
  (forall a b, le a b = true -> key a <= key b) ->
  (forall a b, le a b = false -> key b <= key a) ->
  StronglySorted (fun a b => key a <= key b) l ->
  StronglySorted (fun a b => key a <= key b) (insert_sorted le x l).
Proof.
  intros Ht Hf. induction 1 as [|y l Hs IH Hy]; cbn.
  - repeat constructor.
  - destruct (le x y) eqn:E.
    + constructor; [now constructor|]. constructor; [now apply Ht|].
      rewrite Forall_forall in *. intros z Hz.
      specialize (Hy z Hz). specialize (Ht x y E). lia.
    + constructor; [exact IH|]. rewrite Forall_forall in *.
      intros z Hz. apply insert_sorted_In in Hz.
      destruct Hz as [->|Hz]; [now apply Hf|now apply Hy].
Qed.

Lemma sort_by_by_key {A} (key : A -> Z) le (l : list A) :
  (forall a b, le a b = true -> key a <= key b) ->
  (forall a b, le a b = false -> key b <= key a) ->
  StronglySorted (fun a b => key a <= key b) (sort_by le l).
Proof.
  intros Ht Hf. induction l as [|x l IH]; cbn; [constructor|].
  now apply insert_sorted_by_key.
Qed.

Lemma flat_map_app_Permutation {A B} (f g : A -> list B) l :
  Permutation (flat_map (fun x => f x ++ g x) l)
    (flat_map f l ++ flat_map g l).
Proof.
  induction l as [|x l IH]; cbn; [constructor|].
  rewrite <- !app_assoc. apply Permutation_app_head.
  rewrite IH. rewrite !app_assoc. apply Permutation_app_tail.
  apply Permutation_app_comm.
Qed.

Lemma flat_map_swap {A B C} (g : A -> B -> list C) la lb :
  Permutation (flat_map (fun a => flat_map (fun b => g a b) lb) la)
    (flat_map (fun b => flat_map (fun a => g a b) la) lb).
Proof.
  induction la as [|a la IH]; cbn.
  - induction lb as [|b lb IHb]; cbn; [constructor|exact IHb].
  - rewrite IH. symmetry.
    apply (flat_map_app_Permutation (fun b => g a b)
             (fun b => flat_map (fun a => g a b) la)).
Qed.

Lemma flat_map_if {A B} (p : A -> bool) (f : A -> B) l :
  flat_map (fun x => if p x then [f x] else []) l = map f (filter p l).
Proof.
  induction l as [|x l IH]; cbn; [reflexivity|].
  rewrite IH. now destruct (p x).
Qed.

Section CalendarFacts.
Variable collate : string -> string -> bool.

(** The names of day [k] among the joined rows, habit by habit. *)
Lemma names_on_joined s e userId d k :
  names_on k
    (map (fun ch : completion_row * habit_row =>
            (c_completed_date (fst ch), h_name (snd ch)))
       (filter (fun ch : completion_row * habit_row =>
                  (s <=? c_completed_date (fst ch))
                  && (c_completed_date (fst ch) <=? e)
                  && match h_user_id (snd ch) with
                     | Some u => u =? userId
                     | None => false
                     end)
          (flat_map (fun c =>
                       map (fun h => (c, h))
                         (filter (fun h => c_habit_id c =? h_id h) (habits d)))
             (completions d))))
  = flat_map (fun c =>
      flat_map (fun h =>
         if completion_on (h_id h) k c
            && ((s <=? k) && (k <=? e)
                && match h_user_id h with
                   | Some u => u =? userId
                   | None => false
                   end)
         then [h_name h] else [])
        (habits d))
      (completions d).
Proof.
  unfold names_on.
  induction (completions d) as [|c cs IH]; [reflexivity|].
  cbn [flat_map]. rewrite filter_app, map_app, filter_app, map_app, IH.
  f_equal. clear IH.
  induction (habits d) as [|h hs IHh]; [reflexivity|].
  cbn [filter flat_map]. rewrite <- IHh. clear IHh.
  unfold completion_on.
  destruct (Z.eqb_spec (c_habit_id c) (h_id h)) as [Ej|Ej];
    [|reflexivity].
  cbn [map filter fst snd andb].
  destruct (Z.eqb_spec (c_completed_date c) k) as [Ek|Ek].
  - subst k.
    destruct ((s <=? c_completed_date c) && (c_completed_date c <=? e)
              && match h_user_id h with
                 | Some u => u =? userId
                 | None => false
                 end); cbn [map filter fst snd andb].
    + rewrite Z.eqb_refl. reflexivity.
    + reflexivity.
  - cbn [andb app].
    destruct ((s <=? c_completed_date c) && (c_completed_date c <=? e)
              && match h_user_id h with
                 | Some u => u =? userId
                 | None => false
                 end); cbn [map filter fst snd]; [|reflexivity].
    destruct (Z.eqb_spec (c_completed_date c) k); [contradiction|].
    reflexivity.
Qed.

(** At most one completion of a habit on a day. *)
Lemma names_of_habit_on s e userId d k h :
  completions_unique d ->
  flat_map (fun c =>
     if completion_on (h_id h) k c
        && ((s <=? k) && (k <=? e)
            && match h_user_id h with
               | Some u => u =? userId
               | None => false
               end)
     then [h_name h] else [])
    (completions d)
  = if (s <=? k) && (k <=? e)
       && match h_user_id h with Some u => u =? userId | None => false end
       && done_on d (h_id h) k
    then [h_name h] else [].
Proof.
  intros U.
  rewrite (flat_map_if
             (fun c => completion_on (h_id h) k c
                       && ((s <=? k) && (k <=? e)
                           && match h_user_id h with
                              | Some u => u =? userId
                              | None => false
                              end))
             (fun _ => h_name h)).
  destruct ((s <=? k) && (k <=? e)
            && match h_user_id h with
               | Some u => u =? userId
               | None => false
               end).
  - rewrite (filter_ext _ (completion_on (h_id h) k))
      by (intros c; apply andb_true_r).
    cbn [andb]. unfold done_on.
    pose proof (unique_pair_at_most_one (h_id h) k _ U) as Hle.
    destruct (existsb (completion_on (h_id h) k) (completions d)) eqn:Ex.
    + apply existsb_filter_nonempty in Ex.
      destruct (filter (completion_on (h_id h) k) (completions d))
        as [|c [|c' l]]; cbn in *; [lia|reflexivity|lia].
    + now rewrite (existsb_false_filter _ _ Ex).
  - rewrite (filter_ext _ (fun _ => false))
      by (intros c; apply andb_false_r).
    cbn [andb].
    assert (filter (fun _ : completion_row => false) (completions d) = [])
      as -> by (apply filter_nil_iff; reflexivity).
    reflexivity.
Qed.

Lemma filter_habits_of_done userId d k :
  filter (fun h => match h_user_id h with
                   | Some u => u =? userId
                   | None => false
                   end && done_on d (h_id h) k)
         (habits d)
  = filter (fun h => done_on d (h_id h) k) (habits_of userId d).
Proof.
  unfold habits_of. induction (habits d) as [|h hs IH]; [reflexivity|].
  cbn [filter].
  destruct (match h_user_id h with Some u => u =? userId | None => false end);
    cbn [andb filter]; rewrite IH; reflexivity.
Qed.

(** The names the query returns for day [k]: those of the habits of the
    user that were done that day, when the day is in the window. *)
Lemma names_on_calendar_query s e userId d k :
  completions_unique d ->
  Permutation (names_on k (calendar_query collate s e userId d))
    (if (s <=? k) && (k <=? e)
     then map h_name (filter (fun h => done_on d (h_id h) k)
                        (habits_of userId d))
     else []).
Proof.
  intros U. unfold calendar_query.
  transitivity
    (names_on k
       (map (fun ch : completion_row * habit_row =>
               (c_completed_date (fst ch), h_name (snd ch)))
          (filter (fun ch : completion_row * habit_row =>
                     (s <=? c_completed_date (fst ch))
                     && (c_completed_date (fst ch) <=? e)
                     && match h_user_id (snd ch) with
                        | Some u => u =? userId
                        | None => false
                        end)
             (flat_map (fun c =>
                          map (fun h => (c, h))
                            (filter (fun h => c_habit_id c =? h_id h)
                               (habits d)))
                (completions d))))).
  { unfold names_on. apply Permutation_map, Permutation_filter_keep,
      sort_by_Permutation. }
  rewrite names_on_joined, flat_map_swap.
  rewrite (flat_map_ext _ _ (fun h => names_of_habit_on s e userId d k h U)).
  rewrite flat_map_if. rewrite <- filter_habits_of_done.
  destruct ((s <=? k) && (k <=? e)); cbn [andb].
  - reflexivity.
  - assert (filter (fun _ : habit_row => false) (habits d) = []) as ->
      by (apply filter_nil_iff; reflexivity).
    reflexivity.
Qed.

Lemma calendar_order_key (a b : Z * string) :
  (calendar_order collate a b = true -> fst a <= fst b)
  /\ (calendar_order collate a b = false -> fst b <= fst a).
Proof.
  unfold calendar_order.
  destruct (Z.ltb_spec (fst a) (fst b)), (Z.eqb_spec (fst a) (fst b));
    cbn; split; intros; try lia; discriminate.
Qed.
End CalendarFacts.

(** X22. When no habit has two completions on one day, the calendar
    of the window from [s] to [e] has one key per day of the window on
    which the user did at least one habit, the keys in ascending
    order of date, and under each key the names of the habits of the
    user done that day, each once per habit; days outside the window
    and habits of other users do not appear. *)
Theorem calendar_groups_the_users_completions collate s e userId d :
  completions_unique d ->
  let body := calendar_group (calendar_query collate s e userId d) in
  StronglySorted Z.lt (map fst body)
  /\ (forall k, In k (map fst body)
                <-> s <= k <= e
                    /\ exists h, In h (habits_of userId d)
                                 /\ done_on d (h_id h) k = true)
  /\ (forall k names, In (k, names) body ->
        Permutation names
          (map h_name (filter (fun h => done_on d (h_id h) k)
                         (habits_of userId d)))).
Proof.
  intros U body.
  destruct (calendar_group_grouped (calendar_query collate s e userId d))
    as (ND & Hk & Hv). fold body in ND, Hk, Hv.
  assert (Hkey : forall k, In k (map fst body)
                 <-> s <= k <= e
                     /\ exists h, In h (habits_of userId d)
                                  /\ done_on d (h_id h) k = true).
  { intros k. rewrite Hk, names_on_present.
    pose proof (names_on_calendar_query collate s e userId d k U) as P.
    destruct (Z.leb_spec s k), (Z.leb_spec k e); cbn [andb] in P;
      try (apply Permutation_sym, Permutation_nil in P; rewrite P;
           split; [congruence|lia]).
    split.
    - intros Hne. split; [lia|].
      destruct (filter (fun h => done_on d (h_id h) k) (habits_of userId d))
        as [|h l] eqn:E.
      + apply Permutation_sym, Permutation_nil in P. congruence.
      + exists h.
        assert (In h (filter (fun h => done_on d (h_id h) k)
                        (habits_of userId d))) as Hin
          by (rewrite E; now left).
        apply filter_In in Hin. exact Hin.
    - intros (_ & h & Hh & Hd) E. rewrite E in P.
      apply Permutation_nil in P.
      assert (In (h_name h)
                (map h_name (filter (fun h => done_on d (h_id h) k)
                               (habits_of userId d)))) as Hin
        by (apply in_map, filter_In; auto).
      rewrite P in Hin. destruct Hin. }
  split; [|split; [exact Hkey|]].
  - unfold body, calendar_group. apply calendar_fold_keys_sorted.
    + constructor.
    + unfold calendar_query. apply sort_by_by_key.
      * intros a b. apply calendar_order_key.
      * intros a b. apply calendar_order_key.
    + intros k r [].
  - intros k names Hin.
    assert (In k (map fst body)) as Hkin
      by (apply in_map_iff; exists (k, names); auto).
    apply Hkey in Hkin. destruct Hkin as [Hrange _].
    rewrite (Hv k names Hin).
    pose proof (names_on_calendar_query collate s e userId d k U) as P.
    destruct (Z.leb_spec s k), (Z.leb_spec k e); cbn [andb] in P;
      try lia. exact P.
Qed.

Lemma names_on_sorted collate k rows :
  StronglySorted (fun a b => calendar_order collate a b = true) rows ->
  StronglySorted (fun a b => collate a b = true) (names_on k rows).
Proof.
  unfold names_on. induction 1 as [|a l Hs IH Ha]; cbn; [constructor|].
  destruct (Z.eqb_spec (fst a) k) as [Ea|Ea]; [|exact IH].
  cbn [map]. constructor; [exact IH|].
  rewrite Forall_forall in *. intros n Hn. apply in_map_iff in Hn.
  destruct Hn as (b & <- & Hb). apply filter_In in Hb.
  destruct Hb as [Hb Eb]. apply Z.eqb_eq in Eb.
  specialize (Ha b Hb). unfold calendar_order in Ha.
  rewrite Ea, Eb, Z.ltb_irrefl, Z.eqb_refl in Ha. exact Ha.
Qed.

(** X23. With a collation that is total and transitive, the names under
    each date of the calendar are in the order of the collation. *)
Theorem calendar_names_are_collated collate s e userId d k names :
  (forall a b, collate a b = true \/ collate b a = true) ->
  (forall a b c, collate a b = true -> collate b c = true ->
                 collate a c = true) ->
  In (k, names) (calendar_group (calendar_query collate s e userId d)) ->
  StronglySorted (fun a b => collate a b = true) names.
Proof.
  intros Htot Htrans Hin.
  destruct (calendar_group_grouped (calendar_query collate s e userId d))
    as (_ & _ & Hv).
  rewrite (Hv k names Hin). apply names_on_sorted.
  unfold calendar_query. apply sort_by_StronglySorted.
  - intros a b. unfold calendar_order.
    destruct (Z.ltb_spec (fst a) (fst b)), (Z.ltb_spec (fst b) (fst a)),
      (Z.eqb_spec (fst a) (fst b)), (Z.eqb_spec (fst b) (fst a));
      cbn; try lia; auto.
  - intros a b c. unfold calendar_order.
    destruct (Z.ltb_spec (fst a) (fst b)), (Z.ltb_spec (fst b) (fst c)),
      (Z.ltb_spec (fst a) (fst c)), (Z.eqb_spec (fst a) (fst b)),
      (Z.eqb_spec (fst b) (fst c)), (Z.eqb_spec (fst a) (fst c));
      cbn; try lia; try discriminate; eauto.
Qed.


(** January 2024 of user 1: two keys. *)
Lemma calendar_groups_the_users_completions_witness :
  StronglySorted Z.lt
    (map fst (calendar_group
                (calendar_query Sample.collate 19723 19753 1 Sample.january))).
Proof.
  assert (U : completions_unique Sample.january).
  { unfold completions_unique. vm_compute.
    repeat constructor; cbn; intuition congruence. }
  destruct (calendar_groups_the_users_completions Sample.collate
              19723 19753 1 Sample.january U) as (H & _).
  exact H.
Defined.

Lemma calendar_names_are_collated_witness :
  StronglySorted (fun a b => Sample.collate a b = true) ["Run"; "Drink water"].
Proof.
  apply (calendar_names_are_collated Sample.collate 19723 19753 1
           Sample.january Sample.jan15).
  - intros a b. unfold Sample.collate.
    destruct (Z.leb_spec (JsString.length a) (JsString.length b)),
      (Z.leb_spec (JsString.length b) (JsString.length a)); auto; lia.
  - intros a b c. unfold Sample.collate. rewrite !Z.leb_le. lia.
  - left. reflexivity.
Defined.

(** The route for [year=2024&month=1]: the two days of January on which
    user 1 did something, with the names by length; the completion of
    December and the habit of user 2 are left out. *)
Example calendar_of_january :
  get_api_calendar_data Sample.utc Sample.date_in Sample.collate
    (Some "2024") (Some "1") (Some 1) Sample.january
  = Json [ (Sample.jan15, ["Run"; "Drink water"]);
           (Sample.jan15 + 1, ["Drink water"]) ].
Proof. vm_compute. reflexivity. Qed.

(* ================================================================== *)
(** * Further properties: the text of the local date *)
(* ================================================================== *)

Lemma DayWithinYear_range t :
  0 <= JsDate.DayWithinYear t < JsDate.DaysInYear (JsDate.YearFromTime t).
Proof.
  unfold JsDate.DayWithinYear, JsDate.YearFromTime.
  pose proof (JsDateFacts.YearFromDay_bounds (JsDate.Day t)) as H.
  rewrite JsDateFacts.DayFromYear_succ in H. lia.
Qed.

Lemma DateFromTime_range t :
  1 <= JsDate.DateFromTime t
    <= days_in_month (JsDate.YearFromTime t) (JsDate.MonthFromTime t + 1).
Proof.
  pose proof (DayWithinYear_range t) as H.
  rewrite DaysInYear_leap in H.
  unfold JsDate.DateFromTime, JsDate.MonthFromTime, JsDate.InLeapYear.
  rewrite DaysInYear_leap. cbv zeta.
  destruct (is_leap_year (JsDate.YearFromTime t)) eqn:L;
    change (366 =? 365) with false; change (365 =? 365) with true; cbv iota;
    JsDateFacts.case_leb; cbn; rewrite ?L; lia.
Qed.

Lemma getLocalDate_text_day tz now :
  exists day,
    ymd_day (getLocalDate_text tz now) = Some day
    /\ JsDate.MakeDay (ymd_year (getLocalDate_text tz now))
         (ymd_month (getLocalDate_text tz now) - 1) day
       = JsDate.getLocalDate tz now.
Proof.
  unfold getLocalDate_text, getFullYear, getMonth, JsDate.getDate.
  cbn [ymd_year ymd_month ymd_day]. eexists. split; [reflexivity|].
  replace (JsDate.MonthFromTime (JsDate.LocalTime tz now) + 1 - 1)
    with (JsDate.MonthFromTime (JsDate.LocalTime tz now)) by lia.
  rewrite JsDateFacts.MakeDay_of_time. unfold JsDate.getLocalDate. lia.
Qed.

(** X24. The year, month and day that [getLocalDate] prints are a date
    of the calendar, month from 1 to 12 and day within the month, and
    that date is the local day of the instant: the day number the
    embedding uses for the text. *)
Theorem getLocalDate_text_is_the_local_day tz now :
  let t := getLocalDate_text tz now in
  1 <= ymd_month t <= 12
  /\ exists day,
       ymd_day t = Some day
       /\ 1 <= day <= days_in_month (ymd_year t) (ymd_month t)
       /\ JsDate.MakeDay (ymd_year t) (ymd_month t - 1) day
          = JsDate.getLocalDate tz now.
Proof.
  cbv zeta. unfold getLocalDate_text, getFullYear, getMonth, JsDate.getDate.
  cbn [ymd_year ymd_month ymd_day].
  pose proof (JsDateFacts.MonthFromTime_range (JsDate.LocalTime tz now)).
  split; [lia|]. eexists. split; [reflexivity|]. split.
  - apply DateFromTime_range.
  - replace (JsDate.MonthFromTime (JsDate.LocalTime tz now) + 1 - 1)
      with (JsDate.MonthFromTime (JsDate.LocalTime tz now)) by lia.
    rewrite JsDateFacts.MakeDay_of_time. unfold JsDate.getLocalDate. lia.
Qed.

(** X25. Two instants are printed as the same date exactly when they
    fall on the same local day. *)
Theorem getLocalDate_text_same_iff_same_day tz a b :
  getLocalDate_text tz a = getLocalDate_text tz b
  <-> JsDate.getLocalDate tz a = JsDate.getLocalDate tz b.
Proof.
  split.
  - intros E.
    destruct (getLocalDate_text_day tz a) as (da & Ea & Ha).
    destruct (getLocalDate_text_day tz b) as (db & Eb & Hb).
    rewrite <- Ha, <- Hb. rewrite E in Ea. rewrite Ea in Eb.
    injection Eb as ->. now rewrite E.
  - unfold JsDate.getLocalDate. intros E.
    unfold getLocalDate_text, getFullYear, getMonth, JsDate.getDate,
      JsDate.DateFromTime, JsDate.MonthFromTime, JsDate.InLeapYear,
      JsDate.DayWithinYear, JsDate.YearFromTime.
    now rewrite E.
Qed.

(* ================================================================== *)
(** * Further properties: check-in, undo and add, seen from the streak *)
(* ================================================================== *)

Lemma existsb_filter {A} (p q : A -> bool) l :
  existsb p (filter q l) = existsb (fun x => q x && p x) l.
Proof.
  induction l as [|x l IH]; cbn; [reflexivity|].
  destruct (q x); cbn; now rewrite IH.
Qed.

Lemma done_on_delete_completion d id id' day day' :
  done_on (delete_completion id day d) id' day'
  = done_on d id' day' && negb ((id' =? id) && (day' =? day)).
Proof.
  unfold done_on, delete_completion. cbn [completions].
  rewrite existsb_filter.
  destruct ((id' =? id) && (day' =? day)) eqn:E; cbn [negb].
  - apply andb_prop in E. destruct E as [E1 E2].
    apply Z.eqb_eq in E1, E2. subst. rewrite andb_false_r.
    induction (completions d) as [|c l IH]; cbn; [reflexivity|].
    rewrite IH. now destruct (completion_on id day c).
  - rewrite andb_true_r. induction (completions d) as [|c l IH];
      cbn; [reflexivity|]. rewrite IH. f_equal.
    unfold completion_on.
    destruct (Z.eqb_spec (c_habit_id c) id'), (Z.eqb_spec (c_completed_date c) day');
      cbn; rewrite ?andb_false_r; try reflexivity.
    subst. now rewrite E.
Qed.

(** X26. A check-in and an undo touch nothing but the completion of
    that habit dated today: whether any other habit was done on any
    day, or this habit on another day, is as before, and so are the
    habit rows. *)
Theorem checkin_and_undo_touch_only_today tz now id userId d id' day' :
  (id', day') <> (id, JsDate.getLocalDate tz now) ->
  done_on (snd (post_checkin tz now id userId d)) id' day' = done_on d id' day'
  /\ done_on (snd (post_undo tz now id userId d)) id' day' = done_on d id' day'
  /\ habits (snd (post_checkin tz now id userId d)) = habits d
  /\ habits (snd (post_undo tz now id userId d)) = habits d.
Proof.
  intros Hne.
  assert ((id' =? id) && (day' =? JsDate.getLocalDate tz now) = false) as E.
  { destruct (Z.eqb_spec id' id), (Z.eqb_spec day' (JsDate.getLocalDate tz now));
      cbn; try reflexivity. subst. now destruct Hne. }
  unfold post_checkin, post_undo. cbv zeta.
  destruct (Z.of_nat _ =? 0); cbn [snd]; [now repeat split|].
  rewrite done_on_insert_completion, done_on_delete_completion, E.
  cbn [negb]. rewrite orb_false_r, andb_true_r. now repeat split.
Qed.

Lemma checkin_and_undo_touch_only_today_witness :
  let d := Sample.store [(1, Sample.jan15 - 1); (2, Sample.jan15)] in
  done_on (snd (post_checkin Sample.utc Sample.now 1 1 d)) 2 Sample.jan15 = true
  /\ done_on (snd (post_undo Sample.utc Sample.now 1 1 d)) 1 (Sample.jan15 - 1)
     = true.
Proof.
  cbv zeta. split.
  - destruct (checkin_and_undo_touch_only_today Sample.utc Sample.now 1 1
                (Sample.store [(1, Sample.jan15 - 1); (2, Sample.jan15)])
                2 Sample.jan15) as (H & _).
    + vm_compute. discriminate.
    + rewrite H. reflexivity.
  - destruct (checkin_and_undo_touch_only_today Sample.utc Sample.now 1 1
                (Sample.store [(1, Sample.jan15 - 1); (2, Sample.jan15)])
                1 (Sample.jan15 - 1)) as (_ & H & _).
    + vm_compute. discriminate.
    + rewrite H. reflexivity.
Defined.

(** X27. An undo that succeeds brings the streak of the habit to 0 for
    the rest of that local day, however long the run of days before
    today, in every zone. *)
Theorem undo_resets_streak tz now now' id userId d :
  fst (post_undo tz now id userId d) = Redirect "/" ->
  JsDate.getLocalDate tz now' = JsDate.getLocalDate tz now ->
  calculateStreak tz now' id (snd (post_undo tz now id userId d)) = 0.
Proof.
  intros Hok Hday. apply calculateStreak_without_today.
  intros c Hc Hid. rewrite Hday. unfold post_undo in Hc, Hok.
  cbv zeta in Hc, Hok. destruct (Z.of_nat _ =? 0); [discriminate Hok|].
  cbn [snd delete_completion completions] in Hc. apply filter_In in Hc.
  destruct Hc as [_ Hc]. apply negb_true_iff in Hc. unfold completion_on in Hc.
  rewrite Hid, Z.eqb_refl in Hc. cbn [andb] in Hc. now apply Z.eqb_neq.
Qed.

(** Three days in a row up to today, then the undo. *)
Lemma undo_resets_streak_witness :
  let d := Sample.store [(1, Sample.jan15); (1, Sample.jan15 - 1);
                         (1, Sample.jan15 - 2)] in
  calculateStreak Sample.utc_minus_5 Sample.now 1 d = 3
  /\ calculateStreak Sample.utc_minus_5 (Sample.now + 60000) 1
       (snd (post_undo Sample.utc_minus_5 Sample.now 1 1 d)) = 0.
Proof.
  cbv zeta. split; [reflexivity|].
  apply (undo_resets_streak Sample.utc_minus_5 Sample.now
           (Sample.now + 60000) 1 1); reflexivity.
Defined.

Section NewHabit.
Variable tz : Z.
Variable time_in : string -> option Z.

(** The completions of a reachable store are those of habits with an
    id the sequence has already handed out. *)
Lemma reachable_completions_below_seq d c :
  reachable tz time_in d -> In c (completions d) ->
  c_habit_id c < habits_id_seq d.
Proof.
  intros Hr Hc.
  pose proof (reachable_no_orphans tz time_in d Hr) as Ho.
  destruct (reachable_store_ok tz time_in d Hr) as (_ & _ & Hlt).
  unfold no_orphans in Ho. rewrite Forall_forall in Ho, Hlt.
  destruct (Ho c Hc) as (h & Hh & <-). now apply Hlt.
Qed.
End NewHabit.

(** X28. In a store the requests have led to, a habit that was just
    added is a new row at the end of the table, owned by the user, with
    the next id of the sequence, which no completion refers to: it has
    no completion dates and its streak is 0, while the other rows and
    all completions are as before. *)
Theorem new_habit_starts_empty tz time_in now now' habitName reminderTime
    userId d :
  reachable tz time_in d ->
  fst (post_add time_in now habitName reminderTime userId d) = Redirect "/" ->
  let d' := snd (post_add time_in now habitName reminderTime userId d) in
  exists h,
    habits d' = habits d ++ [h]
    /\ h_id h = habits_id_seq d
    /\ h_user_id h = Some userId
    /\ h_created_at h = now
    /\ completions d' = completions d
    /\ dates_of d' (h_id h) = []
    /\ calculateStreak tz now' (h_id h) d' = 0.
Proof.
  intros Hr Hok. cbv zeta.
  assert (Hfresh : forall c, In c (completions d) ->
                             c_habit_id c <> habits_id_seq d).
  { intros c Hc.
    pose proof (reachable_completions_below_seq tz time_in d c Hr Hc). lia. }
  unfold post_add in *. destruct habitName as [name|]; [|discriminate Hok].
  destruct (_ || _); [discriminate Hok|].
  destruct (_ >? _); [discriminate Hok|].
  destruct (negb (text_ok _)); [discriminate Hok|].
  destruct (reminder_param time_in reminderTime) as [rt|]; [|discriminate Hok].
  cbn [snd]. eexists. split; [reflexivity|].
  cbn [h_id h_user_id h_created_at completions].
  do 4 (split; [reflexivity|]).
  split.
  - unfold dates_of. cbn [completions].
    assert (filter (fun c => c_habit_id c =? habits_id_seq d) (completions d)
            = []) as ->; [|reflexivity].
    apply filter_nil_iff. intros c Hc. apply Z.eqb_neq. now apply Hfresh.
  - apply calculateStreak_without_today. cbn [completions].
    intros c Hc Hid. exfalso. now apply (Hfresh c Hc).
Qed.

Lemma new_habit_starts_empty_witness :
  let d := run Sample.utc Sample.time_in Sample.session empty_store in
  calculateStreak Sample.utc Sample.now 4
    (snd (post_add Sample.time_in Sample.now (Some "Stretch") None 1 d)) = 0.
Proof.
  cbv zeta.
  destruct (new_habit_starts_empty Sample.utc Sample.time_in Sample.now
              Sample.now (Some "Stretch") None 1
              (run Sample.utc Sample.time_in Sample.session empty_store))
    as (h & _ & Hid & _ & _ & _ & _ & Hs).
  - apply reachable_run. constructor.
  - reflexivity.
  - rewrite Hid in Hs. exact Hs.
Defined.

(** X29. What the weekly total of the home page counts, while the
    local year has four digits (1000 to 9999), so that [new Date(today)]
    is UTC midnight of today, on a server less than a day away from
    UTC: the completions of the user's habits dated today - 7 or later,
    or today - 6 or later when local time is ahead of UTC, completions
    dated after today included. *)
Theorem weekly_total_window tz localeCompare now sort userId d :
  1000 <= getFullYear tz now <= 9999 ->
  - JsDate.msPerDay < tz < JsDate.msPerDay ->
  let today := JsDate.getLocalDate tz now in
  let lo := if 0 <? tz then today - 6 else today - 7 in
  totalCompletionsThisWeek
    (view_stats (get_home tz localeCompare now sort userId d))
  = Zsum (map (fun h => Z.of_nat (List.length (completions_since lo d h)))
              (habits_of userId d)).
Proof. intros _. apply week_total_by_zone. Qed.

(** At UTC+03:00 the completion dated today - 7 is left out, the one
    dated today - 6 and the one dated tomorrow are counted. *)
Lemma weekly_total_window_witness :
  totalCompletionsThisWeek
    (view_stats
       (get_home Sample.utc_plus_3 Sample.localeCompare Sample.now None 1
          (Sample.store [(1, Sample.jan15 - 7); (1, Sample.jan15 - 6);
                         (1, Sample.jan15 + 1)])))
  = 2.
Proof.
  rewrite (weekly_total_window Sample.utc_plus_3 Sample.localeCompare
             Sample.now None 1).
  - reflexivity.
  - vm_compute. split; discriminate.
  - vm_compute. split; reflexivity.
Defined.
